(** * QB pressure analysis: the synthetic play generator and its reports

    A shallow embedding of [qb_pressure_analysis.py].

    - Floating-point numbers are modelled as exact rationals ([Q]); every
      comparison and every rounding of the source is written out.
    - [numpy.random] keeps one global generator state.  It is threaded
      explicitly through the sampling calls, in the order in which the
      source evaluates them, by the small state monad [Rand].  The samplers
      themselves are an interface ([NumpyRandom]) with the range and shape
      facts numpy documents for them ([NumpyRandomLaws]).
    - A [DataFrame] is an ordered list of named, typed columns; the methods
      of [NFLPressureAnalysis] are functions on the stored table
      [self.data], returning a result or the exception they raise together
      with the table they leave behind.  Printing and chart styling are not
      modelled. *)

From Stdlib Require Import String ZArith QArith Qround Qabs Qminmax Bool Arith List Sorted Permutation Lia Lqa.
Import ListNotations.
Open Scope Q_scope.

(** ** Numbers *)

Definition Qltb (x y : Q) : bool := negb (Qle_bool y x).

(** [bool * float] of numpy: [True] counts as 1.0 and [False] as 0.0. *)
Definition b2q (b : bool) : Q := if b then 1 else 0.

(** [np.clip(x, lo, hi)] is [minimum(maximum(x, lo), hi)]. *)
Definition clip (x lo hi : Q) : Q := Qmin (Qmax x lo) hi.

(** [np.rint]: the nearest integer, ties to the even one. *)
Definition rint (x : Q) : Z :=
  let f := Qfloor x in
  let r := x - inject_Z f in
  if Qltb r (1 # 2) then f
  else if Qltb (1 # 2) r then (f + 1)%Z
  else if Z.even f then f else (f + 1)%Z.

(** [Series.round(d)]: [rint(x * 10**d) / 10**d]. *)
Definition round_dec (d : nat) (x : Q) : Q :=
  inject_Z (rint (x * inject_Z (10 ^ Z.of_nat d))) / inject_Z (10 ^ Z.of_nat d).

(** ** Element-wise operations on aligned arrays *)

Fixpoint zip_with {A B C} (f : A -> B -> C) (a : list A) (b : list B) : list C :=
  match a, b with
  | x :: a', y :: b' => f x y :: zip_with f a' b'
  | _, _ => []
  end.

(** [np.where(c, x, y)] with two arrays, with an array and a scalar, and with
    two scalars (a scalar is broadcast over the condition). *)
Definition np_where {A} (c : list bool) (x y : list A) : list A :=
  zip_with (fun (b : bool) (p : A * A) => if b then fst p else snd p)
           c (zip_with pair x y).

Definition np_where_r {A} (c : list bool) (x : list A) (y : A) : list A :=
  zip_with (fun (b : bool) (a : A) => if b then a else y) c x.

Definition np_where_s {A} (c : list bool) (x y : A) : list A :=
  map (fun b : bool => if b then x else y) c.

(** [mask.sum()] *)
Definition mask_sum (mask : list bool) : nat := length (filter (fun b => b) mask).

(** [df.loc[mask, col] = values]: the selected rows receive the values in
    order.  (pandas raises when the number of values differs from the number
    of selected rows; the generator always passes [mask.sum()] values, and a
    row for which no value is left keeps its old one here.) *)
Fixpoint loc_assign {A} (mask : list bool) (values col : list A) : list A :=
  match mask, col with
  | true :: m, x :: c =>
      match values with
      | v :: vs => v :: loc_assign m vs c
      | [] => x :: loc_assign m [] c
      end
  | false :: m, x :: c => x :: loc_assign m values c
  | _, _ => []
  end.

(** [df.loc[mask, col] = v] with a scalar. *)
Definition loc_fill {A} (mask : list bool) (v : A) (col : list A) : list A :=
  zip_with (fun (b : bool) (x : A) => if b then v else x) mask col.

(** ** numpy.random *)

Class NumpyRandom (rng : Type) := {
  (** the global state that [np.random.seed(z)] installs *)
  seed : Z -> rng;
  (** [np.random.gamma(shape, scale, n)] *)
  gamma : Q -> Q -> nat -> rng -> list Q * rng;
  (** [np.random.uniform(lo, hi, n)] *)
  uniform : Q -> Q -> nat -> rng -> list Q * rng;
  (** [np.random.normal(mu, sigma, n)] *)
  normal : Q -> Q -> nat -> rng -> list Q * rng;
  (** [np.random.choice(a, n, p=p)] *)
  choice : forall A : Type, list A -> nat -> list Q -> rng -> list A * rng;
  (** [np.random.binomial(k, p)] with an array of parameters [p] *)
  binomial : Z -> list Q -> rng -> list Z * rng;
  (** [np.random.binomial(k, p)] with a scalar [p]: one draw *)
  binomial1 : Z -> Q -> rng -> Z * rng
}.
Arguments choice {rng _ A} _ _ _ _.

Definition is_bit (b : Z) : Prop := b = 0%Z \/ b = 1%Z.

Class NumpyRandomLaws {rng : Type} (R : NumpyRandom rng) : Prop := {
  gamma_length : forall k th n s, length (fst (gamma k th n s)) = n;
  gamma_nonneg : forall k th n s,
      0 < k -> 0 < th -> Forall (fun x => 0 <= x) (fst (gamma k th n s));
  uniform_length : forall lo hi n s, length (fst (uniform lo hi n s)) = n;
  uniform_range : forall lo hi n s,
      lo < hi -> Forall (fun x => lo <= x /\ x < hi) (fst (uniform lo hi n s));
  normal_length : forall mu sigma n s, length (fst (normal mu sigma n s)) = n;
  choice_length : forall A (a : list A) n p s,
      a <> [] -> length (fst (choice a n p s)) = n;
  choice_in : forall A (a : list A) n p s,
      a <> [] -> Forall (fun x => In x a) (fst (choice a n p s));
  binomial_length : forall p s, length (fst (binomial 1 p s)) = length p;
  binomial_bit : forall p s, Forall is_bit (fst (binomial 1 p s));
  binomial1_bit : forall p s, is_bit (fst (binomial1 1 p s))
}.

(** The state monad that threads the generator state. *)
Definition Rand (rng A : Type) : Type := rng -> A * rng.

Definition ret {rng A} (a : A) : Rand rng A := fun s => (a, s).

Definition bind {rng A B} (m : Rand rng A) (k : A -> Rand rng B) : Rand rng B :=
  fun s => k (fst (m s)) (snd (m s)).

Notation "x <- m ;; k" := (bind m (fun x => k))
  (at level 61, m at next level, right associativity).

(** [np.random.seed(z)] *)
Definition np_random_seed {rng} `{NumpyRandom rng} (z : Z) : Rand rng unit :=
  fun _ => (tt, seed z).

(** ** The generator: [create_realistic_nfl_data] *)

(** The local arrays of [create_realistic_nfl_data] as they stand after the
    interception line, before the final clean-up: the sampled inputs, the
    intermediate draws, and the derived outcome columns. *)
Record Locals := {
  l_play_id : list Z;
  l_time_to_throw : list Q;
  l_pressure_applied : list Z;
  l_time_to_pressure : list Q;
  l_down : list Z;
  l_distance : list Q;
  l_field_position : list Q;
  l_score_diff : list Q;
  l_quarter : list Z;
  l_def_alignment : list string;
  l_rushers : list Z;
  (** the two arrays of Bernoulli parameters and the two arrays drawn *)
  l_p_pressure : list Q;
  l_p_clean : list Q;
  l_draw_pressure : list Z;
  l_draw_clean : list Z;
  (** [df['completion']] as first assigned *)
  l_completion_drawn : list Z;
  (** the three arrays drawn for the yardage *)
  l_base_yards : list Q;
  l_bonus_yards : list Q;
  l_penalty_yards : list Q;
  (** [df['yards_gained']] as first assigned *)
  l_yards_drawn : list Q;
  (** the one scalar drawn for the sacks, and [df['sack']] *)
  l_sack_draw : Z;
  l_sack : list Z;
  (** the array drawn for the yardage of the sacks *)
  l_sack_loss : list Q;
  (** [df['yards_gained']] and [df['completion']] after the adjustment *)
  l_yards_gained : list Q;
  l_completion : list Z;
  l_interception : list Z
}.

Definition base_completion : Q := 0.65.

(** The Bernoulli parameter of a play under pressure, and of one without. *)
Definition completion_prob_pressure (time_to_throw : Q) : Q :=
  clip (base_completion - 0.15 - b2q (Qltb time_to_throw 2.0) * 0.10) 0.3 0.9.

Definition completion_prob_clean (time_to_throw : Q) : Q :=
  clip (base_completion + b2q (Qltb 2.5 time_to_throw) * 0.05) 0.3 0.9.

(** [df['pressure_applied'] == 1] and the like. *)
Definition eq1 (col : list Z) : list bool := map (fun v => (v =? 1)%Z) col.
Definition eq0 (col : list Z) : list bool := map (fun v => (v =? 0)%Z) col.

(** The yardage of a completed pass:
    [gamma(2,3) + (time_to_throw > 2.5) * gamma(1,2)
                - (pressure_applied == 1) * uniform(0,3)]. *)
Definition completed_yards (base bonus penalty time_to_throw : list Q)
                           (pressure_applied : list Z) : list Q :=
  zip_with Qminus
    (zip_with Qplus base
       (zip_with (fun t g => b2q (Qltb 2.5 t) * g) time_to_throw bonus))
    (zip_with (fun p u => b2q (p =? 1)%Z * u) pressure_applied penalty).

(** The rows in which a sack can occur:
    [(pressure_applied == 1) & (time_to_pressure < 2.0)
                             & (time_to_throw > time_to_pressure)]. *)
Definition sack_condition (pressure_applied : list Z)
                          (time_to_pressure time_to_throw : list Q) : list bool :=
  zip_with andb
    (zip_with andb (eq1 pressure_applied)
       (map (fun tp => Qltb tp 2.0) time_to_pressure))
    (zip_with (fun tt tp => Qltb tp tt) time_to_throw time_to_pressure).

(** [(pressure_applied == 1) & (completion == 0) & (sack == 0)] *)
Definition interception_condition (pressure_applied completion sack : list Z) : list bool :=
  zip_with andb (zip_with andb (eq1 pressure_applied) (eq0 completion)) (eq0 sack).

Definition alignments : list string :=
  ["4-3 Base"; "3-4 Base"; "Nickel"; "Dime"; "Blitz"]%string.

Section Generator.
Context {rng : Type} {R : NumpyRandom rng}.

Definition generate (n_plays : nat) : Rand rng Locals :=
  let play_id := map Z.of_nat (seq 1 n_plays) in
  time_to_throw <- gamma 2 1.25 n_plays ;;
  pressure_applied <- choice [0; 1]%Z n_plays [0.65; 0.35] ;;
  time_to_pressure <- gamma 1.5 1.5 n_plays ;;
  down <- choice [1; 2; 3; 4]%Z n_plays [0.35; 0.30; 0.25; 0.10] ;;
  distance <- gamma 2 5 n_plays ;;
  field_position <- uniform 5 95 n_plays ;;
  score_diff <- normal 0 10 n_plays ;;
  quarter <- choice [1; 2; 3; 4]%Z n_plays [0.25; 0.25; 0.25; 0.25] ;;
  def_alignment <- choice alignments n_plays [0.15; 0.15; 0.35; 0.20; 0.15] ;;
  rushers <- choice [3; 4; 5; 6]%Z n_plays [0.10; 0.50; 0.30; 0.10] ;;
  (* completion *)
  let p_pressure := map completion_prob_pressure time_to_throw in
  draw_pressure <- binomial 1 p_pressure ;;
  let p_clean := map completion_prob_clean time_to_throw in
  draw_clean <- binomial 1 p_clean ;;
  let completion_drawn := np_where (eq1 pressure_applied) draw_pressure draw_clean in
  (* yards gained *)
  base <- gamma 2 3 n_plays ;;
  bonus <- gamma 1 2 n_plays ;;
  penalty <- uniform 0 3 n_plays ;;
  let yards_drawn :=
    np_where_r (eq1 completion_drawn)
      (completed_yards base bonus penalty time_to_throw pressure_applied) 0 in
  (* sacks *)
  sack_draw <- binomial1 1 0.4 ;;
  let sack :=
    np_where_s (sack_condition pressure_applied time_to_pressure time_to_throw)
               sack_draw 0%Z in
  (* adjust yards for sacks *)
  sack_loss <- uniform 3 8 (mask_sum (eq1 sack)) ;;
  let yards_gained := loc_assign (eq1 sack) (map Qopp sack_loss) yards_drawn in
  let completion := loc_fill (eq1 sack) 0%Z completion_drawn in
  (* interceptions *)
  int_pressure <- binomial1 1 0.03 ;;
  int_other <- binomial1 1 0.01 ;;
  let interception :=
    np_where_s (interception_condition pressure_applied completion sack)
               int_pressure int_other in
  ret {| l_play_id := play_id;
         l_time_to_throw := time_to_throw;
         l_pressure_applied := pressure_applied;
         l_time_to_pressure := time_to_pressure;
         l_down := down;
         l_distance := distance;
         l_field_position := field_position;
         l_score_diff := score_diff;
         l_quarter := quarter;
         l_def_alignment := def_alignment;
         l_rushers := rushers;
         l_p_pressure := p_pressure;
         l_p_clean := p_clean;
         l_draw_pressure := draw_pressure;
         l_draw_clean := draw_clean;
         l_completion_drawn := completion_drawn;
         l_base_yards := base;
         l_bonus_yards := bonus;
         l_penalty_yards := penalty;
         l_yards_drawn := yards_drawn;
         l_sack_draw := sack_draw;
         l_sack := sack;
         l_sack_loss := sack_loss;
         l_yards_gained := yards_gained;
         l_completion := completion;
         l_interception := interception |}.
End Generator.

(** ** pandas *)

Inductive Column :=
| IntCol (v : list Z)
| FloatCol (v : list Q)
| StrCol (v : list string)
  (** a categorical as [pd.cut] builds it: the labels, and for every row the
      position of its bin, or [None] for NaN *)
| CatCol (labels : list string) (codes : list (option nat)).

(** The columns in order, as [df.columns] lists them. *)
Definition DataFrame := list (string * Column).

Inductive Error :=
| KeyError (key : string)
| ValueError (msg : string)
| TypeError (msg : string)
| FileNotFoundError (path : string).

Inductive Result (A : Type) :=
| Ok (a : A)
| Raise (e : Error).
Arguments Ok {A} a.
Arguments Raise {A} e.

Definition rbind {A B} (m : Result A) (k : A -> Result B) : Result B :=
  match m with
  | Ok a => k a
  | Raise e => Raise e
  end.

Notation "x <~ m ;; k" := (rbind m (fun x => k))
  (at level 61, m at next level, right associativity).

(** [df[name]] *)
Fixpoint getitem (df : DataFrame) (name : string) : Result Column :=
  match df with
  | [] => Raise (KeyError name)
  | (n, c) :: df' => if String.eqb n name then Ok c else getitem df' name
  end.

(** [df[name] = c]: an existing column is replaced where it stands, a new
    one is added after the last. *)
Fixpoint setitem (df : DataFrame) (name : string) (c : Column) : DataFrame :=
  match df with
  | [] => [(name, c)]
  | (n, c') :: df' =>
      if String.eqb n name then (n, c) :: df' else (n, c') :: setitem df' name c
  end.

Definition columns (df : DataFrame) : list string := map fst df.

Definition col_length (c : Column) : nat :=
  match c with
  | IntCol v => length v
  | FloatCol v => length v
  | StrCol v => length v
  | CatCol _ v => length v
  end.

(** The values of a numeric column as floats. *)
Definition numeric (df : DataFrame) (name : string) : Result (list Q) :=
  c <~ getitem df name ;;
  match c with
  | IntCol v => Ok (map inject_Z v)
  | FloatCol v => Ok v
  | _ => Raise (TypeError name)
  end.

Definition int_col (df : DataFrame) (name : string) : Result (list Z) :=
  c <~ getitem df name ;;
  match c with
  | IntCol v => Ok v
  | _ => Raise (TypeError name)
  end.

Definition str_col (df : DataFrame) (name : string) : Result (list string) :=
  c <~ getitem df name ;;
  match c with
  | StrCol v => Ok v
  | _ => Raise (TypeError name)
  end.

(** Boolean indexing: [v[mask]]. *)
Fixpoint select {A} (mask : list bool) (v : list A) : list A :=
  match mask, v with
  | b :: m, x :: v' => if b then x :: select m v' else select m v'
  | _, _ => []
  end.

Definition select_col (mask : list bool) (c : Column) : Column :=
  match c with
  | IntCol v => IntCol (select mask v)
  | FloatCol v => FloatCol (select mask v)
  | StrCol v => StrCol (select mask v)
  | CatCol l v => CatCol l (select mask v)
  end.

(** [df[mask]] *)
Definition filter_rows (mask : list bool) (df : DataFrame) : DataFrame :=
  map (fun nc => (fst nc, select_col mask (snd nc))) df.

(** The rows of a column that hold a value (not NaN). *)
Definition notnull (c : Column) : list bool :=
  match c with
  | IntCol v => map (fun _ => true) v
  | FloatCol v => map (fun _ => true) v
  | StrCol v => map (fun _ => true) v
  | CatCol _ v => map (fun o => match o with Some _ => true | None => false end) v
  end.

Definition Qsum (v : list Q) : Q := fold_right Qplus 0 v.

(** ['mean'] of a group; NaN ([None]) for a group without rows. *)
Definition mean (v : list Q) : option Q :=
  match v with
  | [] => None
  | _ => Some (Qsum v / inject_Z (Z.of_nat (length v)))
  end.

Definition group_mean (group : list bool) (v : list Q) : option Q :=
  mean (select group v).

(** ['count'] of a group: its rows that hold a value in the column. *)
Definition group_count (group : list bool) (c : Column) : Z :=
  Z.of_nat (mask_sum (zip_with andb group (notnull c))).

(** [.round(d)] on a float cell; NaN stays NaN. *)
Definition round_cell (d : nat) (x : option Q) : option Q :=
  option_map (round_dec d) x.

(** The sorted distinct values of a key column. *)
Fixpoint insert_uniq {A} (cmp : A -> A -> comparison) (x : A) (l : list A) : list A :=
  match l with
  | [] => [x]
  | y :: l' =>
      match cmp x y with
      | Lt => x :: l
      | Eq => l
      | Gt => y :: insert_uniq cmp x l'
      end
  end.

Definition unique_sorted {A} (cmp : A -> A -> comparison) (l : list A) : list A :=
  fold_right (insert_uniq cmp) [] l.

(** [np.searchsorted(bins, x, side='left')] on increasing [bins]. *)
Definition searchsorted_left (bins : list Q) (x : Q) : nat :=
  length (filter (fun b => Qltb b x) bins).

(** [pd.cut(x, bins)] with the defaults [right=True, include_lowest=False]:
    the position of the interval [(bins[i], bins[i+1]]] that holds [x], NaN
    when [x] lies in none. *)
Definition cut1 (bins : list Q) (x : Q) : option nat :=
  let i := searchsorted_left bins x in
  if (i =? 0)%nat || (i =? length bins)%nat then None else Some (i - 1)%nat.

Definition cut (v : list Q) (bins : list Q) (labels : list string) : Column :=
  CatCol labels (map (cut1 bins) v).

(** The rows of a categorical column that fall in bin [k]. *)
Definition in_bin (k : nat) (codes : list (option nat)) : list bool :=
  map (fun o => match o with Some j => (j =? k)%nat | None => false end) codes.

(** A stable insertion sort; [before x y] says that [x] must come strictly
    before [y], and rows that are not ordered keep their relative order. *)
Fixpoint insert_sorted {A} (before : A -> A -> bool) (x : A) (l : list A) : list A :=
  match l with
  | [] => [x]
  | y :: l' => if before y x then y :: insert_sorted before x l' else x :: l
  end.

Definition sort_stable {A} (before : A -> A -> bool) (l : list A) : list A :=
  fold_right (insert_sorted before) [] l.

(** The order of [sort_values] on float cells, ascending and descending; NaN
    sorts last in either direction. *)
Definition cell_asc (x y : option Q) : bool :=
  match x, y with
  | Some a, Some b => Qltb a b
  | Some _, None => true
  | None, _ => false
  end.

Definition cell_desc (x y : option Q) : bool :=
  match x, y with
  | Some a, Some b => Qltb b a
  | Some _, None => true
  | None, _ => false
  end.

(** [new.index = labels]: the number of labels must be the number of rows. *)
Definition set_index {A} (labels : list string) (rows : list A) : Result (list (string * A)) :=
  if (length labels =? length rows)%nat then Ok (combine labels rows)
  else Raise (ValueError "Length mismatch").

(** ** The table returned by [create_realistic_nfl_data] *)

(** The clean-up of the data types and the columns of [df] in their order:
    the keys of the dictionary, then the outcome columns as they were added. *)
Definition finish (l : Locals) : DataFrame :=
  [ ("play_id", IntCol (l_play_id l));
    ("time_to_throw", FloatCol (map (round_dec 2) (l_time_to_throw l)));
    ("pressure_applied", IntCol (l_pressure_applied l));
    ("time_to_pressure", FloatCol (map (round_dec 2) (l_time_to_pressure l)));
    ("down", IntCol (l_down l));
    ("distance", FloatCol (map (round_dec 1) (l_distance l)));
    ("field_position", FloatCol (l_field_position l));
    ("score_diff", FloatCol (l_score_diff l));
    ("quarter", IntCol (l_quarter l));
    ("def_alignment", StrCol (l_def_alignment l));
    ("rushers", IntCol (l_rushers l));
    ("completion", IntCol (l_completion l));
    ("yards_gained", FloatCol (map (round_dec 1) (l_yards_gained l)));
    ("sack", IntCol (l_sack l));
    ("interception", IntCol (l_interception l)) ]%string.

Definition default_n_plays : nat := 2500.

Definition create_realistic_nfl_data {rng} `{NumpyRandom rng} (n_plays : nat)
  : Rand rng DataFrame :=
  l <- generate n_plays ;;
  ret (finish l).

(** [NFLPressureAnalysis.__init__]: the value stored in [self.data]. *)
Definition init {rng} `{NumpyRandom rng} : Rand rng DataFrame :=
  _ <- np_random_seed 42 ;;
  create_realistic_nfl_data default_n_plays.

(** The field of row [i] in an integer and in a float column. *)
Definition int_at (df : DataFrame) (name : string) (i : nat) : option Z :=
  match getitem df name with
  | Ok (IntCol v) => nth_error v i
  | _ => None
  end.

Definition float_at (df : DataFrame) (name : string) (i : nat) : option Q :=
  match getitem df name with
  | Ok (FloatCol v) => nth_error v i
  | _ => None
  end.

(** ** The reports of [NFLPressureAnalysis] *)

(** A method reads the stored table [self.data]; it returns its result, or
    the exception it raises, and the table it leaves in [self.data]. *)
Definition Method (A : Type) : Type := DataFrame -> Result A * DataFrame.

Record PressureStats := {
  completion_pct : option Q;
  yards_per_attempt : option Q;
  sack_pct : option Q;
  int_pct : option Q;
  total_plays : Z
}.

Record TimeStats := {
  ts_completion : option Q;
  ts_yards_gained : option Q;
  ts_play_id : Z
}.

Record DefStats := {
  def_sack_pct : option Q;
  def_incompletion_pct : option Q;
  def_int_pct : option Q;
  def_pressure_plays : Z
}.

Record TimingStats := {
  success_rate : option Q;
  timing_sack_pct : option Q;
  avg_yards_allowed : option Q;
  total_pressures : Z
}.

(** What [create_visualizations] plots on its six axes. *)
Record Figure := {
  ax1_completion : list (string * option Q);
  ax2_yards : list (string * option Q);
  ax3_time_to_throw : list Q * list Q;
  ax4_completion_by_time : list (nat * list (Z * option Q));
  ax5_alignment_success : list (string * option Q);
  ax6_timing_success : list (nat * option Q)
}.

Definition time_bins : list Q := [0; 2.0; 2.5; 3.0; 10].
Definition time_labels : list string :=
  ["Quick (<2.0s)"; "Normal (2.0-2.5s)"; "Extended (2.5-3.0s)"; "Very Long (>3.0s)"]%string.

Definition pressure_bins : list Q := [0; 1.5; 2.5; 3.5; 10].
Definition pressure_labels : list string :=
  ["Immediate (<1.5s)"; "Quick (1.5-2.5s)"; "Delayed (2.5-3.5s)"; "Late (>3.5s)"]%string.
Definition pressure_labels_short : list string :=
  ["<1.5s"; "1.5-2.5s"; "2.5-3.5s"; ">3.5s"]%string.

Definition Qeqb1 (x : Q) : bool := Qeq_bool x 1.
Definition Qeqb0 (x : Q) : bool := Qeq_bool x 0.

(** [(sack == 1) | (completion == 0)], with [True] as 1.0 for the mean. *)
Definition sack_or_incomplete (sack completion : list Q) : list Q :=
  map b2q (zip_with orb (map Qeqb1 sack) (map Qeqb0 completion)).

(** [.unstack()] of a series indexed by (bucket, pressure): one row for each
    bucket, one cell for each pressure value, NaN where the pair is absent. *)
Definition unstack (levels : list (nat * Z)) (cell : nat * Z -> option Q)
  : list (nat * list (Z * option Q)) :=
  let present b p :=
    existsb (fun kp : nat * Z => (fst kp =? b)%nat && (snd kp =? p)%Z) levels in
  map (fun b =>
         (b, map (fun p => (p, if present b p then cell (b, p) else None))
                 (unique_sorted Z.compare (map snd levels))))
      (unique_sorted Nat.compare (map fst levels)).

(** [ax.bar(x, height)]: the heights are broadcast against the labels. *)
Definition bar (x : list string) (height : list (option Q))
  : Result (list (string * option Q)) :=
  if (length height =? length x)%nat then Ok (combine x height)
  else match height with
       | [h] => Ok (map (fun l => (l, h)) x)
       | _ => Raise (ValueError "shape mismatch")
       end.

Section Reports.
(** The [observed] default of [groupby] on a categorical key: [False] up to
    pandas 2, [True] from pandas 3.  With [False] every category is a
    group, with [True] only the categories that occur. *)
Variable observed : bool.

(** The groups of a categorical key, and of a categorical key paired with
    an integer key. *)
Definition bin_levels (labels : list string) (codes : list (option nat)) : list nat :=
  filter (fun k => negb observed || (0 <? mask_sum (in_bin k codes))%nat)
         (seq 0 (length labels)).

Definition pair_group (codes : list (option nat)) (key : list Z) (kp : nat * Z)
  : list bool :=
  zip_with andb (in_bin (fst kp) codes) (map (Z.eqb (snd kp)) key).

Definition pair_levels (labels : list string) (codes : list (option nat))
                       (key : list Z) : list (nat * Z) :=
  filter (fun kp => negb observed || (0 <? mask_sum (pair_group codes key kp))%nat)
         (list_prod (seq 0 (length labels)) (unique_sorted Z.compare key)).

Definition cat_col_labels (df : DataFrame) (name : string)
  : Result (list string * list (option nat)) :=
  c <~ getitem df name ;;
  match c with
  | CatCol l v => Ok (l, v)
  | _ => Raise (TypeError name)
  end.

(** [self.data.groupby('pressure_applied').agg({...}).round(3)] *)
Definition pressure_groups (df : DataFrame) : Result (list (Z * PressureStats)) :=
  key <~ int_col df "pressure_applied" ;;
  completion <~ numeric df "completion" ;;
  yards_gained <~ numeric df "yards_gained" ;;
  sack <~ numeric df "sack" ;;
  interception <~ numeric df "interception" ;;
  play_id <~ getitem df "play_id" ;;
  Ok (map (fun k =>
             let g := map (Z.eqb k) key in
             (k, {| completion_pct := round_cell 3 (group_mean g completion);
                    yards_per_attempt := round_cell 3 (group_mean g yards_gained);
                    sack_pct := round_cell 3 (group_mean g sack);
                    int_pct := round_cell 3 (group_mean g interception);
                    total_plays := group_count g play_id |}))
          (unique_sorted Z.compare key)).

Definition pressure_impact_summary : Method (list (string * PressureStats)) :=
  fun df =>
    (stats <~ pressure_groups df ;;
     set_index ["No Pressure"; "Pressure Applied"]%string (map snd stats),
     df).

(** [self.data.groupby(['time_bucket', 'pressure_applied']).agg({...}).round(3)] *)
Definition time_groups (df : DataFrame) : Result (list ((nat * Z) * TimeStats)) :=
  bucket <~ cat_col_labels df "time_bucket" ;;
  key <~ int_col df "pressure_applied" ;;
  completion <~ numeric df "completion" ;;
  yards_gained <~ numeric df "yards_gained" ;;
  play_id <~ getitem df "play_id" ;;
  Ok (map (fun kp =>
             let g := pair_group (snd bucket) key kp in
             (kp, {| ts_completion := round_cell 3 (group_mean g completion);
                     ts_yards_gained := round_cell 3 (group_mean g yards_gained);
                     ts_play_id := group_count g play_id |}))
          (pair_levels (fst bucket) (snd bucket) key)).

Definition time_to_throw_analysis : Method (list ((nat * Z) * TimeStats)) :=
  fun df =>
    match numeric df "time_to_throw" with
    | Raise e => (Raise e, df)
    | Ok time_to_throw =>
        let df' := setitem df "time_bucket" (cut time_to_throw time_bins time_labels) in
        (time_groups df', df')
    end.

(** [self.data[self.data['pressure_applied'] == 1]] *)
Definition pressure_rows (df : DataFrame) : Result DataFrame :=
  key <~ int_col df "pressure_applied" ;;
  Ok (filter_rows (eq1 key) df).

Definition alignment_groups (pressure_plays : DataFrame)
  : Result (list (string * DefStats)) :=
  key <~ str_col pressure_plays "def_alignment" ;;
  sack <~ numeric pressure_plays "sack" ;;
  completion <~ numeric pressure_plays "completion" ;;
  interception <~ numeric pressure_plays "interception" ;;
  play_id <~ getitem pressure_plays "play_id" ;;
  Ok (map (fun k =>
             let g := map (String.eqb k) key in
             (k, {| def_sack_pct := round_cell 3 (group_mean g sack);
                    def_incompletion_pct :=
                      round_cell 3 (option_map (fun m => 1 - m) (group_mean g completion));
                    def_int_pct := round_cell 3 (group_mean g interception);
                    def_pressure_plays := group_count g play_id |}))
          (unique_sorted String.compare key)).

Definition defensive_alignment_effectiveness : Method (list (string * DefStats)) :=
  fun df =>
    (pressure_plays <~ pressure_rows df ;;
     stats <~ alignment_groups pressure_plays ;;
     Ok (sort_stable (fun a b => cell_desc (def_sack_pct (snd a)) (def_sack_pct (snd b)))
                     stats),
     df).

(** The copy of the pressure plays with the bucket of their pressure time. *)
Definition with_pressure_timing (pressure_plays : DataFrame) (labels : list string)
  : Result DataFrame :=
  time_to_pressure <~ numeric pressure_plays "time_to_pressure" ;;
  Ok (setitem pressure_plays "pressure_timing" (cut time_to_pressure pressure_bins labels)).

Definition optimal_pressure_timing : Method (list (nat * TimingStats)) :=
  fun df =>
    (pressure_plays <~ pressure_rows df ;;
     completion <~ numeric pressure_plays "completion" ;;
     sack <~ numeric pressure_plays "sack" ;;
     interception <~ numeric pressure_plays "interception" ;;
     let successful :=
       zip_with orb (zip_with orb (map Qeqb0 completion) (map Qeqb1 sack))
                (map Qeqb1 interception) in
     let pressure_plays :=
       setitem pressure_plays "successful_pressure"
               (IntCol (map (fun b : bool => if b then 1%Z else 0%Z) successful)) in
     pressure_plays <~ with_pressure_timing pressure_plays pressure_labels ;;
     timing <~ cat_col_labels pressure_plays "pressure_timing" ;;
     successful_pressure <~ numeric pressure_plays "successful_pressure" ;;
     sack <~ numeric pressure_plays "sack" ;;
     yards_gained <~ numeric pressure_plays "yards_gained" ;;
     play_id <~ getitem pressure_plays "play_id" ;;
     Ok (map (fun k =>
                let g := in_bin k (snd timing) in
                (k, {| success_rate := round_cell 3 (group_mean g successful_pressure);
                       timing_sack_pct := round_cell 3 (group_mean g sack);
                       avg_yards_allowed := round_cell 3 (group_mean g yards_gained);
                       total_pressures := group_count g play_id |}))
             (bin_levels (fst timing) (snd timing))),
     df).

(** [self.data.groupby('pressure_applied')[name].mean()] *)
Definition mean_by_pressure (df : DataFrame) (name : string) : Result (list (option Q)) :=
  key <~ int_col df "pressure_applied" ;;
  v <~ numeric df name ;;
  Ok (map (fun k => group_mean (map (Z.eqb k) key) v) (unique_sorted Z.compare key)).

(** Whether the directory [/home/claude/nfl_analytics_project], into which
    [create_visualizations] saves its figure, exists when it is called. *)
Variable output_dir_exists : bool.

(** [.plot(kind='bar')] of a frame or series: pandas raises TypeError when
    there is nothing to plot. *)
Definition plot {A} (data : list A) : Result unit :=
  match data with
  | [] => Raise (TypeError "no numeric data to plot")
  | _ => Ok tt
  end.

(** [plt.savefig(path)] into the fixed directory. *)
Definition savefig : Result unit :=
  if output_dir_exists then Ok tt
  else Raise (FileNotFoundError
                "/home/claude/nfl_analytics_project/qb_pressure_visualizations.png").

(** The figure is returned as the data of its six charts.  Of the drawing
    only what can raise is kept: the bars of charts 1 and 2 (the heights
    must fit the two labels), the bar plots of charts 4 and 6 (with no group
    there is nothing to plot), the sort of chart 5 (with no pressure play,
    [apply] gives a frame and [sort_values] lacks its column), and saving
    the file.  In charts 5 and 6 the function given to [apply] reads [sack]
    and [completion] only when there is a group to apply it to. *)
Definition create_visualizations : Method Figure :=
  fun df =>
    ((* 1. completion rate by pressure *)
     pressure_comp <~ mean_by_pressure df "completion" ;;
     ax1 <~ bar ["No Pressure"; "Pressure"]%string pressure_comp ;;
     (* 2. yards per attempt by pressure *)
     pressure_yards <~ mean_by_pressure df "yards_gained" ;;
     ax2 <~ bar ["No Pressure"; "Pressure"]%string pressure_yards ;;
     (* 3. time to throw distribution *)
     key <~ int_col df "pressure_applied" ;;
     time_to_throw <~ numeric df "time_to_throw" ;;
     let no_pressure_time := select (eq0 key) time_to_throw in
     let pressure_time := select (eq1 key) time_to_throw in
     (* 4. completion rate by time bucket *)
     bucket <~ cat_col_labels df "time_bucket" ;;
     key <~ int_col df "pressure_applied" ;;
     completion <~ numeric df "completion" ;;
     let time_comp :=
       unstack (pair_levels (fst bucket) (snd bucket) key)
               (fun kp => group_mean (pair_group (snd bucket) key kp) completion) in
     _ <~ plot time_comp ;;
     (* 5. defensive alignment effectiveness *)
     def_pressure <~ pressure_rows df ;;
     alignment <~ str_col def_pressure "def_alignment" ;;
     def_success <~
       match alignment with
       | [] => Raise (TypeError "sort_values() missing the argument by")
       | _ =>
           sack <~ numeric def_pressure "sack" ;;
           completion <~ numeric def_pressure "completion" ;;
           Ok (sort_stable (fun a b => cell_asc (snd a) (snd b))
                 (map (fun k => (k, group_mean (map (String.eqb k) alignment)
                                               (sack_or_incomplete sack completion)))
                      (unique_sorted String.compare alignment)))
       end ;;
     (* 6. pressure timing effectiveness *)
     pressure_plays <~ pressure_rows df ;;
     pressure_plays <~ with_pressure_timing pressure_plays pressure_labels_short ;;
     timing <~ cat_col_labels pressure_plays "pressure_timing" ;;
     timing_success <~
       match bin_levels (fst timing) (snd timing) with
       | [] => Ok []
       | levels =>
           sack <~ numeric pressure_plays "sack" ;;
           completion <~ numeric pressure_plays "completion" ;;
           Ok (map (fun k => (k, group_mean (in_bin k (snd timing))
                                            (sack_or_incomplete sack completion)))
                   levels)
       end ;;
     _ <~ plot timing_success ;;
     _ <~ savefig ;;
     Ok {| ax1_completion := ax1;
           ax2_yards := ax2;
           ax3_time_to_throw := (no_pressure_time, pressure_time);
           ax4_completion_by_time := time_comp;
           ax5_alignment_success := def_success;
           ax6_timing_success := timing_success |},
     df).

(** *** Invoking the reports in some order *)

Inductive Op :=
| PressureImpactSummary
| TimeToThrowAnalysis
| DefensiveAlignmentEffectiveness
| OptimalPressureTiming
| CreateVisualizations.

Inductive Outcome :=
| PressureOut (r : Result (list (string * PressureStats)))
| TimeOut (r : Result (list ((nat * Z) * TimeStats)))
| AlignmentOut (r : Result (list (string * DefStats)))
| TimingOut (r : Result (list (nat * TimingStats)))
| VisualOut (r : Result Figure).

Definition invoke (op : Op) (df : DataFrame) : Outcome * DataFrame :=
  match op with
  | PressureImpactSummary =>
      (PressureOut (fst (pressure_impact_summary df)), snd (pressure_impact_summary df))
  | TimeToThrowAnalysis =>
      (TimeOut (fst (time_to_throw_analysis df)), snd (time_to_throw_analysis df))
  | DefensiveAlignmentEffectiveness =>
      (AlignmentOut (fst (defensive_alignment_effectiveness df)),
       snd (defensive_alignment_effectiveness df))
  | OptimalPressureTiming =>
      (TimingOut (fst (optimal_pressure_timing df)), snd (optimal_pressure_timing df))
  | CreateVisualizations =>
      (VisualOut (fst (create_visualizations df)), snd (create_visualizations df))
  end.

(** The calls in the given order on one analysis object: each call sees
    the table the calls before it left, and its outcome is recorded. *)
Fixpoint run (ops : list Op) (df : DataFrame) : list (Op * Outcome) * DataFrame :=
  match ops with
  | [] => ([], df)
  | op :: ops' =>
      let r := invoke op df in
      let rest := run ops' (snd r) in
      ((op, fst r) :: fst rest, snd rest)
  end.

(** The order of [main]. *)
Definition main_order : list Op :=
  [PressureImpactSummary; TimeToThrowAnalysis; DefensiveAlignmentEffectiveness;
   OptimalPressureTiming; CreateVisualizations].
End Reports.

(** ** A replay generator

    An instance of the sampling interface whose draws are read from a tape,
    used to run the program on concrete draws.  A draw that falls outside
    the range of its sampler is replaced by a value inside it. *)

Definition Tape := list Q.

Fixpoint draw (n : nat) (t : Tape) : list Q * Tape :=
  match n with
  | O => ([], t)
  | S n' => (hd 0 t :: fst (draw n' (tl t)), snd (draw n' (tl t)))
  end.

Definition tape_uniform (lo hi : Q) (n : nat) (t : Tape) : list Q * Tape :=
  (map (fun x => if Qle_bool lo x && Qltb x hi then x else lo) (fst (draw n t)),
   snd (draw n t)).

Definition tape_choice (A : Type) (a : list A) (n : nat) (p : list Q) (t : Tape)
  : list A * Tape :=
  match a with
  | [] => ([], t)
  | d :: _ =>
      (map (fun x => nth (Z.to_nat (Qfloor x) mod length a) a d) (fst (draw n t)),
       snd (draw n t))
  end.

Definition bernoulli (k : Z) (p x : Q) : Z := if Qltb x p then k else 0%Z.

Definition tape_seed (z : Z) : Tape :=
  map (fun i => inject_Z ((z * Z.of_nat (S i)) mod 23) / 2) (seq 0 64).

#[export] Instance TapeRandom : NumpyRandom Tape := {
  seed := tape_seed;
  gamma := fun _ _ n t => (map Qabs (fst (draw n t)), snd (draw n t));
  uniform := tape_uniform;
  normal := fun mu sigma n t => (map (fun x => mu + sigma * x) (fst (draw n t)), snd (draw n t));
  choice := tape_choice;
  binomial := fun k p t =>
    (zip_with (bernoulli k) p (fst (draw (length p) t)), snd (draw (length p) t));
  binomial1 := fun k p t => (bernoulli k p (hd 0 t), tl t)
}.

(** Three plays: a sack under quick pressure whose loss is drawn as 7.96, a
    clean play released after 11 seconds, and a pressure play whose pressure
    arrives after 11 seconds. *)
Definition example_tape : Tape :=
  [ 3; 11; 1.5 ]          (* time_to_throw *)
  ++ [ 1; 0; 1 ]          (* pressure_applied *)
  ++ [ 1; 12; 11 ]        (* time_to_pressure *)
  ++ [ 0; 1; 2 ]          (* down *)
  ++ [ 10; 7.25; 3 ]      (* distance *)
  ++ [ 20; 50; 80 ]       (* field_position *)
  ++ [ 0; -0.3; 0.7 ]     (* score_diff *)
  ++ [ 0; 1; 3 ]          (* quarter *)
  ++ [ 4; 2; 4 ]          (* def_alignment *)
  ++ [ 2; 1; 1 ]          (* rushers *)
  ++ [ 0.1; 0.1; 0.1 ]    (* completion draws under pressure *)
  ++ [ 0.1; 0.1; 0.1 ]    (* completion draws without pressure *)
  ++ [ 6; 4.04; 5 ]       (* base yards *)
  ++ [ 2; 1; 1 ]          (* bonus yards *)
  ++ [ 1; 1; 1.5 ]        (* pressure penalty *)
  ++ [ 0.2 ]              (* the sack draw *)
  ++ [ 7.96 ]             (* the loss on the sack *)
  ++ [ 0.5; 0.5 ].        (* the interception draws *)

Definition example_table : DataFrame :=
  fst (create_realistic_nfl_data 3 example_tape).

(** Three plays under pressure, each against another alignment: '3-4 Base'
    and 'Nickel' without a sack, 'Blitz' with the one sack of the run. *)
Definition alignment_tape : Tape :=
  [ 2; 3; 2.2 ]           (* time_to_throw *)
  ++ [ 1; 1; 1 ]          (* pressure_applied *)
  ++ [ 5; 1; 5 ]          (* time_to_pressure *)
  ++ [ 0; 1; 2 ]          (* down *)
  ++ [ 10; 7.25; 3 ]      (* distance *)
  ++ [ 20; 50; 80 ]       (* field_position *)
  ++ [ 0; -0.3; 0.7 ]     (* score_diff *)
  ++ [ 0; 1; 3 ]          (* quarter *)
  ++ [ 1; 4; 2 ]          (* def_alignment *)
  ++ [ 2; 1; 1 ]          (* rushers *)
  ++ [ 0.1; 0.1; 0.9 ]    (* completion draws under pressure *)
  ++ [ 0.1; 0.1; 0.1 ]    (* completion draws without pressure *)
  ++ [ 6; 4.04; 5 ]       (* base yards *)
  ++ [ 2; 1; 1 ]          (* bonus yards *)
  ++ [ 1; 1; 1.5 ]        (* pressure penalty *)
  ++ [ 0.2 ]              (* the sack draw *)
  ++ [ 5 ]                (* the loss on the sack *)
  ++ [ 0.5; 0.5 ].        (* the interception draws *)

Definition alignment_table : DataFrame :=
  fst (create_realistic_nfl_data 3 alignment_tape).

(** Two plays released after more than 10 seconds, one of them under
    pressure: no play falls in a time bucket. *)
Definition late_tape : Tape :=
  [ 11; 12 ]              (* time_to_throw *)
  ++ [ 0; 1 ]             (* pressure_applied *)
  ++ [ 5; 5 ]             (* time_to_pressure *)
  ++ [ 0; 1 ]             (* down *)
  ++ [ 10; 7 ]            (* distance *)
  ++ [ 20; 50 ]           (* field_position *)
  ++ [ 0; 0 ]             (* score_diff *)
  ++ [ 0; 1 ]             (* quarter *)
  ++ [ 1; 4 ]             (* def_alignment *)
  ++ [ 2; 1 ]             (* rushers *)
  ++ [ 0.1; 0.1 ]         (* completion draws under pressure *)
  ++ [ 0.1; 0.1 ]         (* completion draws without pressure *)
  ++ [ 6; 4 ]             (* base yards *)
  ++ [ 2; 1 ]             (* bonus yards *)
  ++ [ 1; 1 ]             (* pressure penalty *)
  ++ [ 0.2 ]              (* the sack draw *)
  ++ [ 0.5; 0.5 ].        (* the interception draws *)

(** One play, without pressure. *)
Definition clean_tape : Tape :=
  [ 2; 0; 5; 0; 10; 20; 0; 0; 1; 2; 0.1; 0.1; 6; 2; 1; 0.2; 0.5; 0.5 ].

(** * Specifications

    The predicates in which the properties below are stated. *)

(** Play [i] of a run, with pressure flag [p] and sampled release time [t]:
    its completion is assigned the [i]-th outcome [c] of one of two calls of
    [binomial] with an array of parameters, the one for plays under pressure
    when [p = 1] and the one for clean plays when [p = 0]; the [i]-th
    parameter [q] of that call is computed from [p] and [t] alone, by the
    stated rule, and lies in [[0.3, 0.9]]. *)
Definition completion_rule {rng : Type} {R : NumpyRandom rng} (l : Locals) (i : nat) : Prop :=
  exists (t : Q) (p c : Z) (q : Q),
    nth_error (l_time_to_throw l) i = Some t /\
    nth_error (l_pressure_applied l) i = Some p /\
    (p = 0 \/ p = 1)%Z /\
    nth_error (l_completion_drawn l) i = Some c /\
    is_bit c /\
    (exists s1 s2 : rng,
        l_draw_pressure l = fst (binomial 1 (l_p_pressure l) s1) /\
        l_draw_clean l = fst (binomial 1 (l_p_clean l) s2)) /\
    (p = 1%Z -> nth_error (l_p_pressure l) i = Some q /\
                nth_error (l_draw_pressure l) i = Some c) /\
    (p = 0%Z -> nth_error (l_p_clean l) i = Some q /\
                nth_error (l_draw_clean l) i = Some c) /\
    (0.3 <= q /\ q <= 0.9) /\
    (p = 1%Z -> t < 2.0 -> q == 0.65 - 0.15 - 0.10) /\
    (p = 1%Z -> 2.0 <= t -> q == 0.65 - 0.15) /\
    (p = 0%Z -> 2.5 < t -> q == 0.65 + 0.05) /\
    (p = 0%Z -> t <= 2.5 -> q == 0.65).

(** Play [i] of a run, with pressure flag [p], sampled pressure time [tp]
    and sampled release time [tt]: its sack field [k] is the one
    Bernoulli(0.4) draw of the run when [p = 1], [tp < 2.0] and [tt > tp]
    all hold, and 0 otherwise. *)
Definition sack_rule {rng : Type} {R : NumpyRandom rng} (l : Locals) (i : nat) : Prop :=
  exists (p : Z) (tp tt : Q) (k : Z),
    nth_error (l_pressure_applied l) i = Some p /\
    nth_error (l_time_to_pressure l) i = Some tp /\
    nth_error (l_time_to_throw l) i = Some tt /\
    int_at (finish l) "sack" i = Some k /\
    is_bit (l_sack_draw l) /\
    (exists s' : rng, l_sack_draw l = fst (binomial1 1 0.4 s')) /\
    (p = 1%Z /\ tp < 2.0 /\ tp < tt -> k = l_sack_draw l) /\
    (~ (p = 1%Z /\ tp < 2.0 /\ tp < tt) -> k = 0%Z) /\
    (p <> 1%Z -> k = 0%Z) /\
    (2.0 <= tp -> k = 0%Z) /\
    (tt <= tp -> k = 0%Z).

(** Play [i] of a run once the sacks are entered (lines 120 to 122), with
    its completion field [c], its sack field [k] and its yards [y]:
    - an incomplete pass that is no sack gains 0;
    - a completion gains the base draw, plus the bonus draw when the release
      time exceeds 2.5, minus the penalty draw when pressure was applied;
    - a sack gains the negation of one of the draws from [[3, 8)], a value
      in [(-8, -3]].
    The release time is the sampled one, which is what lines 101 to 109
    read.  The table that is returned holds [y] rounded to one decimal
    (line 135). *)
Definition yards_rule (l : Locals) (i : nat) : Prop :=
  exists (t : Q) (p c k : Z) (y base bonus pen : Q),
    nth_error (l_time_to_throw l) i = Some t /\
    nth_error (l_pressure_applied l) i = Some p /\
    nth_error (l_completion l) i = Some c /\
    nth_error (l_sack l) i = Some k /\
    nth_error (l_yards_gained l) i = Some y /\
    nth_error (l_base_yards l) i = Some base /\
    nth_error (l_bonus_yards l) i = Some bonus /\
    nth_error (l_penalty_yards l) i = Some pen /\
    is_bit c /\ is_bit k /\
    0 <= base /\ 0 <= bonus /\ (0 <= pen /\ pen < 3) /\
    (c = 0%Z -> k = 0%Z -> y = 0) /\
    (c = 1%Z -> y = base + b2q (Qltb 2.5 t) * bonus - b2q (p =? 1)%Z * pen) /\
    (k = 1%Z ->
     (exists loss, In loss (l_sack_loss l) /\ y = - loss) /\ - 8 < y /\ y <= - 3) /\
    float_at (finish l) "yards_gained" i = Some (round_dec 1 y).

(** A play recorded as a sack is recorded as incomplete and with a loss. *)
Definition outcome_consistent (df : DataFrame) : Prop :=
  forall i : nat,
    int_at df "sack" i = Some 1%Z ->
    int_at df "completion" i = Some 0%Z /\
    exists y : Q, float_at df "yards_gained" i = Some y /\ y < 0.

Definition field_names : list string :=
  [ "play_id"; "time_to_throw"; "pressure_applied"; "time_to_pressure"; "down";
    "distance"; "field_position"; "score_diff"; "quarter"; "def_alignment";
    "rushers"; "completion"; "yards_gained"; "sack"; "interception" ]%string.

(** A table of [n] records with all the fields, whose [play_id] column counts
    from 1 to [n]. *)
Definition table_shape (n : nat) (df : DataFrame) : Prop :=
  columns df = field_names /\
  Forall (fun nc => col_length (snd nc) = n) df /\
  exists ids : list Z,
    getitem df "play_id" = Ok (IntCol ids) /\
    length ids = n /\
    NoDup ids /\
    forall k : Z, In k ids <-> (1 <= k <= Z.of_nat n)%Z.

(** The table that [time_to_throw_analysis] leaves for a generated one. *)
Definition with_time_bucket (l : Locals) : DataFrame :=
  finish l ++
  [("time_bucket"%string,
    cut (map (round_dec 2) (l_time_to_throw l)) time_bins time_labels)].

(** The reports and the table, on any stored table [df]: three of them
    leave it as it is; [time_to_throw_analysis] sets the column
    [time_bucket] to the buckets of [time_to_throw], and changes no other
    column. *)
Definition frame_rule (observed : bool) (df : DataFrame) : Prop :=
  snd (pressure_impact_summary df) = df /\
  snd (defensive_alignment_effectiveness df) = df /\
  snd (optimal_pressure_timing observed df) = df /\
  (forall name : string,
      name <> "time_bucket"%string ->
      getitem (snd (time_to_throw_analysis observed df)) name = getitem df name) /\
  (forall t : list Q,
      numeric df "time_to_throw" = Ok t ->
      getitem (snd (time_to_throw_analysis observed df)) "time_bucket"
      = Ok (cut t time_bins time_labels) /\
      col_length (cut t time_bins time_labels) = length t).

(** The cell [cell] holds [m] rounded to three decimals: a multiple of
    1/1000 at most 1/2000 away from [m], the one that [round] gives. *)
Definition rounded_3 (m : Q) (cell : option Q) : Prop :=
  exists (c : Q) (z : Z),
    cell = Some c /\ c = round_dec 3 m /\
    c == inject_Z z / 1000 /\ Qabs (c - m) <= 1 # 2000.

(** The summary [stats] of a table [df]: two rows, for the plays without
    pressure ([k = 0]) and with pressure ([k = 1]).  The row of [k] holds the
    number of plays whose [pressure_applied] is [k], which is not zero, and,
    rounded to three decimals, the sums of completion, yards gained, sack
    and interception over these plays divided by that number. *)
Definition pressure_summary_rule (df : DataFrame)
                                 (stats : list (string * PressureStats)) : Prop :=
  exists (r0 r1 : PressureStats) (key : list Z) (completion yards sack interception : list Q),
    stats = [("No Pressure"%string, r0); ("Pressure Applied"%string, r1)] /\
    int_col df "pressure_applied" = Ok key /\
    numeric df "completion" = Ok completion /\
    numeric df "yards_gained" = Ok yards /\
    numeric df "sack" = Ok sack /\
    numeric df "interception" = Ok interception /\
    (forall (k : Z) (r : PressureStats),
        (k = 0%Z /\ r = r0) \/ (k = 1%Z /\ r = r1) ->
        let plays := fun v : list Q =>
          map snd (filter (fun kv => (k =? fst kv)%Z) (combine key v)) in
        let count := Z.of_nat (length (filter (Z.eqb k) key)) in
        let average := fun v : list Q => fold_right Qplus 0 (plays v) / inject_Z count in
        (0 < count)%Z /\
        total_plays r = count /\
        rounded_3 (average completion) (completion_pct r) /\
        rounded_3 (average yards) (yards_per_attempt r) /\
        rounded_3 (average sack) (sack_pct r) /\
        rounded_3 (average interception) (int_pct r)) /\
    (total_plays r0 + total_plays r1 = Z.of_nat (length key))%Z.

Definition nat_sum (l : list nat) : nat := fold_right Nat.add 0%nat l.
Definition Zsum (l : list Z) : Z := fold_right Z.add 0%Z l.

(** Whether a row, given by its bin and its key, belongs to a group. *)
Definition pair_match (kp : nat * Z) (r : option nat * Z) : bool :=
  match fst r with Some j => (j =? fst kp)%nat | None => false end
  && (snd kp =? snd r)%Z.

Definition has_bin {B} (r : option nat * B) : bool :=
  match fst r with Some _ => true | None => false end.

Definition bin_match (k : nat) (c : option nat) : bool :=
  match c with Some j => (j =? k)%nat | None => false end.

Definition is_some {A} (c : option A) : bool :=
  match c with Some _ => true | None => false end.

(** What each report returns once [time_bucket] is in the table. *)
Definition canonical (observed output_dir_exists : bool) (l : Locals) (op : Op) : Outcome :=
  fst (invoke observed output_dir_exists op (with_time_bucket l)).

(** In the order [ops], every call of [create_visualizations] comes after a
    call of [time_to_throw_analysis]. *)
Definition time_before_visual (ops : list Op) : Prop :=
  forall pre post : list Op,
    ops = pre ++ CreateVisualizations :: post -> In TimeToThrowAnalysis pre.

(** The interception field of every play is one of two scalar draws: [a]
    for an incomplete pass under pressure that is no sack, [b] for any
    other play. *)
Definition interception_rule {rng : Type} {R : NumpyRandom rng} (l : Locals) : Prop :=
  exists a b : Z,
    is_bit a /\ is_bit b /\
    (exists s1 : rng, a = fst (binomial1 1 0.03 s1)) /\
    (exists s2 : rng, b = fst (binomial1 1 0.01 s2)) /\
    forall (i : nat) (p c k : Z),
      int_at (finish l) "pressure_applied" i = Some p ->
      int_at (finish l) "completion" i = Some c ->
      int_at (finish l) "sack" i = Some k ->
      int_at (finish l) "interception" i
      = Some (if (p =? 1)%Z && (c =? 0)%Z && (k =? 0)%Z then a else b).

(** The values that the categorical and the outcome columns of a table can
    hold. *)
Definition int_column_in (df : DataFrame) (name : string) (values : list Z) : Prop :=
  exists v : list Z, getitem df name = Ok (IntCol v) /\ Forall (fun x => In x values) v.

Definition categorical_domains (df : DataFrame) : Prop :=
  int_column_in df "pressure_applied" [0; 1]%Z /\
  int_column_in df "down" [1; 2; 3; 4]%Z /\
  int_column_in df "quarter" [1; 2; 3; 4]%Z /\
  int_column_in df "rushers" [3; 4; 5; 6]%Z /\
  int_column_in df "completion" [0; 1]%Z /\
  int_column_in df "sack" [0; 1]%Z /\
  int_column_in df "interception" [0; 1]%Z /\
  exists v : list string,
    getitem df "def_alignment" = Ok (StrCol v) /\ Forall (fun x => In x alignments) v.

Definition float_column_in (df : DataFrame) (name : string) (P : Q -> Prop) : Prop :=
  exists v : list Q, getitem df name = Ok (FloatCol v) /\ Forall P v.

Definition numeric_ranges (df : DataFrame) : Prop :=
  float_column_in df "time_to_throw" (fun x => 0 <= x) /\
  float_column_in df "time_to_pressure" (fun x => 0 <= x) /\
  float_column_in df "distance" (fun x => 0 <= x) /\
  float_column_in df "field_position" (fun x => 5 <= x /\ x < 95).

(** A float cell that may stand above another in a column sorted in
    descending order, NaN last. *)
Definition not_below (a b : option Q) : Prop :=
  match a, b with
  | Some x, Some y => y <= x
  | None, Some _ => False
  | _, None => True
  end.

(** A cell that, when it holds a value, holds a rate between 0 and 1. *)
Definition is_rate (c : option Q) : Prop :=
  forall x : Q, c = Some x -> 0 <= x /\ x <= 1.

(** * Properties *)

(** ** Numbers *)

Lemma Qltb_lt (x y : Q) : Qltb x y = true <-> x < y.
Proof.
  unfold Qltb. rewrite negb_true_iff. split; intro H.
  - apply Qnot_le_lt. intro Hle. apply Qle_bool_iff in Hle. congruence.
  - destruct (Qle_bool y x) eqn:E; [|reflexivity].
    apply Qle_bool_iff in E. exfalso. apply (Qlt_not_le _ _ H E).
Qed.

Lemma Qltb_ge (x y : Q) : Qltb x y = false <-> y <= x.
Proof.
  unfold Qltb. rewrite negb_false_iff. apply Qle_bool_iff.
Qed.

Lemma clip_inside (x lo hi : Q) : lo <= x -> x <= hi -> clip x lo hi == x.
Proof.
  intros Hlo Hhi. unfold clip.
  rewrite (Q.max_l x lo Hlo). apply Q.min_l. exact Hhi.
Qed.

Lemma clip_bounds (x lo hi : Q) : lo <= hi -> lo <= clip x lo hi /\ clip x lo hi <= hi.
Proof.
  intro H. unfold clip. split.
  - apply Q.min_glb; [apply Q.le_max_r | exact H].
  - apply Q.le_min_r.
Qed.

Lemma rint_le (x : Q) (z : Z) : x <= inject_Z z -> (rint x <= z)%Z.
Proof.
  intro H. unfold rint.
  pose proof (Qfloor_le x) as Hf.
  assert (Hfz : (Qfloor x <= z)%Z).
  { rewrite <- (Qfloor_Z z). apply Qfloor_resp_le. exact H. }
  destruct (Qltb (x - inject_Z (Qfloor x)) (1 # 2)) eqn:E1; [exact Hfz|].
  apply Qltb_ge in E1.
  assert (Hne : Qfloor x <> z).
  { intro Heq. rewrite Heq in E1.
    assert (x - inject_Z z <= 0) by lra. lra. }
  assert ((Qfloor x + 1 <= z)%Z) by lia.
  destruct (Qltb (1 # 2) (x - inject_Z (Qfloor x))); [assumption|].
  destruct (Z.even (Qfloor x)); lia.
Qed.

Lemma rint_ge (x : Q) (z : Z) : inject_Z z <= x -> (z <= rint x)%Z.
Proof.
  intro H. unfold rint.
  assert (Hfz : (z <= Qfloor x)%Z).
  { rewrite <- (Qfloor_Z z). apply Qfloor_resp_le. exact H. }
  destruct (Qltb (x - inject_Z (Qfloor x)) (1 # 2)); [exact Hfz|].
  destruct (Qltb (1 # 2) (x - inject_Z (Qfloor x))); [lia|].
  destruct (Z.even (Qfloor x)); lia.
Qed.

Lemma rint_inject (z : Z) : rint (inject_Z z) = z.
Proof.
  apply Z.le_antisymm; [apply rint_le | apply rint_ge]; apply Qle_refl.
Qed.

Lemma Qdiv_10 (x : Q) : x / 10 == x * (1 # 10).
Proof. reflexivity. Qed.

Lemma round_dec_1 (x : Q) : round_dec 1 x == inject_Z (rint (x * 10)) * (1 # 10).
Proof. reflexivity. Qed.

(** Rounding to one decimal keeps a value on its side of a bound that has at
    most one decimal itself. *)
Lemma round_dec_1_le (x : Q) (z : Z) :
  x <= inject_Z z / 10 -> round_dec 1 x <= inject_Z z / 10.
Proof.
  intro H. rewrite round_dec_1. rewrite Qdiv_10 in *.
  assert (Hr : (rint (x * 10) <= z)%Z) by (apply rint_le; lra).
  rewrite Zle_Qle in Hr. lra.
Qed.

Lemma round_dec_1_ge (x : Q) (z : Z) :
  inject_Z z / 10 <= x -> inject_Z z / 10 <= round_dec 1 x.
Proof.
  intro H. rewrite round_dec_1. rewrite Qdiv_10 in *.
  assert (Hr : (z <= rint (x * 10))%Z) by (apply rint_ge; lra).
  rewrite Zle_Qle in Hr. lra.
Qed.

Lemma round_dec_1_zero (x : Q) : x == 0 -> round_dec 1 x == 0.
Proof.
  intro H.
  assert (Hz : inject_Z 0 / 10 == 0) by reflexivity.
  apply Qle_antisym; rewrite <- Hz.
  - apply (round_dec_1_le x 0). rewrite H, Hz. apply Qle_refl.
  - apply (round_dec_1_ge x 0). rewrite H, Hz. apply Qle_refl.
Qed.

(** ** Aligned arrays *)

Lemma zip_with_length {A B C} (f : A -> B -> C) (a : list A) (b : list B) :
  length (zip_with f a b) = Nat.min (length a) (length b).
Proof.
  revert b. induction a as [|x a IH]; intros [|y b]; simpl; auto.
Qed.

Lemma nth_error_zip_with {A B C} (f : A -> B -> C) (a : list A) (b : list B) (i : nat) :
  nth_error (zip_with f a b) i =
  match nth_error a i, nth_error b i with
  | Some x, Some y => Some (f x y)
  | _, _ => None
  end.
Proof.
  revert b i. induction a as [|x a IH]; intros [|y b] [|i]; simpl; auto.
  - destruct (nth_error a i); reflexivity.
Qed.

Lemma nth_error_np_where {A} (c : list bool) (x y : list A) (i : nat) (b : bool) (u v : A) :
  nth_error c i = Some b -> nth_error x i = Some u -> nth_error y i = Some v ->
  nth_error (np_where c x y) i = Some (if b then u else v).
Proof.
  intros Hc Hx Hy. unfold np_where.
  rewrite !nth_error_zip_with, Hc, Hx, Hy. reflexivity.
Qed.

Lemma nth_error_np_where_r {A} (c : list bool) (x : list A) (y : A) (i : nat) (b : bool) (u : A) :
  nth_error c i = Some b -> nth_error x i = Some u ->
  nth_error (np_where_r c x y) i = Some (if b then u else y).
Proof.
  intros Hc Hx. unfold np_where_r.
  rewrite nth_error_zip_with, Hc, Hx. reflexivity.
Qed.

Lemma nth_error_np_where_s {A} (c : list bool) (x y : A) (i : nat) (b : bool) :
  nth_error c i = Some b ->
  nth_error (np_where_s c x y) i = Some (if b then x else y).
Proof.
  intro Hc. unfold np_where_s. rewrite nth_error_map, Hc. reflexivity.
Qed.

Lemma nth_error_loc_fill {A} (mask : list bool) (v : A) (col : list A) (i : nat) (b : bool) (x : A) :
  nth_error mask i = Some b -> nth_error col i = Some x ->
  nth_error (loc_fill mask v col) i = Some (if b then v else x).
Proof.
  intros Hm Hc. unfold loc_fill.
  rewrite nth_error_zip_with, Hm, Hc. reflexivity.
Qed.

Lemma loc_assign_length {A} (mask : list bool) (values col : list A) :
  length (loc_assign mask values col) = Nat.min (length mask) (length col).
Proof.
  revert values col. induction mask as [|b m IH]; intros values [|x c]; simpl; auto.
  - destruct b; reflexivity.
  - destruct b; [destruct values|]; simpl; rewrite IH; reflexivity.
Qed.

Lemma nth_error_loc_assign_keep {A} (mask : list bool) (values col : list A) (i : nat) :
  nth_error mask i = Some false ->
  nth_error (loc_assign mask values col) i = nth_error col i.
Proof.
  revert values col i.
  induction mask as [|b m IH]; intros values [|x c] [|i] H; simpl in *;
    try discriminate; try reflexivity.
  - destruct b; reflexivity.
  - destruct b; reflexivity.
  - injection H as ->. reflexivity.
  - destruct b; [destruct values|]; simpl; apply IH; exact H.
Qed.

Lemma nth_error_loc_assign_set {A} (mask : list bool) (values col : list A) (i : nat) :
  nth_error mask i = Some true -> (i < length col)%nat ->
  (mask_sum mask <= length values)%nat ->
  exists v, In v values /\ nth_error (loc_assign mask values col) i = Some v.
Proof.
  revert values col i.
  induction mask as [|b m IH]; intros values [|x c] [|i] H Hi Hlen; simpl in *;
    try discriminate; try lia.
  - injection H as ->. unfold mask_sum in Hlen. simpl in Hlen.
    destruct values as [|v vs]; simpl in Hlen; [lia|].
    exists v. split; [left; reflexivity | reflexivity].
  - destruct b.
    + unfold mask_sum in Hlen. simpl in Hlen.
      destruct values as [|v vs]; simpl in Hlen; [lia|].
      destruct (IH vs c i H) as [w [Hw Hn]]; [lia | unfold mask_sum; lia |].
      exists w. split; [right; exact Hw | exact Hn].
    + destruct (IH values c i H) as [w [Hw Hn]]; [lia | exact Hlen |].
      exists w. split; assumption.
Qed.

Lemma nth_error_some_lt {A} (l : list A) (i : nat) :
  (i < length l)%nat -> exists x, nth_error l i = Some x.
Proof.
  intro H. destruct (nth_error l i) eqn:E; [eauto|].
  apply nth_error_None in E. lia.
Qed.

Lemma Forall_nth_error {A} (P : A -> Prop) (l : list A) (i : nat) (x : A) :
  Forall P l -> nth_error l i = Some x -> P x.
Proof.
  intros H E. rewrite Forall_forall in H. apply H. eapply nth_error_In; eauto.
Qed.

(** ** The shape of a run of the generator *)

Section GeneratorFacts.
Context {rng : Type} {R : NumpyRandom rng} {L : NumpyRandomLaws R}.
Variables (n : nat) (s : rng).

Lemma gen_play_id : l_play_id (fst (generate n s)) = map Z.of_nat (seq 1 n).
Proof. reflexivity. Qed.

Lemma gen_length_time_to_throw : length (l_time_to_throw (fst (generate n s))) = n.
Proof. apply gamma_length. Qed.

Lemma gen_length_pressure_applied : length (l_pressure_applied (fst (generate n s))) = n.
Proof. apply choice_length. discriminate. Qed.

Lemma gen_length_time_to_pressure : length (l_time_to_pressure (fst (generate n s))) = n.
Proof. apply gamma_length. Qed.

Lemma gen_length_down : length (l_down (fst (generate n s))) = n.
Proof. apply choice_length. discriminate. Qed.

Lemma gen_length_distance : length (l_distance (fst (generate n s))) = n.
Proof. apply gamma_length. Qed.

Lemma gen_length_field_position : length (l_field_position (fst (generate n s))) = n.
Proof. apply uniform_length. Qed.

Lemma gen_length_score_diff : length (l_score_diff (fst (generate n s))) = n.
Proof. apply normal_length. Qed.

Lemma gen_length_quarter : length (l_quarter (fst (generate n s))) = n.
Proof. apply choice_length. discriminate. Qed.

Lemma gen_length_def_alignment : length (l_def_alignment (fst (generate n s))) = n.
Proof. apply choice_length. discriminate. Qed.

Lemma gen_length_rushers : length (l_rushers (fst (generate n s))) = n.
Proof. apply choice_length. discriminate. Qed.

Lemma gen_pressure_bits :
  Forall (fun p => p = 0%Z \/ p = 1%Z) (l_pressure_applied (fst (generate n s))).
Proof.
  eapply Forall_impl; [|apply choice_in; discriminate].
  simpl. intros p [H|[H|[]]]; auto.
Qed.

(** The two arrays of Bernoulli parameters are computed from the sampled
    release times, and each array of completion draws is one call of
    [binomial] on its array of parameters. *)
Lemma gen_p_pressure :
  l_p_pressure (fst (generate n s))
  = map completion_prob_pressure (l_time_to_throw (fst (generate n s))).
Proof. reflexivity. Qed.

Lemma gen_p_clean :
  l_p_clean (fst (generate n s))
  = map completion_prob_clean (l_time_to_throw (fst (generate n s))).
Proof. reflexivity. Qed.

Lemma gen_draw_pressure :
  exists s', l_draw_pressure (fst (generate n s))
             = fst (binomial 1 (l_p_pressure (fst (generate n s))) s').
Proof. eexists. reflexivity. Qed.

Lemma gen_draw_clean :
  exists s', l_draw_clean (fst (generate n s))
             = fst (binomial 1 (l_p_clean (fst (generate n s))) s').
Proof. eexists. reflexivity. Qed.

Lemma gen_length_p_pressure : length (l_p_pressure (fst (generate n s))) = n.
Proof. rewrite gen_p_pressure, length_map. apply gen_length_time_to_throw. Qed.

Lemma gen_length_p_clean : length (l_p_clean (fst (generate n s))) = n.
Proof. rewrite gen_p_clean, length_map. apply gen_length_time_to_throw. Qed.

Lemma gen_length_draw_pressure : length (l_draw_pressure (fst (generate n s))) = n.
Proof.
  destruct gen_draw_pressure as [s' ->].
  rewrite binomial_length. apply gen_length_p_pressure.
Qed.

Lemma gen_length_draw_clean : length (l_draw_clean (fst (generate n s))) = n.
Proof.
  destruct gen_draw_clean as [s' ->].
  rewrite binomial_length. apply gen_length_p_clean.
Qed.

Lemma gen_draw_pressure_bits : Forall is_bit (l_draw_pressure (fst (generate n s))).
Proof. apply binomial_bit. Qed.

Lemma gen_draw_clean_bits : Forall is_bit (l_draw_clean (fst (generate n s))).
Proof. apply binomial_bit. Qed.

Lemma gen_completion_drawn :
  l_completion_drawn (fst (generate n s))
  = np_where (eq1 (l_pressure_applied (fst (generate n s))))
             (l_draw_pressure (fst (generate n s)))
             (l_draw_clean (fst (generate n s))).
Proof. reflexivity. Qed.

Lemma gen_length_base_yards : length (l_base_yards (fst (generate n s))) = n.
Proof. apply gamma_length. Qed.

Lemma gen_length_bonus_yards : length (l_bonus_yards (fst (generate n s))) = n.
Proof. apply gamma_length. Qed.

Lemma gen_length_penalty_yards : length (l_penalty_yards (fst (generate n s))) = n.
Proof. apply uniform_length. Qed.

Lemma gen_base_yards_nonneg : Forall (fun x => 0 <= x) (l_base_yards (fst (generate n s))).
Proof. apply gamma_nonneg; reflexivity. Qed.

Lemma gen_bonus_yards_nonneg : Forall (fun x => 0 <= x) (l_bonus_yards (fst (generate n s))).
Proof. apply gamma_nonneg; reflexivity. Qed.

Lemma gen_penalty_yards_range :
  Forall (fun x => 0 <= x /\ x < 3) (l_penalty_yards (fst (generate n s))).
Proof. apply uniform_range. reflexivity. Qed.

Lemma gen_yards_drawn :
  l_yards_drawn (fst (generate n s))
  = np_where_r (eq1 (l_completion_drawn (fst (generate n s))))
      (completed_yards (l_base_yards (fst (generate n s)))
                       (l_bonus_yards (fst (generate n s)))
                       (l_penalty_yards (fst (generate n s)))
                       (l_time_to_throw (fst (generate n s)))
                       (l_pressure_applied (fst (generate n s)))) 0.
Proof. reflexivity. Qed.

(** There is one sack draw for the whole table. *)
Lemma gen_sack_draw :
  exists s', l_sack_draw (fst (generate n s)) = fst (binomial1 1 0.4 s').
Proof. eexists. reflexivity. Qed.

Lemma gen_sack_draw_bit : is_bit (l_sack_draw (fst (generate n s))).
Proof. apply binomial1_bit. Qed.

Lemma gen_sack :
  l_sack (fst (generate n s))
  = np_where_s (sack_condition (l_pressure_applied (fst (generate n s)))
                               (l_time_to_pressure (fst (generate n s)))
                               (l_time_to_throw (fst (generate n s))))
               (l_sack_draw (fst (generate n s))) 0%Z.
Proof. reflexivity. Qed.

Lemma gen_length_sack_loss :
  length (l_sack_loss (fst (generate n s))) = mask_sum (eq1 (l_sack (fst (generate n s)))).
Proof. apply uniform_length. Qed.

Lemma gen_sack_loss_range :
  Forall (fun x => 3 <= x /\ x < 8) (l_sack_loss (fst (generate n s))).
Proof. apply uniform_range. reflexivity. Qed.

Lemma gen_yards_gained :
  l_yards_gained (fst (generate n s))
  = loc_assign (eq1 (l_sack (fst (generate n s))))
               (map Qopp (l_sack_loss (fst (generate n s))))
               (l_yards_drawn (fst (generate n s))).
Proof. reflexivity. Qed.

Lemma gen_completion :
  l_completion (fst (generate n s))
  = loc_fill (eq1 (l_sack (fst (generate n s)))) 0%Z
             (l_completion_drawn (fst (generate n s))).
Proof. reflexivity. Qed.

Lemma gen_interception :
  exists a b, is_bit a /\ is_bit b /\
  l_interception (fst (generate n s))
  = np_where_s (interception_condition (l_pressure_applied (fst (generate n s)))
                                       (l_completion (fst (generate n s)))
                                       (l_sack (fst (generate n s)))) a b.
Proof.
  eexists. eexists. split; [|split; [|reflexivity]]; apply binomial1_bit.
Qed.
End GeneratorFacts.

(** ** The completion draw *)

Lemma completion_prob_pressure_quick (t : Q) :
  t < 2.0 -> completion_prob_pressure t == 0.65 - 0.15 - 0.10.
Proof.
  intro H. unfold completion_prob_pressure, base_completion.
  apply Qltb_lt in H. rewrite H. simpl b2q.
  rewrite clip_inside; lra.
Qed.

Lemma completion_prob_pressure_slow (t : Q) :
  2.0 <= t -> completion_prob_pressure t == 0.65 - 0.15.
Proof.
  intro H. unfold completion_prob_pressure, base_completion.
  apply Qltb_ge in H. rewrite H. simpl b2q.
  rewrite clip_inside; lra.
Qed.

Lemma completion_prob_clean_extended (t : Q) :
  2.5 < t -> completion_prob_clean t == 0.65 + 0.05.
Proof.
  intro H. unfold completion_prob_clean, base_completion.
  apply Qltb_lt in H. rewrite H. simpl b2q.
  rewrite clip_inside; lra.
Qed.

Lemma completion_prob_clean_normal (t : Q) :
  t <= 2.5 -> completion_prob_clean t == 0.65.
Proof.
  intro H. unfold completion_prob_clean, base_completion.
  apply Qltb_ge in H. rewrite H. simpl b2q.
  rewrite clip_inside; lra.
Qed.

Lemma completion_prob_pressure_clipped (t : Q) :
  0.3 <= completion_prob_pressure t /\ completion_prob_pressure t <= 0.9.
Proof. apply clip_bounds. lra. Qed.

Lemma completion_prob_clean_clipped (t : Q) :
  0.3 <= completion_prob_clean t /\ completion_prob_clean t <= 0.9.
Proof. apply clip_bounds. lra. Qed.

(** C1. For every generated play the completion outcome is a Bernoulli draw
    whose parameter depends on pressure and release time only: under
    pressure it is 0.65 - 0.15, less 0.10 when the release time is below
    2.0; without pressure it is 0.65, plus 0.05 when the release time is
    above 2.5; and it is clipped to [0.3, 0.9]. *)
Theorem completion_draw_parameter
  {rng : Type} {R : NumpyRandom rng} {L : NumpyRandomLaws R}
  (n : nat) (s : rng) (i : nat) :
  (i < n)%nat -> completion_rule (fst (generate n s)) i.
Proof.
  intro Hi. unfold completion_rule.
  destruct (nth_error_some_lt (l_time_to_throw (fst (generate n s))) i) as [t Ht];
    [rewrite gen_length_time_to_throw; exact Hi|].
  destruct (nth_error_some_lt (l_pressure_applied (fst (generate n s))) i) as [p Hp];
    [rewrite gen_length_pressure_applied; exact Hi|].
  destruct (nth_error_some_lt (l_draw_pressure (fst (generate n s))) i) as [dp Hdp];
    [rewrite gen_length_draw_pressure; exact Hi|].
  destruct (nth_error_some_lt (l_draw_clean (fst (generate n s))) i) as [dc Hdc];
    [rewrite gen_length_draw_clean; exact Hi|].
  pose proof (Forall_nth_error _ _ _ _ (gen_pressure_bits n s) Hp) as Hbit.
  pose proof (Forall_nth_error _ _ _ _ (gen_draw_pressure_bits n s) Hdp) as Hbp.
  pose proof (Forall_nth_error _ _ _ _ (gen_draw_clean_bits n s) Hdc) as Hbc.
  assert (Hc : nth_error (l_completion_drawn (fst (generate n s))) i
               = Some (if (p =? 1)%Z then dp else dc)).
  { rewrite gen_completion_drawn.
    apply nth_error_np_where; [|assumption|assumption].
    unfold eq1. rewrite nth_error_map, Hp. reflexivity. }
  assert (Hcalls : exists s1 s2 : rng,
             l_draw_pressure (fst (generate n s))
             = fst (binomial 1 (l_p_pressure (fst (generate n s))) s1) /\
             l_draw_clean (fst (generate n s))
             = fst (binomial 1 (l_p_clean (fst (generate n s))) s2)).
  { destruct (gen_draw_pressure n s) as [s1 H1].
    destruct (gen_draw_clean n s) as [s2 H2].
    exists s1, s2. split; assumption. }
  assert (Hqp : nth_error (l_p_pressure (fst (generate n s))) i
                = Some (completion_prob_pressure t))
    by (rewrite gen_p_pressure, nth_error_map, Ht; reflexivity).
  assert (Hqc : nth_error (l_p_clean (fst (generate n s))) i
                = Some (completion_prob_clean t))
    by (rewrite gen_p_clean, nth_error_map, Ht; reflexivity).
  destruct Hbit as [-> | ->]; simpl in Hc.
  - exists t, 0%Z, dc, (completion_prob_clean t).
    repeat match goal with |- _ /\ _ => split end;
      try assumption; try discriminate; auto.
    + apply completion_prob_clean_clipped.
    + apply completion_prob_clean_clipped.
    + intros _. apply completion_prob_clean_extended.
    + intros _. apply completion_prob_clean_normal.
  - exists t, 1%Z, dp, (completion_prob_pressure t).
    repeat match goal with |- _ /\ _ => split end;
      try assumption; try discriminate; auto.
    + apply completion_prob_pressure_clipped.
    + apply completion_prob_pressure_clipped.
    + intros _. apply completion_prob_pressure_quick.
    + intros _. apply completion_prob_pressure_slow.
Qed.

(** ** The replay generator satisfies the sampling laws *)

Lemma draw_length (n : nat) (t : Tape) : length (fst (draw n t)) = n.
Proof.
  revert t. induction n as [|n IH]; intro t; simpl; [reflexivity|].
  rewrite IH. reflexivity.
Qed.

Lemma bernoulli_bit (p x : Q) : is_bit (bernoulli 1 p x).
Proof. unfold bernoulli, is_bit. destruct (Qltb x p); auto. Qed.

Lemma tape_laws : NumpyRandomLaws TapeRandom.
Proof.
  constructor; simpl.
  - intros. rewrite length_map. apply draw_length.
  - intros. apply Forall_forall. intros x Hx.
    apply in_map_iff in Hx. destruct Hx as [y [<- _]]. apply Qabs_nonneg.
  - intros. unfold tape_uniform. simpl. rewrite length_map. apply draw_length.
  - intros lo hi n t Hlt. unfold tape_uniform. simpl.
    apply Forall_forall. intros x Hx.
    apply in_map_iff in Hx. destruct Hx as [y [<- _]].
    destruct (Qle_bool lo y && Qltb y hi) eqn:E.
    + apply andb_true_iff in E. destruct E as [E1 E2].
      apply Qle_bool_iff in E1. apply Qltb_lt in E2. split; assumption.
    + split; [apply Qle_refl | exact Hlt].
  - intros. rewrite length_map. apply draw_length.
  - intros A a n p t Ha. unfold tape_choice.
    destruct a as [|d a]; [congruence|]. simpl.
    rewrite length_map. apply draw_length.
  - intros A a n p t Ha. unfold tape_choice.
    destruct a as [|d a]; [congruence|]. cbn [fst].
    apply Forall_forall. intros x Hx.
    apply in_map_iff in Hx. destruct Hx as [y [<- _]].
    apply nth_In. apply Nat.mod_upper_bound. simpl. discriminate.
  - intros. rewrite zip_with_length, draw_length. apply Nat.min_id.
  - intros p t. apply Forall_forall. intros x Hx.
    apply In_nth_error in Hx. destruct Hx as [i Hi].
    rewrite nth_error_zip_with in Hi.
    destruct (nth_error p i); [|discriminate].
    destruct (nth_error (fst (draw (length p) t)) i); [|discriminate].
    injection Hi as <-. apply bernoulli_bit.
  - intros. apply bernoulli_bit.
Qed.

Lemma completion_draw_parameter_witness :
  NumpyRandomLaws TapeRandom /\ (0 < 3)%nat /\
  completion_rule (fst (generate 3 example_tape)) 0.
Proof.
  split; [exact tape_laws|]. split; [lia|].
  apply (@completion_draw_parameter Tape TapeRandom tape_laws 3%nat example_tape 0%nat).
  lia.
Defined.

(** ** The derived columns, row by row *)

Section Rows.
Context {rng : Type} {R : NumpyRandom rng} {L : NumpyRandomLaws R}.
Variables (n : nat) (s : rng).

Lemma created_table : fst (create_realistic_nfl_data n s) = finish (fst (generate n s)).
Proof. reflexivity. Qed.

Lemma sack_condition_length (p : list Z) (tp tt : list Q) :
  length p = n -> length tp = n -> length tt = n ->
  length (sack_condition p tp tt) = n.
Proof.
  intros Hp Htp Htt. unfold sack_condition, eq1.
  rewrite !zip_with_length, !length_map, Hp, Htp, Htt. lia.
Qed.

Lemma nth_error_sack_condition (p : list Z) (tp tt : list Q) (i : nat) (pi : Z) (tpi tti : Q) :
  nth_error p i = Some pi -> nth_error tp i = Some tpi -> nth_error tt i = Some tti ->
  nth_error (sack_condition p tp tt) i
  = Some ((pi =? 1)%Z && Qltb tpi 2.0 && Qltb tpi tti).
Proof.
  intros Hp Htp Htt. unfold sack_condition, eq1.
  rewrite !nth_error_zip_with, !nth_error_map, Hp, Htp, Htt. reflexivity.
Qed.

Lemma gen_length_sack : length (l_sack (fst (generate n s))) = n.
Proof.
  rewrite gen_sack. unfold np_where_s. rewrite length_map.
  apply sack_condition_length.
  - apply gen_length_pressure_applied.
  - apply gen_length_time_to_pressure.
  - apply gen_length_time_to_throw.
Qed.

Lemma gen_length_completion_drawn : length (l_completion_drawn (fst (generate n s))) = n.
Proof.
  rewrite gen_completion_drawn. unfold np_where, eq1.
  rewrite !zip_with_length, length_map, gen_length_pressure_applied,
    gen_length_draw_pressure, gen_length_draw_clean.
  lia.
Qed.

Lemma gen_length_completion : length (l_completion (fst (generate n s))) = n.
Proof.
  rewrite gen_completion. unfold loc_fill, eq1.
  rewrite zip_with_length, length_map, gen_length_sack, gen_length_completion_drawn.
  lia.
Qed.

Lemma gen_length_yards_drawn : length (l_yards_drawn (fst (generate n s))) = n.
Proof.
  rewrite gen_yards_drawn. unfold np_where_r, completed_yards, eq1.
  rewrite !zip_with_length, length_map, gen_length_completion_drawn,
    gen_length_base_yards, gen_length_bonus_yards, gen_length_penalty_yards,
    gen_length_time_to_throw, gen_length_pressure_applied.
  lia.
Qed.

Lemma gen_length_yards_gained : length (l_yards_gained (fst (generate n s))) = n.
Proof.
  rewrite gen_yards_gained, loc_assign_length. unfold eq1.
  rewrite length_map, gen_length_sack, gen_length_yards_drawn. lia.
Qed.

Lemma gen_length_interception : length (l_interception (fst (generate n s))) = n.
Proof.
  destruct (gen_interception n s) as [a [b [_ [_ ->]]]].
  unfold np_where_s, interception_condition, eq1, eq0.
  rewrite length_map, !zip_with_length, !length_map, gen_length_pressure_applied,
    gen_length_completion, gen_length_sack.
  lia.
Qed.

(** The sampled inputs of play [i]. *)
Lemma gen_inputs (i : nat) :
  (i < n)%nat ->
  exists (p : Z) (tp tt : Q),
    nth_error (l_pressure_applied (fst (generate n s))) i = Some p /\
    nth_error (l_time_to_pressure (fst (generate n s))) i = Some tp /\
    nth_error (l_time_to_throw (fst (generate n s))) i = Some tt /\
    (p = 0 \/ p = 1)%Z.
Proof.
  intro Hi.
  destruct (nth_error_some_lt (l_pressure_applied (fst (generate n s))) i) as [p Hp];
    [rewrite gen_length_pressure_applied; exact Hi|].
  destruct (nth_error_some_lt (l_time_to_pressure (fst (generate n s))) i) as [tp Htp];
    [rewrite gen_length_time_to_pressure; exact Hi|].
  destruct (nth_error_some_lt (l_time_to_throw (fst (generate n s))) i) as [tt Htt];
    [rewrite gen_length_time_to_throw; exact Hi|].
  exists p, tp, tt. repeat split; try assumption.
  exact (Forall_nth_error _ _ _ _ (gen_pressure_bits n s) Hp).
Qed.

(** The sack field of play [i]: the one sack draw where the condition
    holds, 0 elsewhere. *)
Lemma gen_sack_at (i : nat) (p : Z) (tp tt : Q) :
  nth_error (l_pressure_applied (fst (generate n s))) i = Some p ->
  nth_error (l_time_to_pressure (fst (generate n s))) i = Some tp ->
  nth_error (l_time_to_throw (fst (generate n s))) i = Some tt ->
  nth_error (l_sack (fst (generate n s))) i
  = Some (if (p =? 1)%Z && Qltb tp 2.0 && Qltb tp tt
          then l_sack_draw (fst (generate n s)) else 0%Z).
Proof.
  intros Hp Htp Htt. rewrite gen_sack.
  apply nth_error_np_where_s. apply nth_error_sack_condition; assumption.
Qed.
End Rows.

(** ** Sacks *)

(** C2. For every generated play, sack = 0 unless pressure_applied = 1,
    time_to_pressure < 2.0 and time_to_throw > time_to_pressure all hold, and
    then sack is a Bernoulli(0.4) draw.  A play without pressure, or with
    pressure at 2.0 seconds or later, or released before the pressure
    arrived, is never a sack. *)
Theorem sack_only_under_quick_pressure
  {rng : Type} {R : NumpyRandom rng} {L : NumpyRandomLaws R}
  (n : nat) (s : rng) (i : nat) :
  (i < n)%nat -> sack_rule (fst (generate n s)) i.
Proof.
  intro Hi. unfold sack_rule.
  destruct (gen_inputs n s i Hi) as [p [tp [tt [Hp [Htp [Htt Hbit]]]]]].
  pose proof (gen_sack_at n s i p tp tt Hp Htp Htt) as Hk.
  exists p, tp, tt.
  eexists. split; [exact Hp|]. split; [exact Htp|]. split; [exact Htt|].
  split; [unfold int_at; cbn [finish getitem String.eqb Ascii.eqb Bool.eqb]; exact Hk|].
  split; [apply gen_sack_draw_bit|]. split; [apply gen_sack_draw|].
  destruct ((p =? 1)%Z && Qltb tp 2.0 && Qltb tp tt) eqn:E.
  - apply andb_true_iff in E. destruct E as [E E3].
    apply andb_true_iff in E. destruct E as [E1 E2].
    apply Z.eqb_eq in E1. apply Qltb_lt in E2. apply Qltb_lt in E3.
    split; [intros _; reflexivity|].
    split; [intro H; exfalso; apply H; auto|].
    split; [intro H; congruence|].
    split; intro H; exfalso.
    + apply (Qlt_not_le _ _ E2 H).
    + apply (Qlt_not_le _ _ E3 H).
  - assert (Hn : ~ (p = 1%Z /\ tp < 2.0 /\ tp < tt)).
    { intros [H1 [H2 H3]].
      apply Z.eqb_eq in H1. apply Qltb_lt in H2. apply Qltb_lt in H3.
      rewrite H1, H2, H3 in E. discriminate. }
    split; [intro H; contradiction|].
    split; [intros _; reflexivity|].
    split; [intros _; reflexivity|].
    split; intros _; reflexivity.
Qed.

Lemma sack_only_under_quick_pressure_witness :
  NumpyRandomLaws TapeRandom /\ (0 < 3)%nat /\
  sack_rule (fst (generate 3 example_tape)) 0.
Proof.
  split; [exact tape_laws|]. split; [lia|].
  apply (@sack_only_under_quick_pressure Tape TapeRandom tape_laws 3%nat example_tape 0%nat).
  lia.
Defined.

(** All the plays that meet the sack condition share the one draw: they are
    sacks together or not at all. *)
Lemma sacks_share_one_draw
  {rng : Type} {R : NumpyRandom rng} (n : nat) (s : rng) (i j : nat) (a b : Z) :
  nth_error (sack_condition (l_pressure_applied (fst (generate n s)))
                            (l_time_to_pressure (fst (generate n s)))
                            (l_time_to_throw (fst (generate n s)))) i = Some true ->
  nth_error (sack_condition (l_pressure_applied (fst (generate n s)))
                            (l_time_to_pressure (fst (generate n s)))
                            (l_time_to_throw (fst (generate n s)))) j = Some true ->
  nth_error (l_sack (fst (generate n s))) i = Some a ->
  nth_error (l_sack (fst (generate n s))) j = Some b ->
  a = b.
Proof.
  intros Hi Hj. rewrite gen_sack.
  rewrite (nth_error_np_where_s _ _ _ _ _ Hi), (nth_error_np_where_s _ _ _ _ _ Hj).
  congruence.
Qed.

(** ** Yards gained *)

Section Yards.
Context {rng : Type} {R : NumpyRandom rng} {L : NumpyRandomLaws R}.
Variables (n : nat) (s : rng).

Lemma gen_sack_bits : Forall is_bit (l_sack (fst (generate n s))).
Proof.
  rewrite gen_sack. unfold np_where_s. apply Forall_forall. intros k Hk.
  apply in_map_iff in Hk. destruct Hk as [b [<- _]].
  destruct b; [apply gen_sack_draw_bit | left; reflexivity].
Qed.

Lemma gen_completion_drawn_bits : Forall is_bit (l_completion_drawn (fst (generate n s))).
Proof.
  apply Forall_forall. intros c Hc.
  apply In_nth_error in Hc. destruct Hc as [i Hi].
  rewrite gen_completion_drawn in Hi. unfold np_where in Hi.
  rewrite !nth_error_zip_with in Hi.
  destruct (nth_error (eq1 _) i) as [b|]; [|discriminate].
  destruct (nth_error (l_draw_pressure _) i) as [dp|] eqn:Hdp; [|discriminate].
  destruct (nth_error (l_draw_clean _) i) as [dc|] eqn:Hdc; [|discriminate].
  injection Hi as <-. destruct b; simpl.
  - exact (Forall_nth_error _ _ _ _ (gen_draw_pressure_bits n s) Hdp).
  - exact (Forall_nth_error _ _ _ _ (gen_draw_clean_bits n s) Hdc).
Qed.

(** The completion field of play [i]: 0 on a sack, the draw elsewhere. *)
Lemma gen_completion_at (i : nat) (k c : Z) :
  nth_error (l_sack (fst (generate n s))) i = Some k ->
  nth_error (l_completion_drawn (fst (generate n s))) i = Some c ->
  nth_error (l_completion (fst (generate n s))) i
  = Some (if (k =? 1)%Z then 0%Z else c).
Proof.
  intros Hk Hc. rewrite gen_completion.
  apply nth_error_loc_fill; [|exact Hc].
  unfold eq1. rewrite nth_error_map, Hk. reflexivity.
Qed.

(** The yardage first assigned to play [i]. *)
Lemma gen_yards_drawn_at (i : nat) (c p : Z) (t base bonus pen : Q) :
  nth_error (l_completion_drawn (fst (generate n s))) i = Some c ->
  nth_error (l_pressure_applied (fst (generate n s))) i = Some p ->
  nth_error (l_time_to_throw (fst (generate n s))) i = Some t ->
  nth_error (l_base_yards (fst (generate n s))) i = Some base ->
  nth_error (l_bonus_yards (fst (generate n s))) i = Some bonus ->
  nth_error (l_penalty_yards (fst (generate n s))) i = Some pen ->
  nth_error (l_yards_drawn (fst (generate n s))) i
  = Some (if (c =? 1)%Z
          then base + b2q (Qltb 2.5 t) * bonus - b2q (p =? 1)%Z * pen
          else 0).
Proof.
  intros Hc Hp Ht Hb Hbo Hpe. rewrite gen_yards_drawn.
  apply nth_error_np_where_r.
  - unfold eq1. rewrite nth_error_map, Hc. reflexivity.
  - unfold completed_yards.
    rewrite !nth_error_zip_with, Hb, Ht, Hbo, Hp, Hpe. reflexivity.
Qed.

(** The yardage of play [i] after the adjustment for sacks. *)
Lemma gen_yards_gained_at (i : nat) (k : Z) (y : Q) :
  nth_error (l_sack (fst (generate n s))) i = Some k ->
  nth_error (l_yards_drawn (fst (generate n s))) i = Some y ->
  (k = 1%Z /\ exists loss, In loss (l_sack_loss (fst (generate n s))) /\
                           (3 <= loss /\ loss < 8) /\
                           nth_error (l_yards_gained (fst (generate n s))) i = Some (- loss))
  \/ (k = 0%Z /\ nth_error (l_yards_gained (fst (generate n s))) i = Some y).
Proof.
  intros Hk Hy.
  pose proof (Forall_nth_error _ _ _ _ gen_sack_bits Hk) as [-> | ->].
  - right. split; [reflexivity|].
    rewrite gen_yards_gained, nth_error_loc_assign_keep; [exact Hy|].
    unfold eq1. rewrite nth_error_map, Hk. reflexivity.
  - left. split; [reflexivity|].
    destruct (nth_error_loc_assign_set
                (eq1 (l_sack (fst (generate n s))))
                (map Qopp (l_sack_loss (fst (generate n s))))
                (l_yards_drawn (fst (generate n s))) i) as [v [Hv Hn]].
    + unfold eq1. rewrite nth_error_map, Hk. reflexivity.
    + apply nth_error_Some. rewrite Hy. discriminate.
    + rewrite length_map, gen_length_sack_loss. apply Nat.le_refl.
    + apply in_map_iff in Hv. destruct Hv as [loss [<- Hloss]].
      exists loss. split; [exact Hloss|]. split.
      * pose proof (gen_sack_loss_range n s) as Hr.
        rewrite Forall_forall in Hr. exact (Hr loss Hloss).
      * rewrite gen_yards_gained. exact Hn.
Qed.
End Yards.

Lemma finish_completion (l : Locals) (i : nat) :
  int_at (finish l) "completion" i = nth_error (l_completion l) i.
Proof. reflexivity. Qed.

Lemma finish_sack (l : Locals) (i : nat) :
  int_at (finish l) "sack" i = nth_error (l_sack l) i.
Proof. reflexivity. Qed.

Lemma finish_yards_gained (l : Locals) (i : nat) :
  float_at (finish l) "yards_gained" i
  = option_map (round_dec 1) (nth_error (l_yards_gained l) i).
Proof. unfold float_at. cbn [finish getitem String.eqb Ascii.eqb Bool.eqb]. apply nth_error_map. Qed.

(** C3.  For every generated play, once the sacks are entered (lines 120 to
    122), yards_gained is 0 when completion = 0 and sack = 0; when
    completion = 1 it is a non-negative base draw, plus a non-negative bonus
    draw when time_to_throw > 2.5, minus a penalty drawn from [0, 3) when
    pressure_applied = 1; when sack = 1 it is the negation of a draw from
    [3, 8), a value in (-8, -3].  The returned table holds this value
    rounded to one decimal place. *)
Theorem yards_gained_by_completion_and_pressure
  {rng : Type} {R : NumpyRandom rng} {L : NumpyRandomLaws R}
  (n : nat) (s : rng) (i : nat) :
  (i < n)%nat -> yards_rule (fst (generate n s)) i.
Proof.
  intro Hi. unfold yards_rule.
  destruct (gen_inputs n s i Hi) as [p [tp [t [Hp [Htp [Ht Hbit]]]]]].
  destruct (nth_error_some_lt (l_completion_drawn (fst (generate n s))) i) as [cd Hcd];
    [rewrite gen_length_completion_drawn; exact Hi|].
  destruct (nth_error_some_lt (l_sack (fst (generate n s))) i) as [k Hk];
    [rewrite gen_length_sack; exact Hi|].
  destruct (nth_error_some_lt (l_base_yards (fst (generate n s))) i) as [base Hbase];
    [rewrite gen_length_base_yards; exact Hi|].
  destruct (nth_error_some_lt (l_bonus_yards (fst (generate n s))) i) as [bonus Hbonus];
    [rewrite gen_length_bonus_yards; exact Hi|].
  destruct (nth_error_some_lt (l_penalty_yards (fst (generate n s))) i) as [pen Hpen];
    [rewrite gen_length_penalty_yards; exact Hi|].
  pose proof (gen_completion_at n s i k cd Hk Hcd) as Hc.
  pose proof (gen_yards_drawn_at n s i cd p t base bonus pen Hcd Hp Ht Hbase Hbonus Hpen) as Hyd.
  pose proof (Forall_nth_error _ _ _ _ (gen_completion_drawn_bits n s) Hcd) as Hcdbit.
  pose proof (Forall_nth_error _ _ _ _ (gen_base_yards_nonneg n s) Hbase) as Hb0.
  pose proof (Forall_nth_error _ _ _ _ (gen_bonus_yards_nonneg n s) Hbonus) as Hbo0.
  pose proof (Forall_nth_error _ _ _ _ (gen_penalty_yards_range n s) Hpen) as Hpe0.
  destruct (gen_yards_gained_at n s i k _ Hk Hyd) as [[-> [loss [Hin [Hloss Hy]]]] | [-> Hy]].
  - (* a sack *)
    exists t, p, 0%Z, 1%Z, (- loss), base, bonus, pen.
    rewrite finish_yards_gained, Hy.
    repeat match goal with |- _ /\ _ => split end;
      try assumption; try reflexivity; try discriminate.
    + left. reflexivity.
    + right. reflexivity.
    + apply Hpe0.
    + apply Hpe0.
    + intros _. split; [exists loss; split; [exact Hin | reflexivity]|].
      split; lra.
  - (* no sack *)
    simpl in Hc.
    exists t, p, cd, 0%Z,
      (if (cd =? 1)%Z
       then base + b2q (Qltb 2.5 t) * bonus - b2q (p =? 1)%Z * pen
       else 0),
      base, bonus, pen.
    rewrite finish_yards_gained, Hy.
    repeat match goal with |- _ /\ _ => split end;
      try assumption; try reflexivity; try discriminate.
    + left. reflexivity.
    + apply Hpe0.
    + apply Hpe0.
    + intros -> _. reflexivity.
    + intros ->. reflexivity.
Qed.

Lemma yards_gained_by_completion_and_pressure_witness :
  NumpyRandomLaws TapeRandom /\ (0 < 3)%nat /\
  yards_rule (fst (generate 3 example_tape)) 0.
Proof.
  split; [exact tape_laws|]. split; [lia|].
  apply (@yards_gained_by_completion_and_pressure
           Tape TapeRandom tape_laws 3%nat example_tape 0%nat).
  lia.
Defined.

(** The returned table holds the yards rounded (line 135): the sack of the
    example, whose loss is drawn as 7.96, is stored with -8.0 yards. *)
Lemma stored_sack_yards_rounded :
  nth_error (l_yards_gained (fst (generate 3 example_tape))) 0 = Some (- 7.96) /\
  int_at example_table "sack" 0 = Some 1%Z /\
  float_at example_table "yards_gained" 0 = Some (round_dec 1 (- 7.96)) /\
  round_dec 1 (- 7.96) == - 8.
Proof.
  split; [vm_compute; reflexivity|]. split; [vm_compute; reflexivity|].
  split; [vm_compute; reflexivity|]. vm_compute. reflexivity.
Qed.

(** ** Columns of a table *)

Lemma getitem_setitem_ne (df : DataFrame) (name name' : string) (c : Column) :
  name <> name' -> getitem (setitem df name' c) name = getitem df name.
Proof.
  intro Hne. induction df as [|[m c'] df IH]; simpl.
  - destruct (String.eqb_spec name' name); [congruence | reflexivity].
  - destruct (String.eqb_spec m name') as [->|Hm]; simpl.
    + destruct (String.eqb_spec name' name); [congruence | reflexivity].
    + destruct (String.eqb m name); [reflexivity | exact IH].
Qed.

Lemma getitem_setitem_eq (df : DataFrame) (name : string) (c : Column) :
  getitem (setitem df name c) name = Ok c.
Proof.
  induction df as [|[m c'] df IH]; simpl.
  - rewrite String.eqb_refl. reflexivity.
  - destruct (String.eqb_spec m name) as [->|Hm]; simpl.
    + rewrite String.eqb_refl. reflexivity.
    + destruct (String.eqb_spec m name); [congruence | exact IH].
Qed.

Lemma setitem_setitem (df : DataFrame) (name : string) (c c' : Column) :
  setitem (setitem df name c) name c' = setitem df name c'.
Proof.
  induction df as [|[m c0] df IH]; simpl.
  - rewrite String.eqb_refl. reflexivity.
  - destruct (String.eqb_spec m name) as [->|Hm]; simpl.
    + rewrite String.eqb_refl. reflexivity.
    + destruct (String.eqb_spec m name); [congruence | rewrite IH; reflexivity].
Qed.

Lemma int_at_setitem_ne (df : DataFrame) (name name' : string) (c : Column) (i : nat) :
  name <> name' -> int_at (setitem df name' c) name i = int_at df name i.
Proof. intro H. unfold int_at. rewrite getitem_setitem_ne by exact H. reflexivity. Qed.

Lemma float_at_setitem_ne (df : DataFrame) (name name' : string) (c : Column) (i : nat) :
  name <> name' -> float_at (setitem df name' c) name i = float_at df name i.
Proof. intro H. unfold float_at. rewrite getitem_setitem_ne by exact H. reflexivity. Qed.

(** What a report leaves in [self.data]: the table it found, or that table
    with the column [time_bucket] set. *)
Lemma invoke_state (observed output_dir_exists : bool) (op : Op) (df : DataFrame) :
  snd (invoke observed output_dir_exists op df) = df \/
  exists c, snd (invoke observed output_dir_exists op df) = setitem df "time_bucket" c.
Proof.
  destruct op; simpl; auto.
  unfold time_to_throw_analysis.
  destruct (numeric df "time_to_throw"); simpl; eauto.
Qed.

(** ** Consistency of the outcome fields *)

Lemma outcome_consistent_setitem (df : DataFrame) (c : Column) :
  outcome_consistent df -> outcome_consistent (setitem df "time_bucket" c).
Proof.
  intros H i. rewrite !int_at_setitem_ne, float_at_setitem_ne by discriminate.
  apply H.
Qed.

Lemma outcome_consistent_generated
  {rng : Type} {R : NumpyRandom rng} {L : NumpyRandomLaws R} (n : nat) (s : rng) :
  outcome_consistent (fst (create_realistic_nfl_data n s)).
Proof.
  rewrite created_table. intros i Hk.
  rewrite finish_sack in Hk.
  assert (Hi : (i < n)%nat).
  { rewrite <- (gen_length_sack n s). apply nth_error_Some. rewrite Hk. discriminate. }
  destruct (nth_error_some_lt (l_completion_drawn (fst (generate n s))) i) as [cd Hcd];
    [rewrite gen_length_completion_drawn; exact Hi|].
  destruct (nth_error_some_lt (l_yards_drawn (fst (generate n s))) i) as [yd Hyd];
    [rewrite gen_length_yards_drawn; exact Hi|].
  split.
  - rewrite finish_completion. rewrite (gen_completion_at n s i 1 cd Hk Hcd). reflexivity.
  - destruct (gen_yards_gained_at n s i 1 yd Hk Hyd) as [[_ [loss [_ [Hloss Hy]]]] | [H _]];
      [|discriminate].
    exists (round_dec 1 (- loss)). split.
    + rewrite finish_yards_gained, Hy. reflexivity.
    + assert (Hhi : inject_Z (-30) / 10 == - 3) by reflexivity.
      apply Qle_lt_trans with (y := - 3); [|reflexivity].
      rewrite <- Hhi. apply round_dec_1_le. rewrite Hhi. lra.
Qed.

(** C4. On every record of the table that create_realistic_nfl_data
    returns, sack = 1 implies completion = 0 and yards_gained < 0, and every
    report keeps this true of the table it leaves in [self.data]. *)
Theorem sack_implies_incomplete_and_loss
  {rng : Type} {R : NumpyRandom rng} {L : NumpyRandomLaws R} (n : nat) (s : rng) :
  outcome_consistent (fst (create_realistic_nfl_data n s)) /\
  forall (observed output_dir_exists : bool) (op : Op) (df : DataFrame),
    outcome_consistent df ->
    outcome_consistent (snd (invoke observed output_dir_exists op df)).
Proof.
  split; [apply outcome_consistent_generated|].
  intros observed output_dir_exists op df H.
  destruct (invoke_state observed output_dir_exists op df) as [-> | [c ->]].
  - exact H.
  - apply outcome_consistent_setitem. exact H.
Qed.

Lemma sack_implies_incomplete_and_loss_witness :
  NumpyRandomLaws TapeRandom /\
  outcome_consistent example_table /\
  outcome_consistent (snd (invoke false true TimeToThrowAnalysis example_table)).
Proof.
  pose proof (@sack_implies_incomplete_and_loss Tape TapeRandom tape_laws 3%nat example_tape)
    as [H1 H2].
  split; [exact tape_laws|]. split; [exact H1|].
  apply H2. exact H1.
Defined.

(** ** The shape of the returned table *)

Lemma play_ids_once (n : nat) :
  NoDup (map Z.of_nat (seq 1 n)) /\
  forall k : Z, In k (map Z.of_nat (seq 1 n)) <-> (1 <= k <= Z.of_nat n)%Z.
Proof.
  split.
  - apply NoDup_map_NoDup_ForallPairs; [|apply seq_NoDup].
    intros a b _ _ H. apply Nat2Z.inj. exact H.
  - intro k. rewrite in_map_iff. split.
    + intros [j [<- Hj]]. apply in_seq in Hj. lia.
    + intro Hk. exists (Z.to_nat k). split; [lia|].
      apply in_seq. lia.
Qed.

(** C8. create_realistic_nfl_data(n_plays) returns one flat table of exactly
    n_plays records, 2500 when the argument is left out; its play_id column
    takes each of 1, ..., n_plays exactly once; every record carries all the
    sampled, categorical and derived fields. *)
Theorem generated_table_shape
  {rng : Type} {R : NumpyRandom rng} {L : NumpyRandomLaws R} (n : nat) (s : rng) :
  table_shape n (fst (create_realistic_nfl_data n s)) /\
  table_shape 2500 (fst (init s)).
Proof.
  assert (H : forall m t, table_shape m (fst (create_realistic_nfl_data m t))).
  { intros m t. rewrite created_table. unfold table_shape.
    split; [reflexivity|]. split.
    - unfold finish.
      repeat (apply Forall_cons; [cbn [snd col_length]; try rewrite length_map|]);
        try apply Forall_nil.
      + rewrite gen_play_id, length_map. apply length_seq.
      + apply gen_length_time_to_throw.
      + apply gen_length_pressure_applied.
      + apply gen_length_time_to_pressure.
      + apply gen_length_down.
      + apply gen_length_distance.
      + apply gen_length_field_position.
      + apply gen_length_score_diff.
      + apply gen_length_quarter.
      + apply gen_length_def_alignment.
      + apply gen_length_rushers.
      + apply gen_length_completion.
      + apply gen_length_yards_gained.
      + apply gen_length_sack.
      + apply gen_length_interception.
    - exists (map Z.of_nat (seq 1 m)).
      split; [reflexivity|].
      split; [rewrite length_map; apply length_seq|].
      apply play_ids_once. }
  split; [apply H|].
  exact (H default_n_plays (seed 42)).
Qed.

Lemma generated_table_shape_witness :
  NumpyRandomLaws TapeRandom /\
  table_shape 3 example_table /\
  table_shape 2500 (fst (init example_tape)).
Proof.
  split; [exact tape_laws|].
  exact (@generated_table_shape Tape TapeRandom tape_laws 3%nat example_tape).
Defined.

(** ** Seeding *)

(** C9. The constructor seeds the generator with 42 before it generates, so
    two constructions give the same table, field for field, whatever the
    state of the generator was before each. *)
Theorem construction_deterministic
  {rng : Type} {R : NumpyRandom rng} (s1 s2 : rng) :
  init s1 = init s2 /\
  fst (init s1) = fst (create_realistic_nfl_data default_n_plays (seed 42)).
Proof. split; reflexivity. Qed.

(** ** What the reports leave in [self.data] *)

Lemma setitem_fresh (df : DataFrame) (name : string) (c : Column) :
  ~ In name (columns df) -> setitem df name c = df ++ [(name, c)].
Proof.
  induction df as [|[m c'] df IH]; simpl; intro H; [reflexivity|].
  destruct (String.eqb_spec m name) as [->|Hm].
  - exfalso. apply H. left. reflexivity.
  - rewrite IH; [reflexivity|]. intro Hin. apply H. right. exact Hin.
Qed.

Lemma time_bucket_fresh (l : Locals) : ~ In "time_bucket"%string (columns (finish l)).
Proof.
  simpl. intro H.
  repeat (destruct H as [H|H]; [discriminate H|]). exact H.
Qed.

Lemma numeric_time_to_throw (l : Locals) :
  numeric (finish l) "time_to_throw" = Ok (map (round_dec 2) (l_time_to_throw l)).
Proof. reflexivity. Qed.

Lemma time_to_throw_analysis_state (observed : bool) (l : Locals) :
  snd (time_to_throw_analysis observed (finish l)) = with_time_bucket l.
Proof.
  unfold time_to_throw_analysis. rewrite numeric_time_to_throw. cbn [snd].
  apply setitem_fresh. apply time_bucket_fresh.
Qed.

Lemma frame_rule_holds (observed : bool) (df : DataFrame) : frame_rule observed df.
Proof.
  unfold frame_rule.
  split; [reflexivity|]. split; [reflexivity|]. split; [reflexivity|].
  unfold time_to_throw_analysis. split.
  - intros name Hne. destruct (numeric df "time_to_throw"); cbn [snd].
    + apply getitem_setitem_ne. exact Hne.
    + reflexivity.
  - intros t ->. cbn [snd]. split.
    + apply getitem_setitem_eq.
    + unfold cut. cbn [col_length]. apply length_map.
Qed.

(** C5, as the code has it.  pressure_impact_summary,
    defensive_alignment_effectiveness and optimal_pressure_timing leave the
    stored table unchanged.  time_to_throw_analysis keeps every record and
    every column it found, and stores one more column, time_bucket, in the
    table: a generated table comes out with that column appended. *)
Theorem reports_keep_table_but_time_bucket
  {rng : Type} {R : NumpyRandom rng} {L : NumpyRandomLaws R}
  (n : nat) (s : rng) (observed : bool) :
  (forall df : DataFrame, frame_rule observed df) /\
  exists bucket : list (option nat),
    snd (time_to_throw_analysis observed (fst (create_realistic_nfl_data n s)))
    = fst (create_realistic_nfl_data n s) ++ [("time_bucket"%string, CatCol time_labels bucket)]
    /\ length bucket = n.
Proof.
  split; [intro df; apply frame_rule_holds|].
  rewrite created_table, time_to_throw_analysis_state.
  eexists. split; [reflexivity|].
  rewrite !length_map. apply gen_length_time_to_throw.
Qed.

Lemma reports_keep_table_but_time_bucket_witness :
  NumpyRandomLaws TapeRandom /\
  frame_rule false example_table /\
  exists bucket : list (option nat),
    snd (time_to_throw_analysis false example_table)
    = example_table ++ [("time_bucket"%string, CatCol time_labels bucket)]
    /\ length bucket = 3%nat.
Proof.
  pose proof (@reports_keep_table_but_time_bucket Tape TapeRandom tape_laws
                3%nat example_tape false) as [H1 H2].
  split; [exact tape_laws|]. split; [apply H1 | exact H2].
Defined.

(** [time_to_throw_analysis] changes the stored table. *)
Lemma time_to_throw_analysis_writes :
  snd (time_to_throw_analysis false example_table) <> example_table /\
  columns (snd (time_to_throw_analysis false example_table))
  = columns example_table ++ ["time_bucket"%string].
Proof.
  split.
  - intro H. apply (f_equal (@length _)) in H. vm_compute in H. discriminate H.
  - vm_compute. reflexivity.
Qed.

(** ** Grouping by pressure *)

Lemma unique_sorted_bits (l : list Z) :
  Forall (fun p => p = 0%Z \/ p = 1%Z) l ->
  unique_sorted Z.compare l
  = (if existsb (Z.eqb 0) l then [0%Z] else [])
    ++ (if existsb (Z.eqb 1) l then [1%Z] else []).
Proof.
  induction 1 as [|x l Hx _ IH]; [reflexivity|].
  cbn [unique_sorted fold_right existsb]. fold (unique_sorted Z.compare l).
  rewrite IH.
  destruct Hx as [-> | ->];
    destruct (existsb (Z.eqb 0) l); destruct (existsb (Z.eqb 1) l); reflexivity.
Qed.

Lemma unique_sorted_both (l : list Z) :
  Forall (fun p => p = 0%Z \/ p = 1%Z) l -> In 0%Z l -> In 1%Z l ->
  unique_sorted Z.compare l = [0; 1]%Z.
Proof.
  intros Hb H0 H1. rewrite (unique_sorted_bits l Hb).
  assert (E0 : existsb (Z.eqb 0) l = true)
    by (apply existsb_exists; exists 0%Z; split; [exact H0 | reflexivity]).
  assert (E1 : existsb (Z.eqb 1) l = true)
    by (apply existsb_exists; exists 1%Z; split; [exact H1 | reflexivity]).
  rewrite E0, E1. reflexivity.
Qed.

Lemma zip_with_andb_true {A} (g : list bool) (v : list A) :
  (length g <= length v)%nat ->
  zip_with andb g (map (fun _ => true) v) = g.
Proof.
  revert v. induction g as [|b g IH]; intros [|x v] H; simpl in *;
    try reflexivity; try lia.
  rewrite andb_true_r, IH by lia. reflexivity.
Qed.

Lemma group_count_int (g : list bool) (ids : list Z) :
  (length g <= length ids)%nat ->
  group_count g (IntCol ids) = Z.of_nat (mask_sum g).
Proof.
  intro H. unfold group_count, notnull. rewrite zip_with_andb_true by exact H.
  reflexivity.
Qed.

Lemma mask_sum_cons (b : bool) (m : list bool) :
  mask_sum (b :: m) = ((if b then 1 else 0) + mask_sum m)%nat.
Proof. unfold mask_sum. destruct b; reflexivity. Qed.

Lemma mask_sum_bits (key : list Z) :
  Forall (fun p => p = 0%Z \/ p = 1%Z) key ->
  (mask_sum (map (Z.eqb 0) key) + mask_sum (map (Z.eqb 1) key) = length key)%nat.
Proof.
  induction 1 as [|x l Hx _ IH]; [reflexivity|].
  cbn [map length]. rewrite !mask_sum_cons.
  destruct Hx as [-> | ->]; simpl; lia.
Qed.

Lemma mask_sum_map_filter {A} (f : A -> bool) (v : list A) :
  mask_sum (map f v) = length (filter f v).
Proof.
  induction v as [|x v IH]; [reflexivity|].
  cbn [map filter]. rewrite mask_sum_cons, IH. destruct (f x); reflexivity.
Qed.

(** *** The rows of a group and their mean *)

Lemma select_eqb_filter {A} (k : Z) (key : list Z) (v : list A) :
  select (map (Z.eqb k) key) v
  = map snd (filter (fun kv => (k =? fst kv)%Z) (combine key v)).
Proof.
  revert v. induction key as [|x key IH]; intros [|y v]; try reflexivity.
  cbn [map select combine filter fst]. rewrite IH.
  destruct (k =? x)%Z; reflexivity.
Qed.

Lemma select_eqb_length {A} (k : Z) (key : list Z) (v : list A) :
  length key = length v ->
  length (select (map (Z.eqb k) key) v) = length (filter (Z.eqb k) key).
Proof.
  revert v. induction key as [|x key IH]; intros [|y v] H; try reflexivity;
    try discriminate H.
  cbn [map select filter]. injection H as H.
  destruct (k =? x)%Z; cbn [length]; rewrite (IH v H); reflexivity.
Qed.

Lemma filter_eqb_pos (k : Z) (key : list Z) :
  In k key -> (0 < Z.of_nat (length (filter (Z.eqb k) key)))%Z.
Proof.
  intro H.
  assert (Hin : In k (filter (Z.eqb k) key))
    by (apply filter_In; split; [exact H | apply Z.eqb_refl]).
  destruct (filter (Z.eqb k) key); [destruct Hin | cbn [length]; lia].
Qed.

Lemma mean_some (v : list Q) :
  v <> [] -> mean v = Some (fold_right Qplus 0 v / inject_Z (Z.of_nat (length v))).
Proof. destruct v; [congruence | reflexivity]. Qed.

(** The mean of the rows of group [k], as [groupby(...).agg('mean')] has it. *)
Lemma group_mean_eqb (k : Z) (key : list Z) (v : list Q) :
  length key = length v -> In k key ->
  group_mean (map (Z.eqb k) key) v
  = Some (fold_right Qplus 0
            (map snd (filter (fun kv => (k =? fst kv)%Z) (combine key v)))
          / inject_Z (Z.of_nat (length (filter (Z.eqb k) key)))).
Proof.
  intros Hlen Hin. unfold group_mean.
  rewrite mean_some.
  - rewrite (select_eqb_length k key v Hlen), select_eqb_filter. reflexivity.
  - intro E. apply (f_equal (@length _)) in E.
    rewrite (select_eqb_length k key v Hlen) in E.
    pose proof (filter_eqb_pos k key Hin). cbn [length] in E. lia.
Qed.

(** *** Rounding to three decimals *)

Lemma rint_nearest (x : Q) :
  inject_Z (rint x) - x <= 1 # 2 /\ x - inject_Z (rint x) <= 1 # 2.
Proof.
  unfold rint.
  pose proof (Qfloor_le x) as Hlo. pose proof (Qlt_floor x) as Hhi.
  rewrite inject_Z_plus in Hhi. change (inject_Z 1) with 1 in Hhi.
  destruct (Qltb (x - inject_Z (Qfloor x)) (1 # 2)) eqn:E1;
    [apply Qltb_lt in E1; split; lra | apply Qltb_ge in E1].
  assert (Hup : inject_Z (Qfloor x + 1) - x <= 1 # 2 /\
                x - inject_Z (Qfloor x + 1) <= 1 # 2)
    by (rewrite inject_Z_plus; change (inject_Z 1) with 1; split; lra).
  destruct (Qltb (1 # 2) (x - inject_Z (Qfloor x))) eqn:E2; [exact Hup|].
  apply Qltb_ge in E2.
  destruct (Z.even (Qfloor x)); [split; lra | exact Hup].
Qed.

Lemma round_dec_3_nearest (m : Q) : rounded_3 m (Some (round_dec 3 m)).
Proof.
  exists (round_dec 3 m), (rint (m * 1000)).
  split; [reflexivity|]. split; [reflexivity|]. split; [reflexivity|].
  destruct (rint_nearest (m * 1000)) as [H1 H2].
  assert (E : round_dec 3 m == inject_Z (rint (m * 1000)) * (1 # 1000)) by reflexivity.
  apply Qabs_Qle_condition. rewrite E. split; lra.
Qed.

Lemma rounded_group_mean (k : Z) (key : list Z) (v : list Q) :
  length key = length v -> In k key ->
  rounded_3
    (fold_right Qplus 0 (map snd (filter (fun kv => (k =? fst kv)%Z) (combine key v)))
     / inject_Z (Z.of_nat (length (filter (Z.eqb k) key))))
    (round_cell 3 (group_mean (map (Z.eqb k) key) v)).
Proof.
  intros Hlen Hin. rewrite (group_mean_eqb k key v Hlen Hin).
  apply round_dec_3_nearest.
Qed.

(** The summary of the table of a run in which both kinds of play occur. *)
Lemma pressure_summary_of (l : Locals) (n : nat) :
  Forall is_bit (l_pressure_applied l) ->
  length (l_pressure_applied l) = n ->
  length (l_play_id l) = n ->
  length (l_completion l) = n ->
  length (l_yards_gained l) = n ->
  length (l_sack l) = n ->
  length (l_interception l) = n ->
  In 0%Z (l_pressure_applied l) ->
  In 1%Z (l_pressure_applied l) ->
  exists stats : list (string * PressureStats),
    fst (pressure_impact_summary (finish l)) = Ok stats /\
    pressure_summary_rule (finish l) stats /\
    (forall r0 r1, map snd stats = [r0; r1] ->
                   (total_plays r0 + total_plays r1 = Z.of_nat n)%Z).
Proof.
  intros Hb Hp Hid Hc Hy Hs Hi H0 H1.
  pose proof (unique_sorted_both _ Hb H0 H1) as Hu.
  assert (Hcount : forall k,
             group_count (map (Z.eqb k) (l_pressure_applied l)) (IntCol (l_play_id l))
             = Z.of_nat (length (filter (Z.eqb k) (l_pressure_applied l)))).
  { intro k. rewrite group_count_int by (rewrite length_map, Hp, Hid; apply Nat.le_refl).
    rewrite mask_sum_map_filter. reflexivity. }
  assert (Hsum : (group_count (map (Z.eqb 0) (l_pressure_applied l)) (IntCol (l_play_id l))
                  + group_count (map (Z.eqb 1) (l_pressure_applied l))
                                (IntCol (l_play_id l))
                  = Z.of_nat n)%Z).
  { rewrite !group_count_int by (rewrite length_map, Hp, Hid; apply Nat.le_refl).
    rewrite <- Nat2Z.inj_add, (mask_sum_bits _ Hb), Hp. reflexivity. }
  eexists. split.
  - unfold pressure_impact_summary, pressure_groups.
    cbn [fst int_col numeric getitem finish rbind String.eqb Ascii.eqb Bool.eqb].
    rewrite Hu. reflexivity.
  - split.
    + unfold pressure_summary_rule.
      do 7 eexists.
      split; [reflexivity|]. split; [reflexivity|]. split; [reflexivity|].
      split; [reflexivity|]. split; [reflexivity|]. split; [reflexivity|].
      split.
      * intros k r Hk.
        assert (Hin : In k (l_pressure_applied l))
          by (destruct Hk as [[-> _] | [-> _]]; assumption).
        cbv zeta.
        split; [apply filter_eqb_pos; exact Hin|].
        split; [destruct Hk as [[-> ->] | [-> ->]]; cbn [total_plays snd]; apply Hcount|].
        repeat match goal with |- _ /\ _ => split end;
          destruct Hk as [[-> ->] | [-> ->]];
          cbn [completion_pct yards_per_attempt sack_pct int_pct snd];
          apply rounded_group_mean;
          rewrite ?length_map; try assumption; congruence.
      * cbn [total_plays snd]. rewrite Hsum, Hp. reflexivity.
    + intros r0 r1 E. cbn [map snd fst combine] in E. injection E as <- <-.
      cbn [total_plays]. exact Hsum.
Qed.

(** C7, as the code has it.  When plays with and without pressure both
    occur in the generated table, pressure_impact_summary returns exactly two
    rows, for pressure_applied = 0 and pressure_applied = 1, each holding
    the means of completion, yards_gained, sack and interception over the
    plays of its group rounded to three decimals and the count of these
    plays; the two counts sum to the number of plays. *)
Theorem pressure_impact_summary_two_groups
  {rng : Type} {R : NumpyRandom rng} {L : NumpyRandomLaws R} (n : nat) (s : rng) :
  In 0%Z (l_pressure_applied (fst (generate n s))) ->
  In 1%Z (l_pressure_applied (fst (generate n s))) ->
  exists stats : list (string * PressureStats),
    fst (pressure_impact_summary (fst (create_realistic_nfl_data n s))) = Ok stats /\
    pressure_summary_rule (fst (create_realistic_nfl_data n s)) stats /\
    (forall r0 r1, map snd stats = [r0; r1] ->
                   (total_plays r0 + total_plays r1 = Z.of_nat n)%Z).
Proof.
  intros H0 H1. rewrite created_table.
  apply pressure_summary_of; try assumption.
  - apply gen_pressure_bits.
  - apply gen_length_pressure_applied.
  - rewrite gen_play_id, length_map, length_seq. reflexivity.
  - apply gen_length_completion.
  - apply gen_length_yards_gained.
  - apply gen_length_sack.
  - apply gen_length_interception.
Qed.

Lemma pressure_impact_summary_two_groups_witness :
  NumpyRandomLaws TapeRandom /\
  In 0%Z (l_pressure_applied (fst (generate 3 example_tape))) /\
  In 1%Z (l_pressure_applied (fst (generate 3 example_tape))) /\
  exists stats : list (string * PressureStats),
    fst (pressure_impact_summary example_table) = Ok stats /\
    pressure_summary_rule example_table stats /\
    (forall r0 r1, map snd stats = [r0; r1] ->
                   (total_plays r0 + total_plays r1 = Z.of_nat 3)%Z).
Proof.
  assert (H0 : In 0%Z (l_pressure_applied (fst (generate 3 example_tape))))
    by (vm_compute; auto).
  assert (H1 : In 1%Z (l_pressure_applied (fst (generate 3 example_tape))))
    by (vm_compute; auto).
  split; [exact tape_laws|]. split; [exact H0|]. split; [exact H1|].
  exact (@pressure_impact_summary_two_groups Tape TapeRandom tape_laws
           3%nat example_tape H0 H1).
Defined.

(** On a generated table with plays of one kind only (here a single play,
    under pressure), the two row labels do not fit the one group found:
    the summary raises ValueError and returns no row. *)
Lemma pressure_impact_summary_one_group :
  l_pressure_applied (fst (generate 1 example_tape)) = [1%Z] /\
  fst (pressure_impact_summary (fst (create_realistic_nfl_data 1 example_tape)))
  = Raise (ValueError "Length mismatch").
Proof. split; vm_compute; reflexivity. Qed.

(** ** Groups and their counts *)

Lemma Zsum_of_nat (l : list nat) : Zsum (map Z.of_nat l) = Z.of_nat (nat_sum l).
Proof.
  induction l as [|x l IH]; [reflexivity|].
  cbn [map Zsum nat_sum fold_right] in *. fold (Zsum (map Z.of_nat l)).
  fold (nat_sum l). rewrite IH. lia.
Qed.

Lemma mask_sum_le_length (m : list bool) : (mask_sum m <= length m)%nat.
Proof. unfold mask_sum. apply filter_length_le. Qed.

Lemma mask_sum_some_false (m : list bool) :
  In false m -> (mask_sum m < length m)%nat.
Proof.
  induction m as [|b m IH]; [intros []|].
  intros [-> | H]; rewrite mask_sum_cons; cbn [length].
  - pose proof (mask_sum_le_length m). lia.
  - specialize (IH H). destruct b; lia.
Qed.

Lemma nat_sum_add {A} (f g : A -> nat) (l : list A) :
  nat_sum (map (fun x => (f x + g x)%nat) l) = (nat_sum (map f l) + nat_sum (map g l))%nat.
Proof.
  induction l as [|x l IH]; [reflexivity|].
  cbn [map nat_sum fold_right] in *.
  fold (nat_sum (map f l)). fold (nat_sum (map g l)).
  fold (nat_sum (map (fun x => (f x + g x)%nat) l)). rewrite IH. lia.
Qed.

(** Among distinct levels of which at most one holds a given row, the row is
    counted at most once, and only when it qualifies. *)
Lemma row_counted_once {Lv Row} (m : Lv -> Row -> bool) (P : Row -> bool)
      (levels : list Lv) (r : Row) :
  NoDup levels ->
  (forall lv lv', m lv r = true -> m lv' r = true -> lv = lv') ->
  (forall lv, m lv r = true -> P r = true) ->
  (nat_sum (map (fun lv => if m lv r then 1 else 0)%nat levels) <= if P r then 1 else 0)%nat.
Proof.
  intros Hnd Huniq HP.
  induction Hnd as [|lv levels Hnin Hnd IH]; [simpl; lia|].
  cbn [map nat_sum fold_right]. fold (nat_sum (map (fun lv => if m lv r then 1 else 0)%nat levels)).
  destruct (m lv r) eqn:E.
  - rewrite (HP lv E).
    assert (Hz : nat_sum (map (fun lv => if m lv r then 1 else 0)%nat levels) = 0%nat).
    { clear IH. induction levels as [|lv' levels IH']; [reflexivity|].
      cbn [map nat_sum fold_right].
      destruct (m lv' r) eqn:E'.
      - exfalso. apply Hnin. left. apply Huniq; assumption.
      - apply IH'.
        + intro H. apply Hnin. right. exact H.
        + inversion Hnd. assumption. }
    rewrite Hz. lia.
  - simpl. exact IH.
Qed.

Lemma groups_count_le {Lv Row} (m : Lv -> Row -> bool) (P : Row -> bool)
      (levels : list Lv) (rows : list Row) :
  NoDup levels ->
  (forall lv lv' r, m lv r = true -> m lv' r = true -> lv = lv') ->
  (forall lv r, m lv r = true -> P r = true) ->
  (nat_sum (map (fun lv => mask_sum (map (m lv) rows)) levels) <= mask_sum (map P rows))%nat.
Proof.
  intros Hnd Huniq HP.
  induction rows as [|r rows IH].
  - assert (E : nat_sum (map (fun lv => mask_sum (map (m lv) [])) levels) = 0%nat)
      by (clear Hnd; induction levels as [|lv levels IHl]; [reflexivity | simpl; exact IHl]).
    rewrite E. apply Nat.le_0_l.
  - assert (E : map (fun lv => mask_sum (map (m lv) (r :: rows))) levels
                = map (fun lv => ((if m lv r then 1 else 0)
                                  + mask_sum (map (m lv) rows))%nat) levels).
    { apply map_ext. intro lv. cbn [map]. apply mask_sum_cons. }
    rewrite E, nat_sum_add. cbn [map]. rewrite mask_sum_cons.
    pose proof (row_counted_once m P levels r Hnd
                  (fun lv lv' => Huniq lv lv' r) (fun lv => HP lv r)).
    lia.
Qed.

(** When some row qualifies for no group, the counts of the groups sum to
    less than the number of rows. *)
Lemma groups_count_lt {Lv Row} (m : Lv -> Row -> bool) (P : Row -> bool)
      (levels : list Lv) (rows : list Row) (r : Row) :
  NoDup levels ->
  (forall lv lv' r, m lv r = true -> m lv' r = true -> lv = lv') ->
  (forall lv r, m lv r = true -> P r = true) ->
  In r rows -> P r = false ->
  (nat_sum (map (fun lv => mask_sum (map (m lv) rows)) levels) < length rows)%nat.
Proof.
  intros Hnd Huniq HP Hin Hr.
  pose proof (groups_count_le m P levels rows Hnd Huniq HP) as Hle.
  assert (Hlt : (mask_sum (map P rows) < length (map P rows))%nat).
  { apply mask_sum_some_false. rewrite <- Hr. apply in_map. exact Hin. }
  rewrite length_map in Hlt. lia.
Qed.

(** The sorted distinct values of a key column are distinct. *)
Lemma insert_uniq_in (x y : Z) (l : list Z) :
  In y (insert_uniq Z.compare x l) -> y = x \/ In y l.
Proof.
  induction l as [|z l IH]; simpl.
  - intros [<- | []]. left. reflexivity.
  - destruct (Z.compare_spec x z) as [E|E|E]; simpl.
    + intro H. right. exact H.
    + intros [<- | H]; [left; reflexivity | right; exact H].
    + intros [<- | H]; [right; left; reflexivity|].
      destruct (IH H) as [-> | Hin]; [left; reflexivity | right; right; exact Hin].
Qed.

Lemma insert_uniq_sorted (x : Z) (l : list Z) :
  StronglySorted Z.lt l -> StronglySorted Z.lt (insert_uniq Z.compare x l).
Proof.
  induction 1 as [|z l Hs IH Hall]; simpl.
  - constructor; constructor.
  - destruct (Z.compare_spec x z) as [E|E|E].
    + constructor; assumption.
    + constructor; [constructor; assumption|].
      constructor; [assumption|].
      eapply Forall_impl; [|exact Hall]. simpl. intros a Ha. lia.
    + constructor; [exact IH|].
      apply Forall_forall. intros y Hy.
      destruct (insert_uniq_in x y l Hy) as [-> | Hin]; [assumption|].
      rewrite Forall_forall in Hall. apply Hall. exact Hin.
Qed.

Lemma unique_sorted_NoDup (l : list Z) : NoDup (unique_sorted Z.compare l).
Proof.
  assert (Hs : StronglySorted Z.lt (unique_sorted Z.compare l)).
  { induction l as [|x l IH]; [constructor|].
    cbn [unique_sorted fold_right]. apply insert_uniq_sorted. exact IH. }
  induction Hs as [|z l' Hs IH Hall]; constructor; [|exact IH].
  intro Hin. rewrite Forall_forall in Hall. specialize (Hall z Hin). lia.
Qed.

Lemma list_prod_NoDup {A B} (a : list A) (b : list B) :
  NoDup a -> NoDup b -> NoDup (list_prod a b).
Proof.
  intros Ha Hb. induction Ha as [|x a Hnin Ha IH]; [constructor|].
  cbn [list_prod]. apply NoDup_app.
  - apply NoDup_map_NoDup_ForallPairs; [|exact Hb].
    intros u v _ _ E. injection E as ->. reflexivity.
  - exact IH.
  - intros [u v] Hin Hin'. apply in_map_iff in Hin. destruct Hin as [w [E _]].
    injection E as <- <-. apply in_prod_iff in Hin'. apply Hnin. apply Hin'.
Qed.

(** ** Buckets *)

Lemma filter_all {A} (f : A -> bool) (l : list A) :
  Forall (fun x => f x = true) l -> filter f l = l.
Proof.
  induction 1 as [|x l Hx _ IH]; [reflexivity|].
  simpl. rewrite Hx, IH. reflexivity.
Qed.

(** A value above every edge lies in no bin. *)
Lemma cut1_above (bins : list Q) (x : Q) :
  Forall (fun b => b < x) bins -> cut1 bins x = None.
Proof.
  intro H. unfold cut1, searchsorted_left.
  rewrite filter_all.
  - rewrite Nat.eqb_refl, orb_true_r. reflexivity.
  - eapply Forall_impl; [|exact H]. intros b Hb. apply Qltb_lt. exact Hb.
Qed.

Lemma cut1_time_above_10 (x : Q) : 10 < x -> cut1 time_bins x = None.
Proof.
  intro H. apply cut1_above. unfold time_bins.
  repeat (apply Forall_cons; [lra|]). apply Forall_nil.
Qed.

Lemma cut1_pressure_above_10 (x : Q) : 10 < x -> cut1 pressure_bins x = None.
Proof.
  intro H. apply cut1_above. unfold pressure_bins.
  repeat (apply Forall_cons; [lra|]). apply Forall_nil.
Qed.

Lemma combine_zip_with {A B} (a : list A) (b : list B) : combine a b = zip_with pair a b.
Proof.
  revert b. induction a as [|x a IH]; intros [|y b]; simpl; try reflexivity.
  rewrite IH. reflexivity.
Qed.

Lemma zip_with_map_combine {A B A' B' C} (f : A' -> B' -> C) (g : A -> A') (h : B -> B')
      (a : list A) (b : list B) :
  zip_with f (map g a) (map h b) = map (fun r => f (g (fst r)) (h (snd r))) (combine a b).
Proof.
  revert b. induction a as [|x a IH]; intros [|y b]; simpl; try reflexivity.
  rewrite IH. reflexivity.
Qed.

Lemma pair_group_rows (codes : list (option nat)) (key : list Z) (kp : nat * Z) :
  pair_group codes key kp = map (pair_match kp) (combine codes key).
Proof.
  unfold pair_group, in_bin. rewrite zip_with_map_combine.
  apply map_ext. intro r. reflexivity.
Qed.

Lemma pair_match_unique (lv lv' : nat * Z) (r : option nat * Z) :
  pair_match lv r = true -> pair_match lv' r = true -> lv = lv'.
Proof.
  unfold pair_match. destruct r as [[j|] k]; simpl; [|discriminate].
  intros H H'. apply andb_true_iff in H. apply andb_true_iff in H'.
  destruct H as [H1 H2], H' as [H1' H2'].
  apply Nat.eqb_eq in H1. apply Nat.eqb_eq in H1'.
  apply Z.eqb_eq in H2. apply Z.eqb_eq in H2'.
  destruct lv, lv'. simpl in *. congruence.
Qed.

Lemma pair_match_has_bin (lv : nat * Z) (r : option nat * Z) :
  pair_match lv r = true -> has_bin r = true.
Proof.
  unfold pair_match, has_bin. destruct (fst r); [reflexivity | discriminate].
Qed.

Lemma pair_levels_NoDup (observed : bool) (labels : list string)
      (codes : list (option nat)) (key : list Z) :
  NoDup (pair_levels observed labels codes key).
Proof.
  unfold pair_levels. apply NoDup_filter. apply list_prod_NoDup.
  - apply seq_NoDup.
  - apply unique_sorted_NoDup.
Qed.

(** The counts of the groups by (bucket, key) sum to less than the number of
    rows when some row has no bucket. *)
Lemma pair_counts_lt (observed : bool) (labels : list string)
      (codes : list (option nat)) (key ids : list Z) (i : nat) :
  length codes = length key -> length ids = length key ->
  nth_error codes i = Some None ->
  (Zsum (map (fun kp => group_count (pair_group codes key kp) (IntCol ids))
             (pair_levels observed labels codes key))
   < Z.of_nat (length key))%Z.
Proof.
  intros Hc Hids Hi.
  assert (Hlen : length (combine codes key) = length key)
    by (rewrite length_combine, Hc; apply Nat.min_id).
  assert (E : map (fun kp => group_count (pair_group codes key kp) (IntCol ids))
                  (pair_levels observed labels codes key)
              = map Z.of_nat
                    (map (fun kp => mask_sum (map (pair_match kp) (combine codes key)))
                         (pair_levels observed labels codes key))).
  { rewrite map_map. apply map_ext. intro kp.
    rewrite group_count_int, pair_group_rows; [reflexivity|].
    rewrite pair_group_rows, length_map, Hlen, Hids. apply Nat.le_refl. }
  rewrite E, Zsum_of_nat. apply Nat2Z.inj_lt. rewrite <- Hlen.
  destruct (nth_error_some_lt key i) as [k Hk].
  { rewrite <- Hc. apply nth_error_Some. rewrite Hi. discriminate. }
  apply (groups_count_lt pair_match has_bin _ _ (None, k)).
  - apply pair_levels_NoDup.
  - apply pair_match_unique.
  - apply pair_match_has_bin.
  - apply (nth_error_In _ i). rewrite combine_zip_with, nth_error_zip_with, Hi, Hk.
    reflexivity.
  - reflexivity.
Qed.

(** The result of [time_to_throw_analysis] on a generated table. *)
Lemma time_to_throw_analysis_generated (observed : bool) (l : Locals) :
  exists stats,
    fst (time_to_throw_analysis observed (finish l)) = Ok stats /\
    map (fun r => ts_play_id (snd r)) stats
    = map (fun kp =>
             group_count
               (pair_group (map (cut1 time_bins) (map (round_dec 2) (l_time_to_throw l)))
                           (l_pressure_applied l) kp)
               (IntCol (l_play_id l)))
          (pair_levels observed time_labels
             (map (cut1 time_bins) (map (round_dec 2) (l_time_to_throw l)))
             (l_pressure_applied l)).
Proof.
  eexists. split.
  - unfold time_to_throw_analysis. rewrite numeric_time_to_throw. cbn [fst].
    rewrite setitem_fresh by apply time_bucket_fresh. reflexivity.
  - rewrite map_map. reflexivity.
Qed.

Lemma select_length {A} (mask : list bool) (v : list A) :
  length mask = length v -> length (select mask v) = mask_sum mask.
Proof.
  revert v. induction mask as [|b m IH]; intros [|x v] H; simpl in *;
    try reflexivity; try discriminate.
  rewrite mask_sum_cons. destruct b; simpl; rewrite IH by lia; reflexivity.
Qed.

Lemma select_in {A} (mask : list bool) (v : list A) (i : nat) (x : A) :
  nth_error mask i = Some true -> nth_error v i = Some x -> In x (select mask v).
Proof.
  revert v i. induction mask as [|b m IH]; intros [|y v] [|i] Hm Hv; simpl in *;
    try discriminate.
  - injection Hm as ->. injection Hv as ->. left. reflexivity.
  - destruct b; [right|]; eapply IH; eassumption.
Qed.

(** The counts of the groups by bucket sum to less than the number of rows
    when some row has no bucket. *)
Lemma bin_counts_lt (observed : bool) (labels : list string)
      (codes : list (option nat)) (ids : list Z) :
  length ids = length codes -> In None codes ->
  (Zsum (map (fun k => group_count (in_bin k codes) (IntCol ids))
             (bin_levels observed labels codes))
   < Z.of_nat (length codes))%Z.
Proof.
  intros Hids Hin.
  assert (E : map (fun k => group_count (in_bin k codes) (IntCol ids))
                  (bin_levels observed labels codes)
              = map Z.of_nat
                    (map (fun k => mask_sum (map (bin_match k) codes))
                         (bin_levels observed labels codes))).
  { rewrite map_map. apply map_ext. intro k.
    rewrite group_count_int; [reflexivity|].
    unfold in_bin. rewrite length_map, Hids. apply Nat.le_refl. }
  rewrite E, Zsum_of_nat. apply Nat2Z.inj_lt.
  apply (groups_count_lt bin_match is_some _ _ None).
  - unfold bin_levels. apply NoDup_filter. apply seq_NoDup.
  - intros k k' [j|]; simpl; [|discriminate].
    intros H H'. apply Nat.eqb_eq in H. apply Nat.eqb_eq in H'. congruence.
  - intros k [j|]; simpl; [reflexivity | discriminate].
  - exact Hin.
  - reflexivity.
Qed.

(** The result of [optimal_pressure_timing] on a generated table. *)
Lemma optimal_pressure_timing_generated (observed : bool) (l : Locals) :
  exists stats,
    fst (optimal_pressure_timing observed (finish l)) = Ok stats /\
    map (fun r => total_pressures (snd r)) stats
    = map (fun k =>
             group_count
               (in_bin k (map (cut1 pressure_bins)
                              (select (eq1 (l_pressure_applied l))
                                      (map (round_dec 2) (l_time_to_pressure l)))))
               (IntCol (select (eq1 (l_pressure_applied l)) (l_play_id l))))
          (bin_levels observed pressure_labels
             (map (cut1 pressure_bins)
                  (select (eq1 (l_pressure_applied l))
                          (map (round_dec 2) (l_time_to_pressure l))))).
Proof.
  eexists. split.
  - reflexivity.
  - rewrite map_map. reflexivity.
Qed.

Lemma finish_time_to_throw (l : Locals) (i : nat) :
  float_at (finish l) "time_to_throw" i
  = nth_error (map (round_dec 2) (l_time_to_throw l)) i.
Proof. reflexivity. Qed.

Lemma finish_time_to_pressure (l : Locals) (i : nat) :
  float_at (finish l) "time_to_pressure" i
  = nth_error (map (round_dec 2) (l_time_to_pressure l)) i.
Proof. reflexivity. Qed.

Lemma finish_pressure_applied (l : Locals) (i : nat) :
  int_at (finish l) "pressure_applied" i = nth_error (l_pressure_applied l) i.
Proof. reflexivity. Qed.

(** C10. The two bucketings are partial.  A time above 10 lies in no bucket;
    a play whose time_to_throw exceeds 10 is left out of the groups of
    time_to_throw_analysis, whose counts then sum to less than the number of
    plays; a pressure play whose time_to_pressure exceeds 10 is left out of
    the groups of optimal_pressure_timing, whose counts then sum to less
    than the number of pressure plays. *)
Theorem buckets_exclude_times_above_10
  {rng : Type} {R : NumpyRandom rng} {L : NumpyRandomLaws R}
  (n : nat) (s : rng) (observed : bool) :
  (forall x : Q, 10 < x -> cut1 time_bins x = None /\ cut1 pressure_bins x = None) /\
  (forall (i : nat) (x : Q),
      float_at (fst (create_realistic_nfl_data n s)) "time_to_throw" i = Some x ->
      10 < x ->
      exists stats,
        fst (time_to_throw_analysis observed (fst (create_realistic_nfl_data n s))) = Ok stats /\
        (Zsum (map (fun r => ts_play_id (snd r)) stats) < Z.of_nat n)%Z) /\
  (forall (i : nat) (x : Q),
      int_at (fst (create_realistic_nfl_data n s)) "pressure_applied" i = Some 1%Z ->
      float_at (fst (create_realistic_nfl_data n s)) "time_to_pressure" i = Some x ->
      10 < x ->
      exists stats,
        fst (optimal_pressure_timing observed (fst (create_realistic_nfl_data n s))) = Ok stats /\
        (Zsum (map (fun r => total_pressures (snd r)) stats)
         < Z.of_nat (mask_sum (eq1 (l_pressure_applied (fst (generate n s))))))%Z).
Proof.
  rewrite created_table.
  split; [intros x Hx; split; [apply cut1_time_above_10 | apply cut1_pressure_above_10];
          exact Hx|].
  split.
  - intros i x Hi Hx. rewrite finish_time_to_throw in Hi.
    destruct (time_to_throw_analysis_generated observed (fst (generate n s)))
      as [stats [Hs Hc]].
    exists stats. split; [exact Hs|]. rewrite Hc.
    rewrite <- (gen_length_pressure_applied n s) at 3.
    apply pair_counts_lt with (i := i).
    + rewrite !length_map, gen_length_time_to_throw, gen_length_pressure_applied.
      reflexivity.
    + rewrite gen_play_id, length_map, length_seq, gen_length_pressure_applied.
      reflexivity.
    + rewrite nth_error_map, Hi. cbn [option_map].
      rewrite (cut1_time_above_10 x Hx). reflexivity.
  - intros i x Hp Hi Hx.
    rewrite finish_pressure_applied in Hp. rewrite finish_time_to_pressure in Hi.
    destruct (optimal_pressure_timing_generated observed (fst (generate n s)))
      as [stats [Hs Hc]].
    exists stats. split; [exact Hs|]. rewrite Hc.
    assert (Hlen : length (map (cut1 pressure_bins)
                               (select (eq1 (l_pressure_applied (fst (generate n s))))
                                       (map (round_dec 2)
                                            (l_time_to_pressure (fst (generate n s))))))
                   = mask_sum (eq1 (l_pressure_applied (fst (generate n s))))).
    { rewrite length_map. apply select_length. unfold eq1.
      rewrite !length_map, gen_length_pressure_applied, gen_length_time_to_pressure.
      reflexivity. }
    rewrite <- Hlen. apply bin_counts_lt.
    + rewrite Hlen. apply select_length. unfold eq1.
      rewrite length_map, gen_length_pressure_applied, gen_play_id, length_map, length_seq.
      reflexivity.
    + rewrite <- (cut1_pressure_above_10 x Hx). apply in_map.
      apply (select_in _ _ i); [|exact Hi].
      unfold eq1. rewrite nth_error_map, Hp. reflexivity.
Qed.

Lemma buckets_exclude_times_above_10_witness :
  NumpyRandomLaws TapeRandom /\
  (exists stats,
      fst (time_to_throw_analysis false example_table) = Ok stats /\
      (Zsum (map (fun r => ts_play_id (snd r)) stats) < Z.of_nat 3)%Z) /\
  (exists stats,
      fst (optimal_pressure_timing false example_table) = Ok stats /\
      (Zsum (map (fun r => total_pressures (snd r)) stats)
       < Z.of_nat (mask_sum (eq1 (l_pressure_applied (fst (generate 3 example_tape))))))%Z).
Proof.
  pose proof (@buckets_exclude_times_above_10 Tape TapeRandom tape_laws
                3%nat example_tape false) as [_ [H1 H2]].
  split; [exact tape_laws|]. split.
  - apply (H1 1%nat 11.00); [vm_compute; reflexivity | reflexivity].
  - apply (H2 2%nat 11.00); [vm_compute; reflexivity | vm_compute; reflexivity | reflexivity].
Defined.

(** ** The reports in any order *)

Lemma invoke_bucketed (observed output_dir_exists : bool) (l : Locals) (op : Op) :
  invoke observed output_dir_exists op (with_time_bucket l)
  = (canonical observed output_dir_exists l op, with_time_bucket l).
Proof.
  destruct op; try reflexivity.
Qed.

Lemma invoke_generated (observed output_dir_exists : bool) (l : Locals) (op : Op) :
  op <> CreateVisualizations ->
  invoke observed output_dir_exists op (finish l)
  = (canonical observed output_dir_exists l op,
     match op with
     | TimeToThrowAnalysis => with_time_bucket l
     | _ => finish l
     end).
Proof.
  destruct op; intro H; try reflexivity.
  contradiction H. reflexivity.
Qed.

(** Without [time_bucket] in the table, the chart of the completion rate by
    time bucket cannot be drawn. *)
Lemma create_visualizations_needs_time_bucket
      (observed output_dir_exists : bool) (l : Locals) (a b : Z) :
  unique_sorted Z.compare (l_pressure_applied l) = [a] \/
  unique_sorted Z.compare (l_pressure_applied l) = [a; b] ->
  fst (create_visualizations observed output_dir_exists (finish l))
  = Raise (KeyError "time_bucket").
Proof.
  intro H. unfold create_visualizations, mean_by_pressure.
  cbn [fst int_col numeric getitem finish rbind String.eqb Ascii.eqb Bool.eqb].
  destruct H as [-> | ->]; reflexivity.
Qed.

Lemma time_before_visual_tail (op : Op) (ops : list Op) :
  op <> TimeToThrowAnalysis ->
  time_before_visual (op :: ops) -> time_before_visual ops.
Proof.
  intros Hop H pre post E.
  destruct (H (op :: pre) post) as [Heq | Hin].
  - rewrite E. reflexivity.
  - congruence.
  - exact Hin.
Qed.

Lemma time_before_visual_main : time_before_visual main_order.
Proof.
  intros pre post E. unfold main_order in E.
  destruct pre as [|a [|b [|c [|d [|e pre]]]]]; simpl in E; try discriminate E.
  - injection E as <- <- <- <- _. simpl. auto.
  - exfalso. injection E as _ _ _ _ _ E.
    destruct pre; discriminate E.
Qed.

Lemma run_bucketed (observed output_dir_exists : bool) (l : Locals) (ops : list Op) :
  run observed output_dir_exists ops (with_time_bucket l)
  = (map (fun op => (op, canonical observed output_dir_exists l op)) ops,
     with_time_bucket l).
Proof.
  induction ops as [|op ops IH]; [reflexivity|].
  cbn [run map]. rewrite invoke_bucketed. cbn [fst snd]. rewrite IH. reflexivity.
Qed.

Lemma run_generated (observed output_dir_exists : bool) (l : Locals) (ops : list Op) :
  time_before_visual ops ->
  fst (run observed output_dir_exists ops (finish l))
  = map (fun op => (op, canonical observed output_dir_exists l op)) ops.
Proof.
  induction ops as [|op ops IH]; intro H; [reflexivity|].
  cbn [run map fst].
  assert (Hop : op <> CreateVisualizations).
  { intros ->. destruct (H [] ops eq_refl). }
  rewrite (invoke_generated observed output_dir_exists l op Hop). cbn [fst snd]. f_equal.
  destruct op; try (apply IH; eapply time_before_visual_tail; [|exact H]; discriminate).
  rewrite run_bucketed. reflexivity.
Qed.

Lemma in_main_order (op : Op) : In op main_order.
Proof. destruct op; simpl; auto 6. Qed.

(** C6, as the code has it.  On a generated table, in any order of calls in
    which time_to_throw_analysis comes before create_visualizations, every
    report has the outcome, the value it returns or the exception it raises,
    that it has in the order of main.  Whether the reports succeed is not
    part of the statement: on a generated table some of them can raise. *)
Theorem reports_agree_once_buckets_come_first
  {rng : Type} {R : NumpyRandom rng} {L : NumpyRandomLaws R}
  (n : nat) (s : rng) (observed output_dir_exists : bool) (ops : list Op) :
  time_before_visual ops ->
  forall (op : Op) (out : Outcome),
    In (op, out)
       (fst (run observed output_dir_exists ops (fst (create_realistic_nfl_data n s)))) ->
    In (op, out)
       (fst (run observed output_dir_exists main_order
               (fst (create_realistic_nfl_data n s)))).
Proof.
  intros H op out Hin. rewrite created_table in *.
  rewrite (run_generated observed output_dir_exists _ ops H) in Hin.
  rewrite (run_generated observed output_dir_exists _ main_order time_before_visual_main).
  apply in_map_iff in Hin. destruct Hin as [op' [E _]]. injection E as -> <-.
  apply in_map_iff. exists op. split; [reflexivity | apply in_main_order].
Qed.

Lemma reports_agree_once_buckets_come_first_witness :
  NumpyRandomLaws TapeRandom /\
  time_before_visual
    [TimeToThrowAnalysis; CreateVisualizations; OptimalPressureTiming;
     PressureImpactSummary; DefensiveAlignmentEffectiveness] /\
  In (CreateVisualizations,
      fst (invoke false true CreateVisualizations
             (snd (invoke false true TimeToThrowAnalysis example_table))))
     (fst (run false true main_order example_table)).
Proof.
  assert (Hb : time_before_visual
                 [TimeToThrowAnalysis; CreateVisualizations; OptimalPressureTiming;
                  PressureImpactSummary; DefensiveAlignmentEffectiveness]).
  { intros pre post E.
    destruct pre as [|a pre]; [discriminate E|].
    injection E as -> _. left. reflexivity. }
  split; [exact tape_laws|]. split; [exact Hb|].
  apply (@reports_agree_once_buckets_come_first Tape TapeRandom tape_laws
           3%nat example_tape false true _ Hb).
  right. left. reflexivity.
Defined.

(** Called before [time_to_throw_analysis], [create_visualizations] raises
    KeyError, while called after it, as in [main], it returns the figure; and
    when the directory of the figure does not exist it raises
    FileNotFoundError in the order of [main] too. *)
Lemma create_visualizations_first_fails :
  In (CreateVisualizations, VisualOut (Raise (KeyError "time_bucket")))
     (fst (run false true
             [CreateVisualizations; PressureImpactSummary; TimeToThrowAnalysis;
              DefensiveAlignmentEffectiveness; OptimalPressureTiming]
             example_table)) /\
  ~ In (CreateVisualizations, VisualOut (Raise (KeyError "time_bucket")))
       (fst (run false true main_order example_table)) /\
  (exists fig : Figure,
    In (CreateVisualizations, VisualOut (Ok fig))
       (fst (run false true main_order example_table))) /\
  In (CreateVisualizations,
      VisualOut (Raise (FileNotFoundError
         "/home/claude/nfl_analytics_project/qb_pressure_visualizations.png")))
     (fst (run false false main_order example_table)).
Proof.
  split; [left; vm_compute; reflexivity|].
  split; [|split].
  - intro H. vm_compute in H.
    repeat (destruct H as [H|H]; [discriminate H|]). exact H.
  - eexists. do 4 right. left. vm_compute. reflexivity.
  - do 4 right. left. vm_compute. reflexivity.
Qed.

(** What [create_visualizations] raises after [time_to_throw_analysis] when a
    chart has nothing to show: with only the occupied buckets as groups and
    no play in a time bucket, the bar plot of chart 4 raises TypeError; with
    no play under pressure, the sort of chart 5 does. *)
Lemma create_visualizations_nothing_to_plot :
  fst (create_visualizations true true
         (snd (time_to_throw_analysis true
                 (fst (create_realistic_nfl_data 2 late_tape)))))
  = Raise (TypeError "no numeric data to plot") /\
  fst (create_visualizations false true
         (snd (time_to_throw_analysis false
                 (fst (create_realistic_nfl_data 1 clean_tape)))))
  = Raise (TypeError "sort_values() missing the argument by").
Proof. split; vm_compute; reflexivity. Qed.

(** * Further properties of the code *)

(** ** The intervals of the buckets *)

Lemma searchsorted_left_cons (b : Q) (bins : list Q) (x : Q) :
  searchsorted_left (b :: bins) x
  = ((if Qltb b x then 1 else 0) + searchsorted_left bins x)%nat.
Proof. unfold searchsorted_left. simpl. destruct (Qltb b x); reflexivity. Qed.

(** The position of [x] among five increasing edges. *)
Lemma searchsorted_left_5 (e0 e1 e2 e3 e4 x : Q) :
  e0 < e1 -> e1 < e2 -> e2 < e3 -> e3 < e4 ->
  (x <= e0 /\ searchsorted_left [e0; e1; e2; e3; e4] x = 0%nat) \/
  (e0 < x /\ x <= e1 /\ searchsorted_left [e0; e1; e2; e3; e4] x = 1%nat) \/
  (e1 < x /\ x <= e2 /\ searchsorted_left [e0; e1; e2; e3; e4] x = 2%nat) \/
  (e2 < x /\ x <= e3 /\ searchsorted_left [e0; e1; e2; e3; e4] x = 3%nat) \/
  (e3 < x /\ x <= e4 /\ searchsorted_left [e0; e1; e2; e3; e4] x = 4%nat) \/
  (e4 < x /\ searchsorted_left [e0; e1; e2; e3; e4] x = 5%nat).
Proof.
  intros H01 H12 H23 H34.
  rewrite !searchsorted_left_cons.
  change (searchsorted_left [] x) with 0%nat.
  destruct (Qltb e0 x) eqn:E0; [apply Qltb_lt in E0 | apply Qltb_ge in E0];
  destruct (Qltb e1 x) eqn:E1; [apply Qltb_lt in E1 | apply Qltb_ge in E1 | apply Qltb_lt in E1 | apply Qltb_ge in E1];
  destruct (Qltb e2 x) eqn:E2;
  destruct (Qltb e3 x) eqn:E3;
  destruct (Qltb e4 x) eqn:E4;
  repeat match goal with
         | H : Qltb _ _ = true |- _ => apply Qltb_lt in H
         | H : Qltb _ _ = false |- _ => apply Qltb_ge in H
         end;
  try (exfalso; lra); simpl; tauto.
Qed.

(** The bucket of [x] for five increasing edges: bucket [k] is the interval
    open on the left and closed on the right between edge [k] and edge
    [k + 1]; a value at or below the first edge, or above the last, has no
    bucket. *)
Lemma cut1_5 (e0 e1 e2 e3 e4 x : Q) :
  e0 < e1 -> e1 < e2 -> e2 < e3 -> e3 < e4 ->
  (cut1 [e0; e1; e2; e3; e4] x = Some 0%nat <-> e0 < x /\ x <= e1) /\
  (cut1 [e0; e1; e2; e3; e4] x = Some 1%nat <-> e1 < x /\ x <= e2) /\
  (cut1 [e0; e1; e2; e3; e4] x = Some 2%nat <-> e2 < x /\ x <= e3) /\
  (cut1 [e0; e1; e2; e3; e4] x = Some 3%nat <-> e3 < x /\ x <= e4) /\
  (cut1 [e0; e1; e2; e3; e4] x = None <-> x <= e0 \/ e4 < x).
Proof.
  intros H01 H12 H23 H34. unfold cut1.
  destruct (searchsorted_left_5 e0 e1 e2 e3 e4 x H01 H12 H23 H34)
    as [[Hx ->] | [[Hl [Hu ->]] | [[Hl [Hu ->]] | [[Hl [Hu ->]] | [[Hl [Hu ->]] | [Hx ->]]]]]];
    cbn [Nat.eqb length orb Nat.sub];
    repeat match goal with |- _ /\ _ => split end;
    split; intro H;
    first [ discriminate H | reflexivity | (exfalso; destruct H; lra)
          | (split; lra) | (left; lra) | (right; lra) ].
Qed.

(** X1. The time buckets of time_to_throw_analysis: a release time in
    (0, 2.0] is in the first ('Quick (<2.0s)'), one in (2.0, 2.5] in the
    second, one in (2.5, 3.0] in the third, one in (3.0, 10] in the fourth;
    a time of 0 or less, or above 10, is in none.  So a release of exactly
    2.0 seconds counts as 'Quick (<2.0s)'. *)
Theorem time_bucket_intervals (x : Q) :
  (cut1 time_bins x = Some 0%nat <-> 0 < x /\ x <= 2.0) /\
  (cut1 time_bins x = Some 1%nat <-> 2.0 < x /\ x <= 2.5) /\
  (cut1 time_bins x = Some 2%nat <-> 2.5 < x /\ x <= 3.0) /\
  (cut1 time_bins x = Some 3%nat <-> 3.0 < x /\ x <= 10) /\
  (cut1 time_bins x = None <-> x <= 0 \/ 10 < x).
Proof. apply cut1_5; reflexivity. Qed.

(** X2. The pressure-timing buckets of optimal_pressure_timing and of the
    sixth chart: (0, 1.5], (1.5, 2.5], (2.5, 3.5] and (3.5, 10]; a time of 0
    or less, or above 10, is in none. *)
Theorem pressure_bucket_intervals (x : Q) :
  (cut1 pressure_bins x = Some 0%nat <-> 0 < x /\ x <= 1.5) /\
  (cut1 pressure_bins x = Some 1%nat <-> 1.5 < x /\ x <= 2.5) /\
  (cut1 pressure_bins x = Some 2%nat <-> 2.5 < x /\ x <= 3.5) /\
  (cut1 pressure_bins x = Some 3%nat <-> 3.5 < x /\ x <= 10) /\
  (cut1 pressure_bins x = None <-> x <= 0 \/ 10 < x).
Proof. apply cut1_5; reflexivity. Qed.

(** ** Calling [time_to_throw_analysis] again *)

Lemma numeric_setitem_ne (df : DataFrame) (name name' : string) (c : Column) :
  name <> name' -> numeric (setitem df name' c) name = numeric df name.
Proof. intro H. unfold numeric. rewrite getitem_setitem_ne by exact H. reflexivity. Qed.

(** X3. time_to_throw_analysis is idempotent on any stored table: a second
    call returns what the first returned and leaves the table the first
    left (the column time_bucket is replaced by the same buckets). *)
Theorem time_to_throw_analysis_idempotent (observed : bool) (df : DataFrame) :
  time_to_throw_analysis observed (snd (time_to_throw_analysis observed df))
  = time_to_throw_analysis observed df.
Proof.
  unfold time_to_throw_analysis.
  destruct (numeric df "time_to_throw") as [t|e] eqn:E; cbn [snd].
  - rewrite numeric_setitem_ne by discriminate. rewrite E.
    rewrite setitem_setitem. reflexivity.
  - rewrite E. reflexivity.
Qed.

(** ** When the reports raise *)

Lemma existsb_eqb_in (k : Z) (l : list Z) : existsb (Z.eqb k) l = true <-> In k l.
Proof.
  rewrite existsb_exists. split.
  - intros [x [Hin E]]. apply Z.eqb_eq in E. subst. exact Hin.
  - intro H. exists k. split; [exact H | apply Z.eqb_refl].
Qed.

Lemma pressure_impact_summary_by_groups (l : Locals) (keys : list Z) :
  unique_sorted Z.compare (l_pressure_applied l) = keys ->
  length keys <> 2%nat ->
  fst (pressure_impact_summary (finish l)) = Raise (ValueError "Length mismatch").
Proof.
  intros Hu Hlen. unfold pressure_impact_summary, pressure_groups.
  cbn [fst int_col numeric getitem finish rbind String.eqb Ascii.eqb Bool.eqb].
  rewrite Hu. unfold set_index. rewrite !length_map.
  destruct keys as [|a [|b [|c keys]]]; try reflexivity.
  contradiction Hlen. reflexivity.
Qed.

Lemma pressure_impact_summary_generated_ok (l : Locals) :
  unique_sorted Z.compare (l_pressure_applied l) = [0; 1]%Z ->
  exists stats, fst (pressure_impact_summary (finish l)) = Ok stats.
Proof.
  intro H. unfold pressure_impact_summary, pressure_groups.
  cbn [fst int_col numeric getitem finish rbind String.eqb Ascii.eqb Bool.eqb].
  rewrite H. eexists. reflexivity.
Qed.

(** X4. On a generated table pressure_impact_summary returns its summary
    exactly when plays with and plays without pressure both occur; when one
    kind is missing (or the table is empty) the assignment of the two row
    labels raises ValueError. *)
Theorem pressure_impact_summary_succeeds_iff
  {rng : Type} {R : NumpyRandom rng} {L : NumpyRandomLaws R} (n : nat) (s : rng) :
  (In 0%Z (l_pressure_applied (fst (generate n s))) /\
   In 1%Z (l_pressure_applied (fst (generate n s))) <->
   exists stats,
     fst (pressure_impact_summary (fst (create_realistic_nfl_data n s))) = Ok stats) /\
  (~ (In 0%Z (l_pressure_applied (fst (generate n s))) /\
      In 1%Z (l_pressure_applied (fst (generate n s)))) <->
   fst (pressure_impact_summary (fst (create_realistic_nfl_data n s)))
   = Raise (ValueError "Length mismatch")).
Proof.
  rewrite created_table.
  pose proof (unique_sorted_bits _ (gen_pressure_bits n s)) as Hu.
  pose proof (existsb_eqb_in 0 (l_pressure_applied (fst (generate n s)))) as H0.
  pose proof (existsb_eqb_in 1 (l_pressure_applied (fst (generate n s)))) as H1.
  destruct (existsb (Z.eqb 0) (l_pressure_applied (fst (generate n s)))) eqn:E0;
    destruct (existsb (Z.eqb 1) (l_pressure_applied (fst (generate n s)))) eqn:E1;
    cbn [app] in Hu.
  - destruct (pressure_impact_summary_generated_ok _ Hu) as [stats Hs].
    assert (Hboth : In 0%Z (l_pressure_applied (fst (generate n s))) /\
                    In 1%Z (l_pressure_applied (fst (generate n s))))
      by (split; [apply H0 | apply H1]; reflexivity).
    split; split; intro H.
    + exists stats. exact Hs.
    + exact Hboth.
    + contradiction.
    + rewrite Hs in H. discriminate H.
  - pose proof (pressure_impact_summary_by_groups _ _ Hu) as Hr.
    cbn [length] in Hr. specialize (Hr ltac:(discriminate)).
    assert (Hn : ~ In 1%Z (l_pressure_applied (fst (generate n s))))
      by (intro Hin; apply H1 in Hin; discriminate Hin).
    split; split; intro H.
    + destruct H as [_ H]. contradiction.
    + destruct H as [stats Hs]. rewrite Hr in Hs. discriminate Hs.
    + exact Hr.
    + intros [_ Hin]. contradiction.
  - pose proof (pressure_impact_summary_by_groups _ _ Hu) as Hr.
    cbn [length] in Hr. specialize (Hr ltac:(discriminate)).
    assert (Hn : ~ In 0%Z (l_pressure_applied (fst (generate n s))))
      by (intro Hin; apply H0 in Hin; discriminate Hin).
    split; split; intro H.
    + destruct H as [H _]. contradiction.
    + destruct H as [stats Hs]. rewrite Hr in Hs. discriminate Hs.
    + exact Hr.
    + intros [Hin _]. contradiction.
  - pose proof (pressure_impact_summary_by_groups _ _ Hu) as Hr.
    cbn [length] in Hr. specialize (Hr ltac:(discriminate)).
    assert (Hn : ~ In 0%Z (l_pressure_applied (fst (generate n s))))
      by (intro Hin; apply H0 in Hin; discriminate Hin).
    split; split; intro H.
    + destruct H as [H _]. contradiction.
    + destruct H as [stats Hs]. rewrite Hr in Hs. discriminate Hs.
    + exact Hr.
    + intros [Hin _]. contradiction.
Qed.

Lemma pressure_impact_summary_succeeds_iff_witness :
  NumpyRandomLaws TapeRandom /\
  exists stats, fst (pressure_impact_summary example_table) = Ok stats.
Proof.
  split; [exact tape_laws|].
  apply (@pressure_impact_summary_succeeds_iff Tape TapeRandom tape_laws 3%nat example_tape).
  split; vm_compute; auto.
Defined.

Lemma unique_sorted_nonempty_bits (l : list Z) :
  Forall (fun p => p = 0%Z \/ p = 1%Z) l -> l <> [] ->
  exists a b, unique_sorted Z.compare l = [a] \/ unique_sorted Z.compare l = [a; b].
Proof.
  intros Hb Hne. rewrite (unique_sorted_bits l Hb).
  destruct l as [|x l]; [contradiction Hne; reflexivity|].
  inversion Hb as [|? ? Hx _]; subst.
  cbn [existsb].
  destruct Hx as [-> | ->]; simpl;
    [destruct (existsb (Z.eqb 1) l) | destruct (existsb (Z.eqb 0) l)];
    simpl;
    first [ exists 0%Z, 1%Z; right; reflexivity
          | exists 0%Z, 0%Z; left; reflexivity
          | exists 1%Z, 0%Z; left; reflexivity ].
Qed.

(** X5. On a generated table with at least one play, create_visualizations
    called before time_to_throw_analysis raises KeyError for the column
    time_bucket, and leaves the table as it was. *)
Theorem create_visualizations_before_time_buckets
  {rng : Type} {R : NumpyRandom rng} {L : NumpyRandomLaws R}
  (n : nat) (s : rng) (observed output_dir_exists : bool) :
  (0 < n)%nat ->
  create_visualizations observed output_dir_exists (fst (create_realistic_nfl_data n s))
  = (Raise (KeyError "time_bucket"), fst (create_realistic_nfl_data n s)).
Proof.
  intro Hn. rewrite created_table.
  destruct (unique_sorted_nonempty_bits _ (gen_pressure_bits n s)) as [a [b H]].
  { intro E. apply (f_equal (@length _)) in E.
    rewrite gen_length_pressure_applied in E. simpl in E. lia. }
  rewrite (surjective_pairing
             (create_visualizations observed output_dir_exists
                                    (finish (fst (generate n s))))).
  f_equal.
  apply (create_visualizations_needs_time_bucket observed output_dir_exists _ a b H).
Qed.

Lemma create_visualizations_before_time_buckets_witness :
  NumpyRandomLaws TapeRandom /\ (0 < 3)%nat /\
  create_visualizations false true example_table
  = (Raise (KeyError "time_bucket"), example_table).
Proof.
  split; [exact tape_laws|]. split; [lia|].
  apply (@create_visualizations_before_time_buckets Tape TapeRandom tape_laws
           3%nat example_tape false true).
  lia.
Defined.

(** ** Interceptions and sacks share their draws *)

Lemma gen_interception_draws
  {rng : Type} {R : NumpyRandom rng} (n : nat) (s : rng) :
  exists s1 s2 : rng,
    l_interception (fst (generate n s))
    = np_where_s (interception_condition (l_pressure_applied (fst (generate n s)))
                                         (l_completion (fst (generate n s)))
                                         (l_sack (fst (generate n s))))
                 (fst (binomial1 1 0.03 s1)) (fst (binomial1 1 0.01 s2)).
Proof. eexists. eexists. reflexivity. Qed.

Lemma finish_interception (l : Locals) (i : nat) :
  int_at (finish l) "interception" i = nth_error (l_interception l) i.
Proof. reflexivity. Qed.

(** X6. The interception column holds two scalar draws only: every
    incomplete pass under pressure that is no sack carries the one draw of
    binomial(1, 0.03), and every other play the one draw of
    binomial(1, 0.01). *)
Theorem interception_is_one_of_two_draws
  {rng : Type} {R : NumpyRandom rng} {L : NumpyRandomLaws R} (n : nat) (s : rng) :
  interception_rule (fst (generate n s)).
Proof.
  unfold interception_rule.
  destruct (gen_interception_draws n s) as [s1 [s2 H]].
  exists (fst (binomial1 1 0.03 s1)), (fst (binomial1 1 0.01 s2)).
  split; [apply binomial1_bit|]. split; [apply binomial1_bit|].
  split; [exists s1; reflexivity|]. split; [exists s2; reflexivity|].
  intros i p c k Hp Hc Hk.
  rewrite finish_pressure_applied in Hp. rewrite finish_completion in Hc.
  rewrite finish_sack in Hk. rewrite finish_interception, H.
  apply nth_error_np_where_s.
  unfold interception_condition, eq1, eq0.
  rewrite !nth_error_zip_with, !nth_error_map, Hp, Hc, Hk. reflexivity.
Qed.

Lemma interception_is_one_of_two_draws_witness :
  NumpyRandomLaws TapeRandom /\ interception_rule (fst (generate 3 example_tape)).
Proof.
  split; [exact tape_laws|].
  exact (@interception_is_one_of_two_draws Tape TapeRandom tape_laws 3%nat example_tape).
Defined.

(** X7. The sacks of a generated table come from one draw: either no play
    is a sack, or every play that meets the sack condition (pressure
    applied, pressure before 2.0 seconds, release after the pressure) is a
    sack. *)
Theorem sacks_all_or_none
  {rng : Type} {R : NumpyRandom rng} {L : NumpyRandomLaws R} (n : nat) (s : rng) :
  (forall (i : nat) (k : Z),
      int_at (fst (create_realistic_nfl_data n s)) "sack" i = Some k -> k = 0%Z) \/
  (forall i : nat,
      nth_error (sack_condition (l_pressure_applied (fst (generate n s)))
                                (l_time_to_pressure (fst (generate n s)))
                                (l_time_to_throw (fst (generate n s)))) i = Some true ->
      int_at (fst (create_realistic_nfl_data n s)) "sack" i = Some 1%Z).
Proof.
  rewrite created_table.
  destruct (gen_sack_draw_bit n s) as [H | H].
  - left. intros i k Hk. rewrite finish_sack, gen_sack, H in Hk.
    unfold np_where_s in Hk. rewrite nth_error_map in Hk.
    destruct (nth_error _ i) as [[|]|]; simpl in Hk; congruence.
  - right. intros i Hc. rewrite finish_sack, gen_sack, H.
    rewrite (nth_error_np_where_s _ _ _ _ _ Hc). reflexivity.
Qed.

Lemma sacks_all_or_none_witness :
  NumpyRandomLaws TapeRandom /\
  ((forall (i : nat) (k : Z), int_at example_table "sack" i = Some k -> k = 0%Z) \/
   (forall i : nat,
       nth_error (sack_condition (l_pressure_applied (fst (generate 3 example_tape)))
                                 (l_time_to_pressure (fst (generate 3 example_tape)))
                                 (l_time_to_throw (fst (generate 3 example_tape)))) i
       = Some true ->
       int_at example_table "sack" i = Some 1%Z)).
Proof.
  split; [exact tape_laws|].
  exact (@sacks_all_or_none Tape TapeRandom tape_laws 3%nat example_tape).
Defined.

(** ** The values of the fields *)

Lemma round_dec_nonneg (d : nat) (x : Q) : 0 <= x -> 0 <= round_dec d x.
Proof.
  intro H. unfold round_dec.
  assert (Hp : (0 < 10 ^ Z.of_nat d)%Z) by (apply Z.pow_pos_nonneg; lia).
  assert (Hq : 0 <= inject_Z (10 ^ Z.of_nat d)).
  { change 0 with (inject_Z 0). rewrite <- Zle_Qle. lia. }
  assert (Hr : (0 <= rint (x * inject_Z (10 ^ Z.of_nat d)))%Z).
  { apply rint_ge. change (inject_Z 0) with 0. apply Qmult_le_0_compat; assumption. }
  unfold Qdiv. apply Qmult_le_0_compat.
  - change 0 with (inject_Z 0). rewrite <- Zle_Qle. exact Hr.
  - apply Qinv_le_0_compat. exact Hq.
Qed.

Lemma is_bit_in (b : Z) : is_bit b -> In b [0; 1]%Z.
Proof. intros [-> | ->]; simpl; auto. Qed.

Lemma Forall_zip_with {A B C} (f : A -> B -> C) (P : C -> Prop) (a : list A) (b : list B) :
  (forall x y, In x a -> In y b -> P (f x y)) -> Forall P (zip_with f a b).
Proof.
  revert b. induction a as [|x a IH]; intros [|y b] H; simpl; try constructor.
  - apply H; left; reflexivity.
  - apply IH. intros u v Hu Hv. apply H; right; assumption.
Qed.

Section Domains.
Context {rng : Type} {R : NumpyRandom rng} {L : NumpyRandomLaws R}.
Variables (n : nat) (s : rng).

Lemma gen_completion_bits : Forall is_bit (l_completion (fst (generate n s))).
Proof.
  rewrite gen_completion. unfold loc_fill. apply Forall_zip_with.
  intros b c _ Hc. destruct b; [left; reflexivity|].
  pose proof (gen_completion_drawn_bits n s) as H.
  rewrite Forall_forall in H. apply H. exact Hc.
Qed.

Lemma gen_interception_bits : Forall is_bit (l_interception (fst (generate n s))).
Proof.
  destruct (gen_interception n s) as [a [b [Ha [Hb ->]]]].
  unfold np_where_s. apply Forall_forall. intros x Hx.
  apply in_map_iff in Hx. destruct Hx as [c [<- _]]. destruct c; assumption.
Qed.
End Domains.

(** X8. In every generated table the categorical and the outcome fields
    hold only their listed values: pressure_applied, completion, sack and
    interception are 0 or 1, down and quarter are 1 to 4, rushers is 3 to 6,
    and def_alignment is one of the five alignments. *)
Theorem generated_fields_in_domain
  {rng : Type} {R : NumpyRandom rng} {L : NumpyRandomLaws R} (n : nat) (s : rng) :
  categorical_domains (fst (create_realistic_nfl_data n s)).
Proof.
  rewrite created_table. unfold categorical_domains, int_column_in.
  repeat match goal with |- _ /\ _ => split end.
  - eexists. split; [reflexivity|]. apply choice_in. discriminate.
  - eexists. split; [reflexivity|]. apply choice_in. discriminate.
  - eexists. split; [reflexivity|]. apply choice_in. discriminate.
  - eexists. split; [reflexivity|]. apply choice_in. discriminate.
  - eexists. split; [reflexivity|].
    eapply Forall_impl; [|apply gen_completion_bits]. apply is_bit_in.
  - eexists. split; [reflexivity|].
    eapply Forall_impl; [|apply gen_sack_bits]. apply is_bit_in.
  - eexists. split; [reflexivity|].
    eapply Forall_impl; [|apply gen_interception_bits]. apply is_bit_in.
  - eexists. split; [reflexivity|]. apply choice_in. discriminate.
Qed.

Lemma generated_fields_in_domain_witness :
  NumpyRandomLaws TapeRandom /\ categorical_domains example_table.
Proof.
  split; [exact tape_laws|].
  exact (@generated_fields_in_domain Tape TapeRandom tape_laws 3%nat example_tape).
Defined.

(** X9. In every generated table time_to_throw, time_to_pressure and
    distance are never negative, also after their rounding, and
    field_position lies in [5, 95). *)
Theorem generated_fields_in_range
  {rng : Type} {R : NumpyRandom rng} {L : NumpyRandomLaws R} (n : nat) (s : rng) :
  numeric_ranges (fst (create_realistic_nfl_data n s)).
Proof.
  rewrite created_table. unfold numeric_ranges, float_column_in.
  assert (Hround : forall d v, Forall (fun x => 0 <= x) v ->
                               Forall (fun x => 0 <= x) (map (round_dec d) v)).
  { intros d v Hv. apply Forall_forall. intros y Hy.
    apply in_map_iff in Hy. destruct Hy as [x [<- Hx]].
    apply round_dec_nonneg. rewrite Forall_forall in Hv. apply Hv. exact Hx. }
  repeat match goal with |- _ /\ _ => split end.
  - eexists. split; [reflexivity|]. apply Hround. apply gamma_nonneg; reflexivity.
  - eexists. split; [reflexivity|]. apply Hround. apply gamma_nonneg; reflexivity.
  - eexists. split; [reflexivity|]. apply Hround. apply gamma_nonneg; reflexivity.
  - eexists. split; [reflexivity|]. apply uniform_range. reflexivity.
Qed.

Lemma generated_fields_in_range_witness :
  NumpyRandomLaws TapeRandom /\ numeric_ranges example_table.
Proof.
  split; [exact tape_laws|].
  exact (@generated_fields_in_range Tape TapeRandom tape_laws 3%nat example_tape).
Defined.

(** ** Assigning to the selected rows and reading them back *)

Lemma select_loc_assign {A} (mask : list bool) (values col : list A) :
  length mask = length col -> length values = mask_sum mask ->
  select mask (loc_assign mask values col) = values.
Proof.
  revert values col.
  induction mask as [|b m IH]; intros values [|x c] Hl Hv; simpl in *; try discriminate.
  - destruct values; [reflexivity | discriminate].
  - rewrite mask_sum_cons in Hv. destruct b.
    + destruct values as [|v vs]; [discriminate|]. simpl in *.
      rewrite IH by lia. reflexivity.
    + apply IH; lia.
Qed.

Lemma select_rest_loc_assign {A} (mask : list bool) (values col : list A) :
  select (map negb mask) (loc_assign mask values col) = select (map negb mask) col.
Proof.
  revert values col.
  induction mask as [|[|] m IH]; intros values [|x c]; simpl; try reflexivity.
  - destruct values; simpl; apply IH.
  - rewrite IH. reflexivity.
Qed.

Lemma select_map {A B} (f : A -> B) (mask : list bool) (v : list A) :
  select mask (map f v) = map f (select mask v).
Proof.
  revert v. induction mask as [|b m IH]; intros [|x v]; simpl; try reflexivity.
  destruct b; simpl; rewrite IH; reflexivity.
Qed.

(** X10. The losses drawn for the sacks go to the sack plays one each, in
    play order: read back from the returned table, the yards of the sack
    plays are the negated draws, rounded to one decimal, in the order drawn;
    the yards of all other plays are the ones first assigned, rounded. *)
Theorem sack_losses_assigned_in_order
  {rng : Type} {R : NumpyRandom rng} {L : NumpyRandomLaws R} (n : nat) (s : rng) :
  exists (yards : list Q) (sack : list Z),
    getitem (fst (create_realistic_nfl_data n s)) "yards_gained" = Ok (FloatCol yards) /\
    getitem (fst (create_realistic_nfl_data n s)) "sack" = Ok (IntCol sack) /\
    length (l_sack_loss (fst (generate n s))) = mask_sum (eq1 sack) /\
    select (eq1 sack) yards
    = map (fun loss => round_dec 1 (- loss)) (l_sack_loss (fst (generate n s))) /\
    select (map negb (eq1 sack)) yards
    = map (round_dec 1)
          (select (map negb (eq1 sack)) (l_yards_drawn (fst (generate n s)))).
Proof.
  rewrite created_table.
  eexists. eexists. split; [reflexivity|]. split; [reflexivity|].
  split; [apply gen_length_sack_loss|]. split.
  - rewrite select_map, gen_yards_gained, select_loc_assign.
    + apply map_map.
    + unfold eq1. rewrite length_map, gen_length_sack, gen_length_yards_drawn.
      reflexivity.
    + rewrite length_map. apply gen_length_sack_loss.
  - rewrite select_map, gen_yards_gained, select_rest_loc_assign. reflexivity.
Qed.

Lemma sack_losses_assigned_in_order_witness :
  NumpyRandomLaws TapeRandom /\
  exists (yards : list Q) (sack : list Z),
    getitem example_table "yards_gained" = Ok (FloatCol yards) /\
    getitem example_table "sack" = Ok (IntCol sack) /\
    length (l_sack_loss (fst (generate 3 example_tape))) = mask_sum (eq1 sack) /\
    select (eq1 sack) yards
    = map (fun loss => round_dec 1 (- loss)) (l_sack_loss (fst (generate 3 example_tape))) /\
    select (map negb (eq1 sack)) yards
    = map (round_dec 1)
          (select (map negb (eq1 sack)) (l_yards_drawn (fst (generate 3 example_tape)))).
Proof.
  split; [exact tape_laws|].
  exact (@sack_losses_assigned_in_order Tape TapeRandom tape_laws 3%nat example_tape).
Defined.

(** ** The order of the alignment table *)

Lemma insert_sorted_perm {A} (before : A -> A -> bool) (x : A) (l : list A) :
  Permutation (insert_sorted before x l) (x :: l).
Proof.
  induction l as [|y l IH]; simpl; [apply Permutation_refl|].
  destruct (before y x); [|apply Permutation_refl].
  apply Permutation_trans with (y :: x :: l).
  - apply perm_skip. exact IH.
  - apply perm_swap.
Qed.

Lemma sort_stable_perm {A} (before : A -> A -> bool) (l : list A) :
  Permutation (sort_stable before l) l.
Proof.
  induction l as [|x l IH]; [apply Permutation_refl|].
  cbn [sort_stable fold_right]. fold (sort_stable before l).
  apply Permutation_trans with (x :: sort_stable before l).
  - apply insert_sorted_perm.
  - apply perm_skip. exact IH.
Qed.

Lemma insert_sorted_sorted {A} (before : A -> A -> bool) (x : A) (l : list A) :
  (forall a b, before a b = true -> before b a = false) ->
  Sorted (fun a b => before b a = false) l ->
  Sorted (fun a b => before b a = false) (insert_sorted before x l).
Proof.
  intros Hasym Hs. induction Hs as [|y l Hs IH Hhd]; simpl.
  - constructor; constructor.
  - destruct (before y x) eqn:E.
    + constructor; [exact IH|].
      destruct l as [|z l]; simpl.
      * constructor. apply Hasym. exact E.
      * destruct (before z x); constructor.
        -- inversion Hhd; assumption.
        -- apply Hasym. exact E.
    + constructor; [constructor; assumption|].
      constructor. exact E.
Qed.

Lemma sort_stable_sorted {A} (before : A -> A -> bool) (l : list A) :
  (forall a b, before a b = true -> before b a = false) ->
  Sorted (fun a b => before b a = false) (sort_stable before l).
Proof.
  intro Hasym. induction l as [|x l IH]; [constructor|].
  cbn [sort_stable fold_right]. fold (sort_stable before l).
  apply insert_sorted_sorted; assumption.
Qed.

Lemma Sorted_impl {A} (R R' : A -> A -> Prop) (l : list A) :
  (forall a b, R a b -> R' a b) -> Sorted R l -> Sorted R' l.
Proof.
  intros H Hs. induction Hs as [|a l Hs IH Hhd]; constructor; [exact IH|].
  destruct Hhd; constructor. apply H. assumption.
Qed.

Lemma cell_desc_asym (x y : option Q) : cell_desc x y = true -> cell_desc y x = false.
Proof.
  destruct x as [a|], y as [b|]; simpl; try reflexivity; try discriminate.
  intro H. apply Qltb_lt in H. apply Qltb_ge. apply Qlt_le_weak. exact H.
Qed.

Lemma cell_desc_not_below (x y : option Q) : cell_desc y x = false -> not_below x y.
Proof.
  destruct x as [a|], y as [b|]; simpl; try discriminate; try trivial.
  intro H. apply Qltb_ge in H. exact H.
Qed.

(** X11. The table of defensive_alignment_effectiveness is ordered by sack
    rate, highest first: no row has a lower sack rate than the row after it
    (an undefined rate would come last).  Its rows are the groups of the
    pressure plays by alignment, each once. *)
Theorem defensive_alignment_sorted_by_sack_rate
  (df : DataFrame) (stats : list (string * DefStats)) :
  fst (defensive_alignment_effectiveness df) = Ok stats ->
  Sorted (fun r r' => not_below (def_sack_pct (snd r)) (def_sack_pct (snd r'))) stats /\
  exists (pressure_plays : DataFrame) (groups : list (string * DefStats)),
    pressure_rows df = Ok pressure_plays /\
    alignment_groups pressure_plays = Ok groups /\
    Permutation stats groups.
Proof.
  unfold defensive_alignment_effectiveness. cbn [fst].
  destruct (pressure_rows df) as [pp|e] eqn:Epp; cbn [rbind]; [|discriminate].
  destruct (alignment_groups pp) as [groups|e] eqn:Eg; cbn [rbind]; [|discriminate].
  intro H. injection H as <-. split.
  - apply Sorted_impl
      with (R := fun a b : string * DefStats =>
                   cell_desc (def_sack_pct (snd b)) (def_sack_pct (snd a)) = false).
    + intros a b. apply cell_desc_not_below.
    + apply (sort_stable_sorted
               (fun a b : string * DefStats =>
                  cell_desc (def_sack_pct (snd a)) (def_sack_pct (snd b))) groups).
      intros a b. apply cell_desc_asym.
  - exists pp, groups. split; [reflexivity|]. split; [exact Eg|].
    apply sort_stable_perm.
Qed.

(** On the table of the three pressure plays the groups come in the order
    of their names, with sack rates 0, 1 and 0 (held in thousandths), and
    the report puts 'Blitz' first. *)
Lemma defensive_alignment_sorted_by_sack_rate_witness :
  exists (stats : list (string * DefStats))
         (pressure_plays : DataFrame) (groups : list (string * DefStats)),
    fst (defensive_alignment_effectiveness alignment_table) = Ok stats /\
    map (fun r => (fst r, def_sack_pct (snd r))) groups
    = [("3-4 Base"%string, Some (0 # 1000)); ("Blitz"%string, Some (1000 # 1000));
       ("Nickel"%string, Some (0 # 1000))] /\
    map (fun r => (fst r, def_sack_pct (snd r))) stats
    = [("Blitz"%string, Some (1000 # 1000)); ("3-4 Base"%string, Some (0 # 1000));
       ("Nickel"%string, Some (0 # 1000))] /\
    Sorted (fun r r' => not_below (def_sack_pct (snd r)) (def_sack_pct (snd r'))) stats /\
    pressure_rows alignment_table = Ok pressure_plays /\
    alignment_groups pressure_plays = Ok groups /\
    Permutation stats groups.
Proof.
  destruct (fst (defensive_alignment_effectiveness alignment_table)) as [stats|e] eqn:E;
    [|vm_compute in E; discriminate E].
  destruct (defensive_alignment_sorted_by_sack_rate alignment_table stats E)
    as [Hs [pp [groups [Hpp [Hg Hperm]]]]].
  exists stats, pp, groups.
  split; [reflexivity|].
  split; [vm_compute in Hpp; injection Hpp as <-; vm_compute in Hg; injection Hg as <-;
          vm_compute; reflexivity|].
  split; [vm_compute in E; injection E as <-; vm_compute; reflexivity|].
  split; [exact Hs|]. split; [exact Hpp|]. split; [exact Hg | exact Hperm].
Defined.

(** ** Rates *)

Lemma Qsum_unit (v : list Q) :
  Forall (fun x => 0 <= x /\ x <= 1) v ->
  0 <= Qsum v /\ Qsum v <= inject_Z (Z.of_nat (length v)).
Proof.
  induction 1 as [|x v [Hx0 Hx1] _ [IH0 IH1]].
  - simpl. split; apply Qle_refl.
  - cbn [Qsum fold_right length]. fold (Qsum v).
    rewrite Nat2Z.inj_succ, <- Z.add_1_r, inject_Z_plus.
    change (inject_Z 1) with 1. split; lra.
Qed.

Lemma unit_quotient (t m : Q) : 0 < m -> 0 <= t -> t <= m -> 0 <= t / m /\ t / m <= 1.
Proof.
  intros Hm H0 H1. split.
  - apply Qle_shift_div_l; [exact Hm|]. lra.
  - apply Qle_shift_div_r; [exact Hm|]. lra.
Qed.

Lemma mean_unit (v : list Q) :
  Forall (fun x => 0 <= x /\ x <= 1) v -> is_rate (mean v).
Proof.
  intros Hv m Hm. destruct v as [|x v]; [discriminate Hm|].
  unfold mean in Hm. injection Hm as <-.
  destruct (Qsum_unit _ Hv) as [H0 H1].
  assert (Hpos : 0 < inject_Z (Z.of_nat (length (x :: v)))).
  { change 0 with (inject_Z 0). rewrite <- Zlt_Qlt. simpl length. lia. }
  exact (unit_quotient _ _ Hpos H0 H1).
Qed.

Lemma round_dec_le_1 (d : nat) (x : Q) : x <= 1 -> round_dec d x <= 1.
Proof.
  intro H. unfold round_dec.
  assert (Hp : (0 < 10 ^ Z.of_nat d)%Z) by (apply Z.pow_pos_nonneg; lia).
  assert (Hq : 0 < inject_Z (10 ^ Z.of_nat d)).
  { change 0 with (inject_Z 0). rewrite <- Zlt_Qlt. exact Hp. }
  assert (Hr : (rint (x * inject_Z (10 ^ Z.of_nat d)) <= 10 ^ Z.of_nat d)%Z).
  { apply rint_le.
    setoid_replace (inject_Z (10 ^ Z.of_nat d))
      with (1 * inject_Z (10 ^ Z.of_nat d)) at 2 by ring.
    apply Qmult_le_compat_r; [exact H | apply Qlt_le_weak; exact Hq]. }
  apply Qle_shift_div_r; [exact Hq|].
  rewrite Qmult_1_l. rewrite <- Zle_Qle. exact Hr.
Qed.

Lemma select_Forall {A} (P : A -> Prop) (mask : list bool) (v : list A) :
  Forall P v -> Forall P (select mask v).
Proof.
  intro H. revert mask. induction H as [|x v Hx _ IH]; intros [|b m]; simpl;
    try constructor.
  destruct b; [constructor; [exact Hx | apply IH] | apply IH].
Qed.

Lemma rate_of_group (g : list bool) (v : list Q) :
  Forall (fun x => 0 <= x /\ x <= 1) v -> is_rate (round_cell 3 (group_mean g v)).
Proof.
  intros Hv x Hx. unfold round_cell, group_mean in Hx.
  destruct (mean (select g v)) as [m|] eqn:E; [|discriminate Hx].
  injection Hx as <-.
  destruct (mean_unit _ (select_Forall _ g v Hv) m E) as [H0 H1].
  split; [apply round_dec_nonneg | apply round_dec_le_1]; assumption.
Qed.

Lemma bits_unit (v : list Z) :
  Forall is_bit v -> Forall (fun x => 0 <= x /\ x <= 1) (map inject_Z v).
Proof.
  intro H. apply Forall_forall. intros x Hx.
  apply in_map_iff in Hx. destruct Hx as [b [<- Hb]].
  rewrite Forall_forall in H. destruct (H b Hb) as [-> | ->]; split; discriminate.
Qed.

Lemma pressure_summary_rates_of (l : Locals)
      (stats : list (string * PressureStats)) (label : string) (r : PressureStats) :
  Forall is_bit (l_completion l) -> Forall is_bit (l_sack l) ->
  Forall is_bit (l_interception l) ->
  fst (pressure_impact_summary (finish l)) = Ok stats ->
  In (label, r) stats ->
  is_rate (completion_pct r) /\ is_rate (sack_pct r) /\ is_rate (int_pct r).
Proof.
  intros Hc Hs Hi. unfold pressure_impact_summary, pressure_groups.
  cbn [fst int_col numeric getitem finish rbind String.eqb Ascii.eqb Bool.eqb].
  unfold set_index.
  destruct (_ =? _)%nat; [|discriminate].
  intros H Hin.
  match type of H with
  | Ok ?c = Ok _ => assert (E : stats = c) by congruence
  end.
  rewrite E in Hin. apply in_combine_r in Hin. rewrite map_map in Hin.
  apply in_map_iff in Hin. destruct Hin as [k [<- _]].
  cbn [snd completion_pct sack_pct int_pct].
  split; [|split]; apply rate_of_group; apply bits_unit; assumption.
Qed.

(** X12. In the summary of a generated table the completion, sack and
    interception figures of each row are rates: means of 0/1 fields, they
    lie between 0 and 1, also after rounding to three decimals. *)
Theorem pressure_summary_rates
  {rng : Type} {R : NumpyRandom rng} {L : NumpyRandomLaws R} (n : nat) (s : rng)
  (stats : list (string * PressureStats)) (label : string) (r : PressureStats) :
  fst (pressure_impact_summary (fst (create_realistic_nfl_data n s))) = Ok stats ->
  In (label, r) stats ->
  is_rate (completion_pct r) /\ is_rate (sack_pct r) /\ is_rate (int_pct r).
Proof.
  rewrite created_table. apply pressure_summary_rates_of.
  - apply gen_completion_bits.
  - apply gen_sack_bits.
  - apply gen_interception_bits.
Qed.

Lemma pressure_summary_rates_witness :
  NumpyRandomLaws TapeRandom /\
  exists (stats : list (string * PressureStats)) (r : PressureStats),
    fst (pressure_impact_summary example_table) = Ok stats /\
    In ("Pressure Applied"%string, r) stats /\
    is_rate (completion_pct r) /\ is_rate (sack_pct r) /\ is_rate (int_pct r).
Proof.
  split; [exact tape_laws|].
  eexists. eexists.
  split; [vm_compute; reflexivity|].
  split; [right; left; reflexivity|].
  eapply (@pressure_summary_rates Tape TapeRandom tape_laws 3%nat example_tape).
  - vm_compute. reflexivity.
  - right. left. reflexivity.
Defined.

(** ** Every bucketed play is counted once *)

Lemma row_counted_exactly {Lv Row} (m : Lv -> Row -> bool) (P : Row -> bool)
      (levels : list Lv) (r : Row) :
  NoDup levels ->
  (forall lv lv', m lv r = true -> m lv' r = true -> lv = lv') ->
  (forall lv, m lv r = true -> P r = true) ->
  (P r = true -> exists lv, In lv levels /\ m lv r = true) ->
  nat_sum (map (fun lv => if m lv r then 1 else 0)%nat levels) = (if P r then 1 else 0)%nat.
Proof.
  intros Hnd Huniq HP Hex.
  pose proof (row_counted_once m P levels r Hnd Huniq HP) as Hle.
  destruct (P r) eqn:E; [|lia].
  destruct (Hex eq_refl) as [lv [Hin Hm]].
  assert (Hge : (1 <= nat_sum (map (fun lv => if m lv r then 1 else 0)%nat levels))%nat).
  { clear Hle Hnd Hex. induction levels as [|lv' levels IH]; [destruct Hin|].
    cbn [map nat_sum fold_right].
    destruct Hin as [-> | Hin]; [rewrite Hm; lia|].
    specialize (IH Hin). unfold nat_sum in IH. lia. }
  lia.
Qed.

Lemma groups_count_exact {Lv Row} (m : Lv -> Row -> bool) (P : Row -> bool)
      (levels : list Lv) (rows : list Row) :
  NoDup levels ->
  (forall lv lv' r, m lv r = true -> m lv' r = true -> lv = lv') ->
  (forall lv r, m lv r = true -> P r = true) ->
  (forall r, In r rows -> P r = true -> exists lv, In lv levels /\ m lv r = true) ->
  nat_sum (map (fun lv => mask_sum (map (m lv) rows)) levels) = mask_sum (map P rows).
Proof.
  intros Hnd Huniq HP Hex.
  induction rows as [|r rows IH].
  - clear Hnd Hex. induction levels as [|lv levels IHl]; [reflexivity | simpl; exact IHl].
  - assert (E : map (fun lv => mask_sum (map (m lv) (r :: rows))) levels
                = map (fun lv => ((if m lv r then 1 else 0)
                                  + mask_sum (map (m lv) rows))%nat) levels).
    { apply map_ext. intro lv. cbn [map]. apply mask_sum_cons. }
    rewrite E, nat_sum_add. cbn [map]. rewrite mask_sum_cons.
    rewrite IH by (intros r' Hr'; apply Hex; right; exact Hr').
    rewrite (row_counted_exactly m P levels r Hnd
               (fun lv lv' => Huniq lv lv' r) (fun lv => HP lv r)
               (Hex r (or_introl eq_refl))).
    reflexivity.
Qed.

Lemma insert_uniq_in_inv (x y : Z) (l : list Z) :
  y = x \/ In y l -> In y (insert_uniq Z.compare x l).
Proof.
  induction l as [|z l IH]; simpl.
  - intros [-> | []]. left. reflexivity.
  - destruct (Z.compare_spec x z) as [E|E|E]; simpl.
    + intros [-> | H]; [left; symmetry; exact E | exact H].
    + intros [-> | H]; [left; reflexivity | right; exact H].
    + intros [-> | [-> | H]].
      * right. apply IH. left. reflexivity.
      * left. reflexivity.
      * right. apply IH. right. exact H.
Qed.

Lemma unique_sorted_in (k : Z) (l : list Z) : In k l -> In k (unique_sorted Z.compare l).
Proof.
  induction l as [|x l IH]; [intros []|].
  intro H. cbn [unique_sorted fold_right]. apply insert_uniq_in_inv.
  destruct H as [-> | H]; [left; reflexivity | right; apply IH; exact H].
Qed.

Lemma mask_sum_pos {A} (f : A -> bool) (rows : list A) (r : A) :
  In r rows -> f r = true -> (0 < mask_sum (map f rows))%nat.
Proof.
  induction rows as [|x rows IH]; [intros []|].
  intros [-> | H] Hf; cbn [map]; rewrite mask_sum_cons.
  - rewrite Hf. lia.
  - specialize (IH H Hf). lia.
Qed.

Lemma cut1_range (bins : list Q) (x : Q) (j : nat) :
  cut1 bins x = Some j -> (S j < length bins)%nat.
Proof.
  unfold cut1, searchsorted_left.
  pose proof (filter_length_le (fun b => Qltb b x) bins) as Hle.
  destruct (length (filter (fun b => Qltb b x) bins) =? 0)%nat eqn:E0; [discriminate|].
  destruct (length (filter (fun b => Qltb b x) bins) =? length bins)%nat eqn:E1;
    [discriminate|].
  apply Nat.eqb_neq in E0. apply Nat.eqb_neq in E1.
  simpl. intro H. injection H as <-. lia.
Qed.

Lemma has_bin_rows {B} (f : Q -> option nat) (v : list Q) (key : list B) :
  length v = length key ->
  mask_sum (map has_bin (combine (map f v) key))
  = mask_sum (map (fun x => is_some (f x)) v).
Proof.
  revert key. induction v as [|x v IH]; intros [|k key] H; try discriminate H;
    [reflexivity|].
  cbn [map combine]. rewrite !mask_sum_cons, IH by (simpl in H; lia).
  reflexivity.
Qed.

(** The counts of the groups by (bucket, key) sum to the number of rows
    that have a bucket. *)
Lemma pair_counts_exact (observed : bool) (labels : list string) (bins : list Q)
      (v : list Q) (key ids : list Z) :
  length bins = S (length labels) ->
  length v = length key -> length ids = length key ->
  Zsum (map (fun kp => group_count (pair_group (map (cut1 bins) v) key kp) (IntCol ids))
            (pair_levels observed labels (map (cut1 bins) v) key))
  = Z.of_nat (mask_sum (map (fun x => is_some (cut1 bins x)) v)).
Proof.
  intros Hbins Hv Hids.
  set (codes := map (cut1 bins) v).
  assert (Hc : length codes = length key) by (unfold codes; rewrite length_map; exact Hv).
  assert (Hlen : length (combine codes key) = length key)
    by (rewrite length_combine, Hc; apply Nat.min_id).
  assert (E : map (fun kp => group_count (pair_group codes key kp) (IntCol ids))
                  (pair_levels observed labels codes key)
              = map Z.of_nat
                    (map (fun kp => mask_sum (map (pair_match kp) (combine codes key)))
                         (pair_levels observed labels codes key))).
  { rewrite map_map. apply map_ext. intro kp.
    rewrite group_count_int, pair_group_rows; [reflexivity|].
    rewrite pair_group_rows, length_map, Hlen, Hids. apply Nat.le_refl. }
  rewrite E, Zsum_of_nat. f_equal.
  rewrite (groups_count_exact pair_match has_bin).
  - unfold codes. apply has_bin_rows. exact Hv.
  - apply pair_levels_NoDup.
  - apply pair_match_unique.
  - apply pair_match_has_bin.
  - intros [c k] Hin Hp. unfold has_bin in Hp. cbn [fst] in Hp.
    destruct c as [j|]; [|discriminate Hp].
    exists (j, k). split; [|unfold pair_match; cbn [fst snd];
                            rewrite Nat.eqb_refl, Z.eqb_refl; reflexivity].
    unfold pair_levels. apply filter_In. split.
    + apply in_prod_iff. split.
      * apply in_seq. 
        apply in_combine_l in Hin. unfold codes in Hin.
        apply in_map_iff in Hin. destruct Hin as [x [Hx _]].
        apply cut1_range in Hx. lia.
      * apply unique_sorted_in. apply in_combine_r in Hin. exact Hin.
    + apply orb_true_iff. right. apply Nat.ltb_lt.
      rewrite pair_group_rows.
      apply (mask_sum_pos _ _ (Some j, k) Hin).
      unfold pair_match. cbn [fst snd]. rewrite Nat.eqb_refl, Z.eqb_refl. reflexivity.
Qed.

Lemma time_bucket_defined (x : Q) :
  is_some (cut1 time_bins x) = Qltb 0 x && Qle_bool x 10.
Proof.
  destruct (cut1_5 0 2.0 2.5 3.0 10 x) as [_ [_ [_ [_ HN]]]]; try reflexivity.
  fold time_bins in HN.
  destruct (cut1 time_bins x) as [j|] eqn:E; simpl.
  - symmetry. apply andb_true_iff. split.
    + apply Qltb_lt. apply Qnot_le_lt. intro H.
      assert (Hn : Some j = None) by (apply (proj2 HN); left; exact H).
      discriminate Hn.
    + apply Qle_bool_iff. apply Qnot_lt_le. intro H.
      assert (Hn : Some j = None) by (apply (proj2 HN); right; exact H).
      discriminate Hn.
  - symmetry. apply andb_false_iff.
    destruct (proj1 HN eq_refl) as [H | H].
    + left. apply Qltb_ge. exact H.
    + right. destruct (Qle_bool x 10) eqn:E'; [|reflexivity].
      apply Qle_bool_iff in E'. exfalso. apply (Qlt_not_le _ _ H E').
Qed.

(** X14. time_to_throw_analysis counts every play whose time_to_throw lies
    in (0, 10] in exactly one group: on a generated table the counts of its
    groups sum to the number of such plays. *)
Theorem time_to_throw_analysis_counts_each_bucketed_play
  {rng : Type} {R : NumpyRandom rng} {L : NumpyRandomLaws R}
  (n : nat) (s : rng) (observed : bool) :
  exists (stats : list ((nat * Z) * TimeStats)) (time_to_throw : list Q),
    fst (time_to_throw_analysis observed (fst (create_realistic_nfl_data n s))) = Ok stats /\
    getitem (fst (create_realistic_nfl_data n s)) "time_to_throw" = Ok (FloatCol time_to_throw) /\
    Zsum (map (fun r => ts_play_id (snd r)) stats)
    = Z.of_nat (length (filter (fun x => Qltb 0 x && Qle_bool x 10) time_to_throw)).
Proof.
  rewrite created_table.
  destruct (time_to_throw_analysis_generated observed (fst (generate n s)))
    as [stats [Hs Hc]].
  exists stats. eexists. split; [exact Hs|]. split; [reflexivity|].
  rewrite Hc, pair_counts_exact.
  - f_equal. rewrite <- mask_sum_map_filter. f_equal.
    apply map_ext. apply time_bucket_defined.
  - reflexivity.
  - rewrite length_map, gen_length_time_to_throw, gen_length_pressure_applied.
    reflexivity.
  - rewrite gen_play_id, length_map, length_seq, gen_length_pressure_applied.
    reflexivity.
Qed.

Lemma time_to_throw_analysis_counts_each_bucketed_play_witness :
  NumpyRandomLaws TapeRandom /\
  exists (stats : list ((nat * Z) * TimeStats)) (time_to_throw : list Q),
    fst (time_to_throw_analysis false example_table) = Ok stats /\
    getitem example_table "time_to_throw" = Ok (FloatCol time_to_throw) /\
    Zsum (map (fun r => ts_play_id (snd r)) stats)
    = Z.of_nat (length (filter (fun x => Qltb 0 x && Qle_bool x 10) time_to_throw)).
Proof.
  split; [exact tape_laws|].
  exact (@time_to_throw_analysis_counts_each_bucketed_play Tape TapeRandom tape_laws
           3%nat example_tape false).
Defined.

(** ** Successful pressures and sacks *)

Lemma rint_floor_bounds (x : Q) : (Qfloor x <= rint x <= Qfloor x + 1)%Z.
Proof.
  unfold rint.
  destruct (Qltb (x - inject_Z (Qfloor x)) (1 # 2)); [lia|].
  destruct (Qltb (1 # 2) (x - inject_Z (Qfloor x))); [lia|].
  destruct (Z.even (Qfloor x)); lia.
Qed.

Lemma rint_mono (x y : Q) : x <= y -> (rint x <= rint y)%Z.
Proof.
  intro H.
  pose proof (Qfloor_resp_le x y H) as Hf.
  destruct (Z.eq_dec (Qfloor x) (Qfloor y)) as [E | E].
  - unfold rint. rewrite <- E.
    destruct (Qltb (x - inject_Z (Qfloor x)) (1 # 2)) eqn:X1.
    + destruct (Qltb (y - inject_Z (Qfloor x)) (1 # 2)); [lia|].
      destruct (Qltb (1 # 2) (y - inject_Z (Qfloor x))); [lia|].
      destruct (Z.even (Qfloor x)); lia.
    + apply Qltb_ge in X1.
      assert (Y1 : Qltb (y - inject_Z (Qfloor x)) (1 # 2) = false)
        by (apply Qltb_ge; lra).
      rewrite Y1.
      destruct (Qltb (1 # 2) (x - inject_Z (Qfloor x))) eqn:X2.
      * apply Qltb_lt in X2.
        assert (Y2 : Qltb (1 # 2) (y - inject_Z (Qfloor x)) = true)
          by (apply Qltb_lt; lra).
        rewrite Y2. lia.
      * destruct (Qltb (1 # 2) (y - inject_Z (Qfloor x)));
          destruct (Z.even (Qfloor x)); lia.
  - pose proof (rint_floor_bounds x). pose proof (rint_floor_bounds y). lia.
Qed.

Lemma round_dec_mono (d : nat) (x y : Q) : x <= y -> round_dec d x <= round_dec d y.
Proof.
  intro H. unfold round_dec.
  assert (Hp : (0 < 10 ^ Z.of_nat d)%Z) by (apply Z.pow_pos_nonneg; lia).
  assert (Hq : 0 < inject_Z (10 ^ Z.of_nat d)).
  { change 0 with (inject_Z 0). rewrite <- Zlt_Qlt. exact Hp. }
  unfold Qdiv. apply Qmult_le_compat_r.
  - rewrite <- Zle_Qle. apply rint_mono.
    apply Qmult_le_compat_r; [exact H | apply Qlt_le_weak; exact Hq].
  - apply Qlt_le_weak. apply Qinv_lt_0_compat. exact Hq.
Qed.

Lemma Qsum_mono (a b : list Q) : Forall2 Qle a b -> Qsum a <= Qsum b.
Proof.
  induction 1 as [|x y a b Hxy _ IH]; [apply Qle_refl|].
  cbn [Qsum fold_right]. fold (Qsum a). fold (Qsum b). lra.
Qed.

Lemma mean_mono (a b : list Q) (x y : Q) :
  Forall2 Qle a b -> mean a = Some x -> mean b = Some y -> x <= y.
Proof.
  intros H Ha Hb.
  pose proof (Forall2_length H) as Hlen.
  pose proof (Qsum_mono a b H) as Hs.
  destruct a as [|a0 a]; [discriminate Ha|].
  destruct b as [|b0 b]; [discriminate Hb|].
  unfold mean in Ha, Hb. injection Ha as <-. injection Hb as <-.
  change (Qsum (a0 :: a) / inject_Z (Z.of_nat (length (a0 :: a)))
          <= Qsum (b0 :: b) / inject_Z (Z.of_nat (length (b0 :: b)))).
  rewrite <- Hlen. unfold Qdiv. apply Qmult_le_compat_r; [exact Hs|].
  apply Qlt_le_weak. apply Qinv_lt_0_compat.
  change 0 with (inject_Z 0). rewrite <- Zlt_Qlt. simpl length. lia.
Qed.

Lemma select_Forall2 {A B} (P : A -> B -> Prop) (mask : list bool) (a : list A) (b : list B) :
  Forall2 P a b -> Forall2 P (select mask a) (select mask b).
Proof.
  intro H. revert mask. induction H as [|x y a b Hxy _ IH]; intros [|m mask]; simpl;
    try constructor.
  destruct m; [constructor; [exact Hxy | apply IH] | apply IH].
Qed.

(** A sack is a successful pressure: play by play, the sack flag is at most
    the flag [(completion == 0) | (sack == 1) | (interception == 1)]. *)
Lemma sack_le_successful (completion sack interception : list Z) :
  length completion = length sack -> length interception = length sack ->
  Forall is_bit sack ->
  Forall2 Qle
    (map inject_Z sack)
    (map inject_Z
       (map (fun b : bool => if b then 1%Z else 0%Z)
          (zip_with orb
             (zip_with orb (map Qeqb0 (map inject_Z completion))
                           (map Qeqb1 (map inject_Z sack)))
             (map Qeqb1 (map inject_Z interception))))).
Proof.
  revert completion interception.
  induction sack as [|k sack IH]; intros [|c completion] [|i interception] Hc Hi Hb;
    try discriminate Hc; try discriminate Hi; [constructor|].
  inversion Hb as [|? ? Hk Hb']; subst.
  cbn [map zip_with]. constructor.
  - destruct Hk as [-> | ->].
    + destruct (Qeqb0 (inject_Z c) || Qeqb1 (inject_Z 0) || Qeqb1 (inject_Z i));
        discriminate.
    + replace (Qeqb1 (inject_Z 1)) with true by reflexivity.
      rewrite orb_true_r. apply Qle_refl.
  - apply IH; [simpl in Hc; lia | simpl in Hi; lia | exact Hb'].
Qed.

Lemma timing_rates_of (observed : bool) (l : Locals) (n : nat)
      (stats : list (nat * TimingStats)) (k : nat) (r : TimingStats) (x y : Q) :
  length (l_pressure_applied l) = n ->
  length (l_completion l) = n ->
  length (l_sack l) = n ->
  length (l_interception l) = n ->
  Forall is_bit (l_sack l) ->
  fst (optimal_pressure_timing observed (finish l)) = Ok stats ->
  In (k, r) stats ->
  timing_sack_pct r = Some x -> success_rate r = Some y -> x <= y.
Proof.
  intros Hp Hc Hs Hi Hb.
  change (fst (optimal_pressure_timing observed (finish l)))
    with (Ok (map (fun k =>
                     let mask := eq1 (l_pressure_applied l) in
                     let g := in_bin k (map (cut1 pressure_bins)
                                            (select mask (map (round_dec 2) (l_time_to_pressure l)))) in
                     (k, {| success_rate :=
                              round_cell 3
                                (group_mean g
                                   (map inject_Z
                                      (map (fun b : bool => if b then 1%Z else 0%Z)
                                         (zip_with orb
                                            (zip_with orb
                                               (map Qeqb0 (map inject_Z (select mask (l_completion l))))
                                               (map Qeqb1 (map inject_Z (select mask (l_sack l)))))
                                            (map Qeqb1 (map inject_Z (select mask (l_interception l))))))));
                            timing_sack_pct :=
                              round_cell 3 (group_mean g (map inject_Z (select mask (l_sack l))));
                            avg_yards_allowed :=
                              round_cell 3
                                (group_mean g (select mask (map (round_dec 1) (l_yards_gained l))));
                            total_pressures :=
                              group_count g (IntCol (select mask (l_play_id l))) |}))
                  (bin_levels observed pressure_labels
                     (map (cut1 pressure_bins)
                          (select (eq1 (l_pressure_applied l))
                                  (map (round_dec 2) (l_time_to_pressure l))))))).
  intros H Hin. injection H as <-.
  apply in_map_iff in Hin. destruct Hin as [k' [E _]]. injection E as -> <-.
  cbn [timing_sack_pct success_rate]. unfold round_cell, group_mean.
  intros Hx Hy.
  destruct (mean (select _ (map inject_Z (select _ (l_sack l))))) as [x0|] eqn:Ex;
    [|discriminate Hx].
  destruct (mean (select _ (map inject_Z (map _ _)))) as [y0|] eqn:Ey;
    [|discriminate Hy].
  simpl in Hx, Hy. injection Hx as <-. injection Hy as <-.
  apply round_dec_mono.
  refine (mean_mono _ _ _ _ _ Ex Ey).
  apply select_Forall2. apply sack_le_successful.
  - rewrite !select_length; [reflexivity | |];
      unfold eq1; rewrite length_map; congruence.
  - rewrite !select_length; [reflexivity | |];
      unfold eq1; rewrite length_map; congruence.
  - apply select_Forall. exact Hb.
Qed.

(** X15. In the timing table of optimal_pressure_timing on a generated
    table, the success rate of a bucket is never below its sack rate: every
    sack counts as a successful pressure. *)
Theorem success_rate_at_least_sack_rate
  {rng : Type} {R : NumpyRandom rng} {L : NumpyRandomLaws R}
  (n : nat) (s : rng) (observed : bool)
  (stats : list (nat * TimingStats)) (k : nat) (r : TimingStats) (x y : Q) :
  fst (optimal_pressure_timing observed (fst (create_realistic_nfl_data n s))) = Ok stats ->
  In (k, r) stats ->
  timing_sack_pct r = Some x -> success_rate r = Some y -> x <= y.
Proof.
  rewrite created_table. apply (timing_rates_of observed _ n).
  - apply gen_length_pressure_applied.
  - apply gen_length_completion.
  - apply gen_length_sack.
  - apply gen_length_interception.
  - apply gen_sack_bits.
Qed.

Lemma success_rate_at_least_sack_rate_witness :
  NumpyRandomLaws TapeRandom /\
  exists (stats : list (nat * TimingStats)) (r : TimingStats) (x y : Q),
    fst (optimal_pressure_timing false example_table) = Ok stats /\
    In (0%nat, r) stats /\
    timing_sack_pct r = Some x /\ success_rate r = Some y /\ x <= y.
Proof.
  split; [exact tape_laws|].
  eexists. eexists. eexists. eexists.
  split; [vm_compute; reflexivity|].
  split; [left; reflexivity|].
  split; [reflexivity|]. split; [reflexivity|].
  eapply (@success_rate_at_least_sack_rate Tape TapeRandom tape_laws
            3%nat example_tape false).
  - vm_compute. reflexivity.
  - left. reflexivity.
  - reflexivity.
  - reflexivity.
Defined.
